(** * Snowflake warehouse driver: load, dedup-merge and schema reconciliation

    A shallow embedding of [warehouse/integrations/snowflake/snowflake.go].
    The driver builds SQL text with [fmt.Sprintf] and hands it to a database
    handle; both are modelled here: the text byte for byte, the handle as an
    abstract backend that records every call.  The meaning of the statements
    the driver emits is given separately, by a small relational reading of
    MERGE / row_number over lists of rows, connected to the text through the
    printer of the statement forms. *)

From stdpp Require Import base strings list gmap sorting pretty.
From Stdlib Require Import ZArith Ascii.

(** ** Go runtime pieces used by the driver *)

Module Go.

Definition nl  : string := String "010"%char "".
Definition tab : string := String "009"%char "".
Definition dq  : string := String "034"%char "".

Fixpoint tabs (n : nat) : string :=
  match n with
  | O => ""
  | S n' => tab +:+ tabs n'
  end.

(** One line of a raw string literal: [n] tabs, the text, a newline. *)
Definition ln (n : nat) (s : string) : string := tabs n +:+ s +:+ nl.

(** [strings.Join] *)
Fixpoint Join (elems : list string) (sep : string) : string :=
  match elems with
  | [] => ""
  | [s] => s
  | s :: rest => s +:+ sep +:+ Join rest sep
  end.

Definition hexdigit (n : N) : string :=
  String.substring (N.to_nat n) 1 "0123456789abcdef".

(** [strconv.Quote] byte by byte.  It is exact on the ASCII range; bytes
    from 0x80 up are copied, which is what Go does for the bytes of a
    printable rune in valid UTF-8 (Go escapes a rune that is not printable
    and a byte that is not valid UTF-8; such names are outside this model). *)
Definition quote_byte (c : ascii) : string :=
  let n := Ascii.N_of_ascii c in
  if (n =? 34)%N then "\" +:+ dq
  else if (n =? 92)%N then "\\"
  else if (n =? 7)%N then "\a"
  else if (n =? 8)%N then "\b"
  else if (n =? 12)%N then "\f"
  else if (n =? 10)%N then "\n"
  else if (n =? 13)%N then "\r"
  else if (n =? 9)%N then "\t"
  else if (n =? 11)%N then "\v"
  else if ((n <? 32) || (n =? 127))%N
       then "\x" +:+ hexdigit (n / 16) +:+ hexdigit (n mod 16)
  else String c "".

Fixpoint quote_bytes (s : string) : string :=
  match s with
  | EmptyString => ""
  | String c s' => quote_byte c +:+ quote_bytes s'
  end.

(** [fmt.Sprintf("%q", s)] *)
Definition quote (s : string) : string := dq +:+ quote_bytes s +:+ dq.

(** [sort.Strings]: ascending byte-wise order. *)
Definition sort_Strings (l : list string) : list string :=
  merge_sort String.le l.

Fixpoint has_prefix (p s : string) : bool :=
  match p, s with
  | EmptyString, _ => true
  | String a p', String b s' => bool_decide (a = b) && has_prefix p' s'
  | String _ _, EmptyString => false
  end.

(** [strings.Contains] *)
Fixpoint Contains (s sub : string) : bool :=
  has_prefix sub s ||
  match s with
  | EmptyString => false
  | String _ s' => Contains s' sub
  end.

(** [strings.TrimSuffix] for a one-byte suffix. *)
Fixpoint TrimSuffix1 (s : string) (c : ascii) : string :=
  match s with
  | EmptyString => EmptyString
  | String a EmptyString => if bool_decide (a = c) then EmptyString else s
  | String a s' => String a (TrimSuffix1 s' c)
  end.

End Go.

(** ** Errors *)

(** Go [error] values as the driver sees them: the Snowflake client's typed
    error (with its SQLSTATE; [Message] stands for the whole text its
    [Error] method prints, the client's number and state included),
    [sql.ErrNoRows], plain messages and errors wrapped with ["%w"].  A nil
    error is [None] of [option error]. *)
Inductive error : Type :=
| SnowflakeError (SQLState Message : string)
| ErrNoRows
| errorString (msg : string)
| wrapError (msg : string) (err : error).

Global Instance error_eq_dec : EqDecision error.
Proof. solve_decision. Defined.

(** [err.Error()] *)
Definition Error (e : error) : string :=
  match e with
  | SnowflakeError _ m => m
  | ErrNoRows => "sql: no rows in result set"
  | errorString m => m
  | wrapError m _ => m
  end.

(** An error value formatted with ["%v"]; nil prints as [<nil>]. *)
Definition Error_v (err : option error) : string :=
  match err with
  | Some e => Error e
  | None => "<nil>"
  end.

(** [fmt.Errorf(prefix + "%w", err)] *)
Definition Errorf_w (prefix : string) (err : error) : error :=
  wrapError (prefix +:+ Error err) err.

(** [fmt.Errorf(prefix + "(%v)", err)]: the cause is formatted, not wrapped. *)
Definition Errorf_v (prefix : string) (err : error) : error :=
  errorString (prefix +:+ "(" +:+ Error err +:+ ")").

(** [errors.Is] *)
Fixpoint errors_Is (err target : error) : bool :=
  bool_decide (err = target) ||
  match err with
  | wrapError _ inner => errors_Is inner target
  | _ => false
  end.

(** ** Data model *)

Abbreviation TableSchema := (gmap string string).
Abbreviation Schema := (gmap string (gmap string string)).

Record ColumnInfo := { Name : string; Type_ : string }.

Record LoadFile := { Location : string }.

Record Warehouse := {
  Source_ID : string;
  Source_SourceDefinition_Name : string;
  Destination_ID : string;
  Destination_DestinationDefinition_Name : string;
  Destination_Config : gmap string string;
  WorkspaceID : string;
  Warehouse_Namespace : string;
}.

(** The [warehouseutils.Uploader] interface, as far as the driver calls it. *)
Record Uploader := {
  GetTableSchemaInUpload : string → TableSchema;
  GetTableSchemaInWarehouse : string → TableSchema;
  GetSampleLoadFileLocation : string → error + string;
  GetSingleLoadFile : string → error + LoadFile;
  ShouldOnDedupUseNewRecord : bool;
  UseRudderStorage : bool;
}.

Definition handle := nat.

Record credentials := {
  cred_account : string;
  cred_warehouse : string;
  cred_database : string;
  cred_user : string;
  cred_role : string;
  cred_password : string;
  cred_schemaName : string;
  cred_timeout : Z;
}.

Record optionalCreds := { schemaName : string }.

(** [gosnowflake.Config], the fields [connect] fills in. *)
Record urlConfig := {
  Account : string;
  User : string;
  Role : string;
  Password : string;
  Database : string;
  Schema_ : string;
  Warehouse_ : string;
  Application : string;
  LoginTimeout : Z;
}.

Record Snowflake := {
  DB : handle;
  Namespace : string;
  CloudProvider : string;
  ObjectStorage : string;
  sf_Warehouse : Warehouse;
  sf_Uploader : Uploader;
  connectTimeout : Z;
}.

Record tableLoadResp := {
  resp_db : option handle;
  stagingTable : string;
}.

Definition tableNameLimit : nat := 127.
Definition storageIntegration : string := "storageIntegration".
Definition account : string := "account".
Definition warehouse : string := "warehouse".
Definition database : string := "database".
Definition user : string := "user".
Definition role : string := "role".
Definition password : string := "password".
Definition application : string := "Rudderstack_Warehouse".

(** Declarations of this repository that [snowflake.go] uses and that live in
    other files ([warehouse/utils], [utils/misc], the driver's datatype
    tables): taken as parameters.  [rangeKeys] is the order in which the Go
    runtime iterates a map: unspecified, but every key comes up once. *)
Class Externals := {
  provider : string;
  usersTable : string;
  identifiesTable : string;
  discardsTable : string;
  identityMergeRulesTable : string;
  identityMappingsTable : string;
  UsersTable : string;
  MissingDatatype : string;
  RudderMissingDatatype : string;
  StagingTableName : string → string → nat → string;
  GetObjectFolder : string → string → string;
  GetObjectLocation : string → string → string;
  GetConfigValue : string → Warehouse → string;
  IsConfiguredToUseRudderObjectStorage : gmap string string → bool;
  GetTemporaryS3Cred : Warehouse → string * string * string;
  ReplaceMultiRegex : string → list (string * string) → error + string;
  dataTypesMap : gmap string string;
  calculateDataType : string → option Z → option string;
  rangeKeys : gmap string string → list string;
  rangeKeys_keys : ∀ m, rangeKeys m ≡ₚ (map_to_list m).*1;
}.

(** ** The database handle *)

Inductive row_result (A : Type) : Type :=
| RowErr (e : error)       (* the query failed: [row.Err()] is set *)
| RowScanErr (e : error)   (* the query ran, [row.Scan] failed *)
| RowScan (a : A).         (* [row.Scan] filled its targets *)
Global Arguments RowErr {A} e.
Global Arguments RowScanErr {A} e.
Global Arguments RowScan {A} a.

Definition row_Err {A} (r : row_result A) : option error :=
  match r with
  | RowErr e => Some e
  | _ => None
  end.

Definition row_Scan {A} (r : row_result A) : error + A :=
  match r with
  | RowErr e => inl e
  | RowScanErr e => inl e
  | RowScan a => inr a
  end.

(** One row of [INFORMATION_SCHEMA.COLUMNS] as [FetchSchema] scans it. *)
Record column_row := {
  col_table : string;
  col_name : string;
  col_type : string;
  col_scale : option Z;     (* [sql.NullInt64] *)
}.

(** [*sql.Rows]: what each [rows.Scan] gives, then [rows.Err()]. *)
Record Rows := {
  rows_scans : list (error + column_row);
  rows_Err : option error;
}.

(** The database behind [database/sql] and the Snowflake client.  The driver
    cannot see its state [B]; it sees the answers. *)
Class Backend (B : Type) := {
  snowflake_DSN : urlConfig → error + string;
  sql_Open : string → B → (error + handle) * B;
  ExecContext : handle → string → B → option error * B;
  QueryRowBool : handle → string → B → row_result bool * B;
  QueryRowCounts : handle → string → B → row_result (Z * Z) * B;
  QueryContext : handle → string → list string → B → (error + Rows) * B;
  Close : handle → B → B;
}.

(** ** Effects: the calls a driver function makes, in order *)

(** Keys of structured log fields: the constants of package [logfield]
    that the driver uses, and the string each stands for. *)
Module logfield.
Inductive key :=
| SourceID | SourceType | DestinationID | DestinationType | WorkspaceID
| Namespace | Schema | TableName | StagingTableName | Query | Error.

Global Instance key_eq_dec : EqDecision key.
Proof. solve_decision. Defined.

Definition name (k : key) : string :=
  match k with
  | SourceID => "sourceID"
  | SourceType => "sourceType"
  | DestinationID => "destinationID"
  | DestinationType => "destinationType"
  | WorkspaceID => "workspaceID"
  | Namespace => "namespace"
  | Schema => "schema"
  | TableName => "tableName"
  | StagingTableName => "stagingTableName"
  | Query => "query"
  | Error => "error"
  end.
End logfield.

Definition kv := list (logfield.key * string).

Inductive level := LDebug | LInfo | LWarn | LError.

Inductive event : Type :=
| EOpen (h : handle)
| EClose (h : handle)
| EExec (h : handle) (query : string)
| EQueryRow (h : handle) (query : string)
| EQuery (h : handle) (query : string) (args : list string)
| ELog (lv : level) (msg : string) (fields : kv)
| EStat (name : string) (tags : list (string * string)) (n : Z).

Global Instance level_eq_dec : EqDecision level.
Proof. solve_decision. Defined.
Global Instance event_eq_dec : EqDecision event.
Proof. solve_decision. Defined.

Record world (B : Type) := World { backend : B; trace : list event }.
Global Arguments World {B} _ _.
Global Arguments backend {B} _.
Global Arguments trace {B} _.

Inductive outcome (A : Type) : Type :=
| Return (a : A)
| Panic (msg : string).
Global Arguments Return {A} a.
Global Arguments Panic {A} msg.

Definition M (B A : Type) : Type := world B → outcome A * world B.

Global Instance M_ret {B} : MRet (M B) := λ A a w, (Return a, w).

Global Instance M_bind {B} : MBind (M B) := λ A A' f m w,
  match m w with
  | (Return a, w') => f a w'
  | (Panic msg, w') => (Panic msg, w')
  end.

Definition panic {B A} (msg : string) : M B A := λ w, (Panic msg, w).

Definition emit {B} (e : event) : M B unit :=
  λ w, (Return tt, World (backend w) (trace w ++ [e])).

(** A backend call: the answer comes from the backend, the call is recorded. *)
Definition call {B A} (e : event) (f : B → A * B) : M B A :=
  λ w, let '(a, b) := f (backend w) in (Return a, World b (trace w ++ [e])).

(** [defer cleanup()] around the rest of the function body: the cleanup runs
    when the body returns and also when it panics. *)
Definition defer {B A} (cleanup : M B unit) (body : M B A) : M B A :=
  λ w, let '(r, w1) := body w in (r, (cleanup w1).2).

Definition Infof {B} (msg : string) : M B unit := emit (ELog LInfo msg []).
Definition Errorf {B} (msg : string) : M B unit := emit (ELog LError msg []).
Definition Infow {B} (msg : string) (fields : kv) : M B unit :=
  emit (ELog LInfo msg fields).
Definition Debugw {B} (msg : string) (fields : kv) : M B unit :=
  emit (ELog LDebug msg fields).
Definition Warnw {B} (msg : string) (fields : kv) : M B unit :=
  emit (ELog LWarn msg fields).

(** ** The driver *)

Section Driver.
Context `{Externals} {B : Type} `{!Backend B}.

Import Go.

Definition exec (h : handle) (query : string) : M B (option error) :=
  call (EExec h query) (ExecContext h query).

Definition queryRowBool (h : handle) (query : string) : M B (row_result bool) :=
  call (EQueryRow h query) (QueryRowBool h query).

Definition queryRowCounts (h : handle) (query : string) : M B (row_result (Z * Z)) :=
  call (EQueryRow h query) (QueryRowCounts h query).

Definition query (h : handle) (q : string) (args : list string) : M B (error + Rows) :=
  call (EQuery h q args) (QueryContext h q args).

Definition close (h : handle) : M B unit :=
  call (EClose h) (λ b, (tt, Close h b)).

Definition open (dsn : string) : M B (error + handle) :=
  λ w, let '(r, b) := sql_Open dsn (backend w) in
       (Return r,
        World b (trace w ++ match r with inr h => [EOpen h] | inl _ => [] end)).

Definition primaryKeyMap : gmap string string :=
  <[discardsTable := "ROW_ID"]>
    (<[identifiesTable := "ID"]> (<[usersTable := "ID"]> ∅)).

Definition partitionKeyMap : gmap string string :=
  <[discardsTable :=
      dq +:+ "ROW_ID" +:+ dq +:+ ", " +:+ dq +:+ "COLUMN_NAME" +:+ dq +:+ ", "
         +:+ dq +:+ "TABLE_NAME" +:+ dq]>
    (<[identifiesTable := dq +:+ "ID" +:+ dq]>
       (<[usersTable := dq +:+ "ID" +:+ dq]> ∅)).

(** The three patterns under which temporary storage credentials occur in
    a statement, and what replaces them. *)
Definition secretsRegex : list (string * string) :=
  [ ("AWS_KEY_ID='[^']*'", "AWS_KEY_ID='***'");
    ("AWS_SECRET_KEY='[^']*'", "AWS_SECRET_KEY='***'");
    ("AWS_TOKEN='[^']*'", "AWS_TOKEN='***'") ].

(** Modelled from the spec: [warehouseutils.GetColumnsFromTableSchema] is
    declared outside this file; it yields the column names of a table
    schema, in map iteration order. *)
Definition GetColumnsFromTableSchema (columns : TableSchema) : list string :=
  rangeKeys columns.

(** Modelled from the spec: [warehouseutils.JoinWithFormatting] is declared
    outside this file; the spec describes its result as the "comma-joined,
    quoted column list": every key formatted by the callback, joined by
    the separator. *)
Definition JoinWithFormatting (keys : list string)
    (format : nat → string → string) (separator : string) : string :=
  Join (imap format keys) separator.

Definition ColumnsWithDataTypes (columns : TableSchema) (prefix : string) : string :=
  let arr :=
    map (λ name,
           let dataType := default "" (columns !! name) in
           dq +:+ prefix +:+ name +:+ dq +:+ " "
              +:+ default "" (dataTypesMap !! dataType))
        (rangeKeys columns) in
  Join arr ",".

Definition schemaIdentifier (sf : Snowflake) : string :=
  quote (Namespace sf).

Definition createTableSQL (schemaIdentifier tableName columns : string) : string :=
  "CREATE TABLE IF NOT EXISTS " +:+ schemaIdentifier +:+ "." +:+ quote tableName
    +:+ " ( " +:+ columns +:+ " )".

Definition createTable (sf : Snowflake) (tableName : string)
    (columns : TableSchema) : M B (option error) :=
  let schemaIdentifier := schemaIdentifier sf in
  let sqlStatement :=
    createTableSQL schemaIdentifier tableName (ColumnsWithDataTypes columns "") in
  Infof ("Creating table in snowflake for SF:" +:+ Destination_ID (sf_Warehouse sf)
           +:+ " : " +:+ sqlStatement);;
  exec (DB sf) sqlStatement.

Definition schemaExistsSQL (namespace : string) : string :=
  "SELECT EXISTS ( SELECT 1 FROM INFORMATION_SCHEMA.SCHEMATA WHERE SCHEMA_NAME = '"
    +:+ namespace +:+ "' )".

Definition schemaExists (sf : Snowflake) : M B (bool * option error) :=
  let sqlStatement := schemaExistsSQL (Namespace sf) in
  r ← queryRowBool (DB sf) sqlStatement;
  match row_Scan r with
  | inr exists_ => mret (exists_, None)
  | inl err =>
      (* ignore err if no results for query *)
      if decide (err = ErrNoRows) then mret (false, None)
      else mret (false, Some err)
  end.

Definition createSchemaSQL (schemaIdentifier : string) : string :=
  "CREATE SCHEMA IF NOT EXISTS " +:+ schemaIdentifier.

Definition createSchema (sf : Snowflake) : M B (option error) :=
  let schemaIdentifier := schemaIdentifier sf in
  let sqlStatement := createSchemaSQL schemaIdentifier in
  Infof ("SF: Creating schema name in snowflake for "
           +:+ Warehouse_Namespace (sf_Warehouse sf) +:+ ":"
           +:+ Destination_ID (sf_Warehouse sf) +:+ " : " +:+ sqlStatement);;
  exec (DB sf) sqlStatement.

Definition checkAndIgnoreAlreadyExistError (err : option error) : bool :=
  match err with
  | Some e =>
      match e with
      | SnowflakeError SQLState _ =>
          if decide (SQLState = "42601") then true else false
      | _ => false
      end
  | None => true
  end.

Definition authString (sf : Snowflake) : string :=
  if IsConfiguredToUseRudderObjectStorage (Destination_Config (sf_Warehouse sf))
     || (bool_decide (CloudProvider sf = "AWS")
         && bool_decide (GetConfigValue storageIntegration (sf_Warehouse sf) = ""))
  then
    let '(tempAccessKeyId, tempSecretAccessKey, token) :=
      GetTemporaryS3Cred (sf_Warehouse sf) in
    "CREDENTIALS = (AWS_KEY_ID='" +:+ tempAccessKeyId
      +:+ "' AWS_SECRET_KEY='" +:+ tempSecretAccessKey
      +:+ "' AWS_TOKEN='" +:+ token +:+ "')"
  else
    "STORAGE_INTEGRATION = " +:+ GetConfigValue storageIntegration (sf_Warehouse sf).

Definition getConnectionCredentials (sf : Snowflake) (opts : optionalCreds)
    : credentials :=
  {| cred_account := GetConfigValue account (sf_Warehouse sf);
     cred_warehouse := GetConfigValue warehouse (sf_Warehouse sf);
     cred_database := GetConfigValue database (sf_Warehouse sf);
     cred_user := GetConfigValue user (sf_Warehouse sf);
     cred_role := GetConfigValue role (sf_Warehouse sf);
     cred_password := GetConfigValue password (sf_Warehouse sf);
     cred_schemaName := schemaName opts;
     cred_timeout := connectTimeout sf |}.

Definition connect (sf : Snowflake) (opts : optionalCreds) : M B (error + handle) :=
  let cred := getConnectionCredentials sf opts in
  let urlConfig :=
    {| Account := cred_account cred;
       User := cred_user cred;
       Role := cred_role cred;
       Password := cred_password cred;
       Database := cred_database cred;
       Schema_ := cred_schemaName cred;
       Warehouse_ := cred_warehouse cred;
       Application := application;
       LoginTimeout := if (0 <? cred_timeout cred)%Z then cred_timeout cred else 0%Z |} in
  match snowflake_DSN (B := B) urlConfig with
  | inl err => mret (inl (Errorf_v "SF: Error costructing DSN to connect : " err))
  | inr dsn =>
      r ← open dsn;
      match r with
      | inl err => mret (inl (Errorf_v "SF: snowflake connect error : " err))
      | inr db =>
          let alterStatement := "ALTER SESSION SET ABORT_DETACHED_QUERY=TRUE" in
          err ← exec db alterStatement;
          match err with
          | Some err =>
              mret (inl (Errorf_v "SF: snowflake alter session error : " err))
          | None => mret (inr db)
          end
      end
  end.

Definition CreateSchema (sf : Snowflake) : M B (option error) :=
  let schemaIdentifier := schemaIdentifier sf in
  '(schemaExists, err) ← schemaExists sf;
  match err with
  | Some err =>
      Errorf ("SF: Error checking if schema: " +:+ schemaIdentifier
                +:+ " exists: " +:+ Error err);;
      mret (Some err)
  | None =>
      if schemaExists : bool then
        Infof ("SF: Skipping creating schema: " +:+ schemaIdentifier
                 +:+ " since it already exists");;
        mret None
      else createSchema sf
  end.

Definition CreateTable (sf : Snowflake) (tableName : string)
    (columnMap : TableSchema) : M B (option error) :=
  createTable sf tableName columnMap.

Definition addColumnsSQL (schemaIdentifier tableName : string)
    (columnsInfo : list ColumnInfo) : string :=
  let queryBuilder :=
    nl +:+ tabs 2 +:+ "ALTER TABLE" +:+ nl
       +:+ tabs 2 +:+ "  " +:+ schemaIdentifier +:+ "." +:+ quote tableName +:+ nl
       +:+ tabs 2 +:+ "ADD COLUMN" in
  let queryBuilder :=
    foldl (λ qb columnInfo,
             qb +:+ " " +:+ quote (Name columnInfo) +:+ " "
                +:+ default "" (dataTypesMap !! Type_ columnInfo) +:+ ",")
          queryBuilder columnsInfo in
  TrimSuffix1 queryBuilder ","%char +:+ ";".

Definition AddColumns (sf : Snowflake) (tableName : string)
    (columnsInfo : list ColumnInfo) : M B (option error) :=
  let schemaIdentifier := schemaIdentifier sf in
  let query := addColumnsSQL schemaIdentifier tableName columnsInfo in
  Infof ("SF: Adding columns for destinationID: " +:+ Destination_ID (sf_Warehouse sf)
           +:+ ", tableName: " +:+ tableName +:+ " with query: " +:+ query);;
  err ← exec (DB sf) query;
  (* Handle error in case of single column *)
  match columnsInfo, err with
  | [columnInfo], Some e =>
      if checkAndIgnoreAlreadyExistError err then
        Infof ("SF: Column " +:+ Name columnInfo +:+ " already exists on "
                 +:+ schemaIdentifier +:+ "." +:+ tableName +:+ " " +:+ nl
                 +:+ "Response: " +:+ Error e);;
        mret None
      else mret err
  | _, _ => mret err
  end.

(** *** Table load: staging, bulk copy, dedup merge *)

Definition loadFields (sf : Snowflake) : kv :=
  [ (logfield.SourceID, Source_ID (sf_Warehouse sf));
    (logfield.SourceType, Source_SourceDefinition_Name (sf_Warehouse sf));
    (logfield.DestinationID, Destination_ID (sf_Warehouse sf));
    (logfield.DestinationType, Destination_DestinationDefinition_Name (sf_Warehouse sf));
    (logfield.WorkspaceID, WorkspaceID (sf_Warehouse sf));
    (logfield.Namespace, Namespace sf) ].

Definition dedupTags (sf : Snowflake) (tableName : string) : list (string * string) :=
  [ ("sourceID", Source_ID (sf_Warehouse sf));
    ("sourceType", Source_SourceDefinition_Name (sf_Warehouse sf));
    ("destID", Destination_ID (sf_Warehouse sf));
    ("destType", Destination_DestinationDefinition_Name (sf_Warehouse sf));
    ("workspaceId", WorkspaceID (sf_Warehouse sf));
    ("tableName", tableName) ].

Definition createTemporaryTableSQL
    (schemaIdentifier stagingTableName tableName : string) : string :=
  nl +:+
  ln 2 ("CREATE TEMPORARY TABLE " +:+ schemaIdentifier +:+ "." +:+ quote stagingTableName
          +:+ " LIKE " +:+ schemaIdentifier +:+ "." +:+ quote tableName +:+ ";").

Definition copyIntoSQL (target sortedColumnNames loadFolder auth : string) : string :=
  nl +:+
  ln 2 "COPY INTO" +:+
  ln 3 (target +:+ "(" +:+ sortedColumnNames +:+ ")") +:+
  ln 2 "FROM" +:+
  ln 2 ("  '" +:+ loadFolder +:+ "' " +:+ auth) +:+
  ln 2 "PATTERN = '.*\.csv\.gz'" +:+
  ln 2 ("FILE_FORMAT = ( TYPE = csv FIELD_OPTIONALLY_ENCLOSED_BY = '" +:+ dq
          +:+ "' ESCAPE_UNENCLOSED_FIELD = NONE)") +:+
  ln 2 "TRUNCATECOLUMNS = TRUE;".

(** The MERGE template; both policy branches of [loadTable] use the same
    text and differ in the UPDATE SET clause they pass. *)
Definition mergeIntoSQL
    (tableName stagingTableName primaryKey sortedColumnNames stagingColumnNames
     updateSet additionalJoinClause partitionKey schemaIdentifier : string) : string :=
  nl +:+
  ln 3 ("MERGE INTO " +:+ schemaIdentifier +:+ "." +:+ quote tableName
          +:+ " AS original USING (") +:+
  ln 3 "  SELECT" +:+
  ln 4 "*" +:+
  ln 3 "  FROM" +:+
  ln 4 "(" +:+
  ln 4 "  SELECT" +:+
  ln 5 "*," +:+
  ln 5 "row_number() OVER (" +:+
  ln 5 ("  PARTITION BY " +:+ partitionKey) +:+
  ln 5 "  ORDER BY" +:+
  ln 6 "RECEIVED_AT DESC" +:+
  ln 5 ") AS _rudder_staging_row_number" +:+
  ln 4 "  FROM" +:+
  ln 5 (schemaIdentifier +:+ "." +:+ quote stagingTableName) +:+
  ln 4 ") AS q" +:+
  ln 3 "  WHERE" +:+
  ln 4 "_rudder_staging_row_number = 1" +:+
  ln 3 ") AS staging ON (" +:+
  ln 3 ("  original." +:+ quote primaryKey +:+ " = staging." +:+ quote primaryKey
          +:+ " " +:+ additionalJoinClause) +:+
  ln 3 ")" +:+
  ln 3 "WHEN NOT MATCHED THEN" +:+
  ln 3 ("  INSERT (" +:+ sortedColumnNames +:+ ") VALUES (" +:+ stagingColumnNames +:+ ")") +:+
  ln 3 "WHEN MATCHED THEN" +:+
  ln 3 ("  UPDATE SET " +:+ updateSet +:+ ";").

Definition strKeysOf (tableSchemaInUpload : TableSchema) : list string :=
  sort_Strings (GetColumnsFromTableSchema tableSchemaInUpload).

Definition sortedColumnNamesOf (strKeys : list string) : string :=
  JoinWithFormatting strKeys (λ _ name, quote name) ",".

Definition stagingColumnNamesOf (strKeys : list string) : string :=
  JoinWithFormatting strKeys (λ _ name, "staging." +:+ quote name) ",".

Definition columnsWithValuesOf (strKeys : list string) : string :=
  JoinWithFormatting strKeys
    (λ _ name, "original." +:+ quote name +:+ " = staging." +:+ quote name) ",".

Definition primaryKeyOf (tableName : string) : string :=
  default "ID" (primaryKeyMap !! tableName).

Definition partitionKeyOf (tableName : string) : string :=
  default (dq +:+ "ID" +:+ dq) (partitionKeyMap !! tableName).

Definition additionalJoinClauseOf (tableName : string) : string :=
  if decide (tableName = discardsTable) then
    "AND original." +:+ quote "TABLE_NAME" +:+ " = staging." +:+ quote "TABLE_NAME"
      +:+ " AND original." +:+ quote "COLUMN_NAME" +:+ " = staging." +:+ quote "COLUMN_NAME"
  else "".

(** The COPY statement of a table load (before the merge). *)
Definition loadTableCopySQL (sf : Snowflake) (tableName : string)
    (tableSchemaInUpload : TableSchema) (csvObjectLocation : string) : string :=
  let strKeys := strKeysOf tableSchemaInUpload in
  let stagingTableName := StagingTableName provider tableName tableNameLimit in
  let loadFolder := GetObjectFolder (ObjectStorage sf) csvObjectLocation in
  copyIntoSQL (schemaIdentifier sf +:+ "." +:+ quote stagingTableName)
              (sortedColumnNamesOf strKeys) loadFolder (authString sf).

(** The dedup statement of a table load, or the run-time panic of
    [strKeys[0]] on an empty column list in the keep-first branch. *)
Definition dedupSQL (sf : Snowflake) (tableName : string) (strKeys : list string)
    (keepLatestRecordOnDedup : bool) : outcome string :=
  let stagingTableName := StagingTableName provider tableName tableNameLimit in
  let primaryKey := primaryKeyOf tableName in
  let partitionKey := partitionKeyOf tableName in
  let sortedColumnNames := sortedColumnNamesOf strKeys in
  let stagingColumnNames := stagingColumnNamesOf strKeys in
  let columnsWithValues := columnsWithValuesOf strKeys in
  let additionalJoinClause := additionalJoinClauseOf tableName in
  if keepLatestRecordOnDedup then
    Return (mergeIntoSQL tableName stagingTableName primaryKey sortedColumnNames
              stagingColumnNames columnsWithValues additionalJoinClause partitionKey
              (schemaIdentifier sf))
  else
    match strKeys !! 0%nat with
    | None => Panic "runtime error: index out of range [0] with length 0"
    | Some key0 =>
        (* This is being added in order to get the updates count *)
        let dummyColumnWithValues :=
          "original." +:+ quote key0 +:+ " = original." +:+ quote key0 in
        Return (mergeIntoSQL tableName stagingTableName primaryKey sortedColumnNames
                  stagingColumnNames dummyColumnWithValues additionalJoinClause
                  partitionKey (schemaIdentifier sf))
    end.

Definition lift_outcome {A} (o : outcome A) : M B A := λ w, (o, w).

Definition noResp : tableLoadResp := {| resp_db := None; stagingTable := "" |}.

(** [loadTable] after the connection is open; a deferred close, when there
    is one, wraps this body. *)
Definition loadTable_body (sf : Snowflake) (db : handle) (tableName : string)
    (tableSchemaInUpload : TableSchema) : M B (tableLoadResp * option error) :=
  let strKeys := strKeysOf tableSchemaInUpload in
  let schemaIdentifier := schemaIdentifier sf in
  let stagingTableName := StagingTableName provider tableName tableNameLimit in
  let sqlStatement :=
    createTemporaryTableSQL schemaIdentifier stagingTableName tableName in
  let fields := loadFields sf ++ [(logfield.TableName, tableName)] in
  Debugw "creating temporary table"
    (fields ++ [(logfield.StagingTableName, stagingTableName)]);;
  err ← exec db sqlStatement;
  match err with
  | Some err =>
      Warnw "failure creating temporary table"
        (fields ++ [(logfield.StagingTableName, stagingTableName);
                    (logfield.Error, Error err)]);;
      mret (noResp, Some (Errorf_w "create temporary table: " err))
  | None =>
  match GetSampleLoadFileLocation (sf_Uploader sf) tableName with
  | inl err =>
      mret (noResp, Some (Errorf_w "getting sample load file location: " err))
  | inr csvObjectLocation =>
  (* Truncating the columns by default to avoid size limitation errors *)
  let sqlStatement :=
    loadTableCopySQL sf tableName tableSchemaInUpload csvObjectLocation in
  let sanitisedQuery :=
    match ReplaceMultiRegex sqlStatement secretsRegex with
    | inr sanitised => sanitised
    | inl regexErr => ""
    end in
  Infow "copy command" (fields ++ [(logfield.Query, sanitisedQuery)]);;
  err ← exec db sqlStatement;
  match err with
  | Some err =>
      Warnw "failure running COPY command"
        (fields ++ [(logfield.Query, sanitisedQuery); (logfield.Error, Error err)]);;
      mret (noResp, Some (Errorf_w "copy into table: " err))
  | None =>
  let keepLatestRecordOnDedup := ShouldOnDedupUseNewRecord (sf_Uploader sf) in
  sqlStatement ← lift_outcome (dedupSQL sf tableName strKeys keepLatestRecordOnDedup);
  Infow "deduplication" (fields ++ [(logfield.Query, sqlStatement)]);;
  row ← queryRowCounts db sqlStatement;
  match row_Err row with
  | Some rowErr =>
      Warnw "failure running deduplication"
        (fields ++ [(logfield.Query, sqlStatement); (logfield.Error, Error rowErr)]);;
      mret (noResp, Some (Errorf_w "merge into table: " rowErr))
  | None =>
  match row_Scan row with
  | inl err =>
      Warnw "getting rows affected for dedup"
        (fields ++ [(logfield.Query, sqlStatement); (logfield.Error, Error err)]);;
      mret (noResp, Some (Errorf_w "getting rows affected for dedup: " err))
  | inr (inserted, updated) =>
      emit (EStat "dedup_rows" (dedupTags sf tableName) updated);;
      Infow "completed loading" fields;;
      mret ({| resp_db := Some db; stagingTable := stagingTableName |}, None)
  end end end end end.

Definition loadTable (sf : Snowflake) (tableName : string)
    (tableSchemaInUpload : TableSchema) (skipClosingDBSession : bool)
    : M B (tableLoadResp * option error) :=
  Infow "started loading" (loadFields sf ++ [(logfield.TableName, tableName)]);;
  r ← connect sf {| schemaName := Namespace sf |};
  match r with
  | inl err => mret (noResp, Some (Errorf_w "connect: " err))
  | inr db =>
      if skipClosingDBSession
      then loadTable_body sf db tableName tableSchemaInUpload
      else defer (close db) (loadTable_body sf db tableName tableSchemaInUpload)
  end.

Definition LoadTable (sf : Snowflake) (tableName : string) : M B (option error) :=
  '(_, err) ← loadTable sf tableName
                (GetTableSchemaInUpload (sf_Uploader sf) tableName) false;
  mret err.

(** *** Identity tables *)

Definition identityCopySQL (target sortedColumnNames loadLocation auth : string)
    : string :=
  ln 0 ("COPY INTO " +:+ target +:+ "(" +:+ sortedColumnNames +:+ ") FROM '"
          +:+ loadLocation +:+ "' " +:+ auth +:+ " PATTERN = '.*\.csv\.gz'") +:+
  tabs 2 +:+ "FILE_FORMAT = ( TYPE = csv FIELD_OPTIONALLY_ENCLOSED_BY = '" +:+ dq
    +:+ "' ESCAPE_UNENCLOSED_FIELD = NONE ) TRUNCATECOLUMNS = TRUE".

Definition LoadIdentityMergeRulesTable (sf : Snowflake) : M B (option error) :=
  Infof ("SF: Starting load for table:" +:+ identityMergeRulesTable +:+ nl);;
  Infof ("SF: Fetching load file location for " +:+ identityMergeRulesTable);;
  match GetSingleLoadFile (sf_Uploader sf) identityMergeRulesTable with
  | inl err => mret (Some err)
  | inr loadFile =>
  r ← connect sf {| schemaName := Namespace sf |};
  match r with
  | inl err =>
      Errorf ("SF: Error establishing connection for copying table:"
                +:+ identityMergeRulesTable +:+ ": " +:+ Error err +:+ nl);;
      mret (Some err)
  | inr dbHandle =>
  let sortedColumnNames :=
    Join ["MERGE_PROPERTY_1_TYPE"; "MERGE_PROPERTY_1_VALUE";
          "MERGE_PROPERTY_2_TYPE"; "MERGE_PROPERTY_2_VALUE"] "," in
  let loadLocation := GetObjectLocation (ObjectStorage sf) (Location loadFile) in
  let schemaIdentifier := schemaIdentifier sf in
  let sqlStatement :=
    identityCopySQL (schemaIdentifier +:+ "." +:+ quote identityMergeRulesTable)
      sortedColumnNames loadLocation (authString sf) in
  match ReplaceMultiRegex sqlStatement secretsRegex with
  | inr sanitisedSQLStmt =>
      Infof ("SF: Dedup records for table:" +:+ identityMergeRulesTable
               +:+ " using staging table: " +:+ sanitisedSQLStmt +:+ nl)
  | inl regexErr => mret tt
  end;;
  err ← exec dbHandle sqlStatement;
  match err with
  | Some err =>
      Errorf ("SF: Error running MERGE for dedup: " +:+ Error err +:+ nl);;
      mret (Some err)
  | None =>
      Infof ("SF: Complete load for table:" +:+ identityMergeRulesTable +:+ nl);;
      mret None
  end end end.

Definition mappingsCreateTemporaryTableSQL
    (schemaIdentifier stagingTableName identityMappingsTable : string) : string :=
  "CREATE TEMPORARY TABLE " +:+ schemaIdentifier +:+ "." +:+ quote stagingTableName
    +:+ " LIKE " +:+ schemaIdentifier +:+ "." +:+ quote identityMappingsTable.

Definition addAutoincrementSQL (schemaIdentifier stagingTableName : string) : string :=
  "ALTER TABLE " +:+ schemaIdentifier +:+ "." +:+ quote stagingTableName
    +:+ " ADD COLUMN " +:+ dq +:+ "ID" +:+ dq
    +:+ " int AUTOINCREMENT start 1 increment 1".

Definition mappingsColumns : string :=
  dq +:+ "MERGE_PROPERTY_TYPE" +:+ dq +:+ ", " +:+ dq +:+ "MERGE_PROPERTY_VALUE" +:+ dq
     +:+ ", " +:+ dq +:+ "RUDDER_ID" +:+ dq +:+ ", " +:+ dq +:+ "UPDATED_AT" +:+ dq.

Definition mappingsMergeSQL
    (identityMappingsTable stagingTableName schemaIdentifier : string) : string :=
  ln 0 ("MERGE INTO " +:+ schemaIdentifier +:+ "." +:+ quote identityMappingsTable
          +:+ " AS original") +:+
  ln 9 "USING (" +:+
  ln 10 "SELECT * FROM (" +:+
  ln 11 ("SELECT *, row_number() OVER (PARTITION BY " +:+ dq +:+ "MERGE_PROPERTY_TYPE"
           +:+ dq +:+ ", " +:+ dq +:+ "MERGE_PROPERTY_VALUE" +:+ dq +:+ " ORDER BY "
           +:+ dq +:+ "ID" +:+ dq +:+ " DESC) AS _rudder_staging_row_number FROM "
           +:+ schemaIdentifier +:+ "." +:+ quote stagingTableName) +:+
  ln 10 ") AS q WHERE _rudder_staging_row_number = 1" +:+
  ln 9 ") AS staging" +:+
  ln 9 ("ON (original." +:+ dq +:+ "MERGE_PROPERTY_TYPE" +:+ dq +:+ " = staging." +:+ dq
          +:+ "MERGE_PROPERTY_TYPE" +:+ dq +:+ " AND original." +:+ dq
          +:+ "MERGE_PROPERTY_VALUE" +:+ dq +:+ " = staging." +:+ dq
          +:+ "MERGE_PROPERTY_VALUE" +:+ dq +:+ ")") +:+
  ln 9 "WHEN MATCHED THEN" +:+
  ln 9 ("UPDATE SET original." +:+ dq +:+ "RUDDER_ID" +:+ dq +:+ " = staging." +:+ dq
          +:+ "RUDDER_ID" +:+ dq +:+ ", original." +:+ dq +:+ "UPDATED_AT" +:+ dq
          +:+ " =  staging." +:+ dq +:+ "UPDATED_AT" +:+ dq) +:+
  ln 9 "WHEN NOT MATCHED THEN" +:+
  tabs 9 +:+ "INSERT (" +:+ mappingsColumns +:+ ") VALUES (staging." +:+ dq
    +:+ "MERGE_PROPERTY_TYPE" +:+ dq +:+ ", staging." +:+ dq +:+ "MERGE_PROPERTY_VALUE"
    +:+ dq +:+ ", staging." +:+ dq +:+ "RUDDER_ID" +:+ dq +:+ ", staging." +:+ dq
    +:+ "UPDATED_AT" +:+ dq +:+ ")".

Definition LoadIdentityMappingsTable (sf : Snowflake) : M B (option error) :=
  Infof ("SF: Starting load for table:" +:+ identityMappingsTable +:+ nl);;
  Infof ("SF: Fetching load file location for " +:+ identityMappingsTable);;
  match GetSingleLoadFile (sf_Uploader sf) identityMappingsTable with
  | inl err => mret (Some err)
  | inr loadFile =>
  r ← connect sf {| schemaName := Namespace sf |};
  match r with
  | inl err =>
      Errorf ("SF: Error establishing connection for copying table:"
                +:+ identityMappingsTable +:+ ": " +:+ Error err +:+ nl);;
      mret (Some err)
  | inr dbHandle =>
  let schemaIdentifier := schemaIdentifier sf in
  let stagingTableName := StagingTableName provider identityMappingsTable tableNameLimit in
  let sqlStatement :=
    mappingsCreateTemporaryTableSQL schemaIdentifier stagingTableName
      identityMappingsTable in
  Infof ("SF: Creating temporary table for table:" +:+ identityMappingsTable
           +:+ " at " +:+ sqlStatement +:+ nl);;
  err ← exec dbHandle sqlStatement;
  match err with
  | Some err =>
      Errorf ("SF: Error creating temporary table for table:"
                +:+ identityMappingsTable +:+ ": " +:+ Error err +:+ nl);;
      mret (Some err)
  | None =>
  let sqlStatement := addAutoincrementSQL schemaIdentifier stagingTableName in
  Infof ("SF: Adding autoincrement column for table:" +:+ stagingTableName
           +:+ " at " +:+ sqlStatement +:+ nl);;
  err ← exec dbHandle sqlStatement;
  if bool_decide (err ≠ None) && negb (checkAndIgnoreAlreadyExistError err) then
    Errorf ("SF: Error adding autoincrement column for table:"
              +:+ stagingTableName +:+ ": " +:+ Error_v err +:+ nl);;
    mret err
  else
  let loadLocation := GetObjectLocation (ObjectStorage sf) (Location loadFile) in
  let sqlStatement :=
    identityCopySQL (schemaIdentifier +:+ "." +:+ quote stagingTableName)
      mappingsColumns loadLocation (authString sf) in
  Infof ("SF: Dedup records for table:" +:+ identityMappingsTable
           +:+ " using staging table: " +:+ sqlStatement +:+ nl);;
  err ← exec dbHandle sqlStatement;
  match err with
  | Some err =>
      Errorf ("SF: Error running MERGE for dedup: " +:+ Error err +:+ nl);;
      mret (Some err)
  | None =>
  let sqlStatement :=
    mappingsMergeSQL identityMappingsTable stagingTableName schemaIdentifier in
  Infof ("SF: Dedup records for table:" +:+ identityMappingsTable
           +:+ " using staging table: " +:+ sqlStatement +:+ nl);;
  err ← exec dbHandle sqlStatement;
  match err with
  | Some err =>
      Errorf ("SF: Error running MERGE for dedup: " +:+ Error err +:+ nl);;
      mret (Some err)
  | None =>
      Infof ("SF: Complete load for table:" +:+ identityMappingsTable +:+ nl);;
      mret None
  end end end end end.

(** *** Users table, derived from the identifies staging table *)

Definition firstValPropsQuery (colName : string) : string :=
  nl +:+
  ln 3 ("FIRST_VALUE(" +:+ quote colName +:+ " IGNORE NULLS) OVER (") +:+
  ln 3 "  PARTITION BY ID" +:+
  ln 3 "  ORDER BY" +:+
  ln 4 "RECEIVED_AT DESC ROWS BETWEEN UNBOUNDED PRECEDING" +:+
  ln 4 "AND UNBOUNDED FOLLOWING" +:+
  ln 3 (") AS " +:+ quote colName).

Definition usersStagingSQL
    (schemaIdentifier stagingTableName firstValProps usersTable identifiesStagingTable
     userColNames identifyColNames : string) : string :=
  nl +:+
  ln 2 ("CREATE TEMPORARY TABLE " +:+ schemaIdentifier +:+ "." +:+ quote stagingTableName
          +:+ " AS (") +:+
  ln 2 "  SELECT" +:+
  ln 3 "DISTINCT *" +:+
  ln 2 "  FROM" +:+
  ln 3 "(" +:+
  ln 3 "  SELECT" +:+
  ln 4 (dq +:+ "ID" +:+ dq +:+ ",") +:+
  ln 4 firstValProps +:+
  ln 3 "  FROM" +:+
  ln 4 "(" +:+
  ln 4 "  (" +:+
  ln 5 "SELECT" +:+
  ln 5 ("  " +:+ dq +:+ "ID" +:+ dq +:+ ",") +:+
  ln 5 ("  " +:+ userColNames) +:+
  ln 5 "FROM" +:+
  ln 5 ("  " +:+ schemaIdentifier +:+ "." +:+ quote usersTable) +:+
  ln 5 "WHERE" +:+
  ln 5 ("  " +:+ dq +:+ "ID" +:+ dq +:+ " in (") +:+
  ln 6 "SELECT" +:+
  ln 6 ("  " +:+ dq +:+ "USER_ID" +:+ dq) +:+
  ln 6 "FROM" +:+
  ln 6 ("  " +:+ schemaIdentifier +:+ "." +:+ quote identifiesStagingTable) +:+
  ln 6 "WHERE" +:+
  ln 6 ("  " +:+ dq +:+ "USER_ID" +:+ dq +:+ " IS NOT NULL") +:+
  ln 5 "  )" +:+
  ln 4 "  )" +:+
  ln 4 "  UNION" +:+
  ln 5 "(" +:+
  ln 5 "  SELECT" +:+
  ln 6 (dq +:+ "USER_ID" +:+ dq +:+ ",") +:+
  ln 6 identifyColNames +:+
  ln 5 "  FROM" +:+
  ln 6 (schemaIdentifier +:+ "." +:+ quote identifiesStagingTable) +:+
  ln 5 "  WHERE" +:+
  ln 6 (dq +:+ "USER_ID" +:+ dq +:+ " IS NOT NULL") +:+
  ln 5 ")" +:+
  ln 4 ")" +:+
  ln 3 ")" +:+
  ln 2 ");".

Definition usersMergeSQL
    (usersTable stagingTableName columnNamesStr primaryKey columnsWithValues
     stagingColumnValues schemaIdentifier : string) : string :=
  nl +:+
  ln 2 ("MERGE INTO " +:+ schemaIdentifier +:+ "." +:+ quote usersTable
          +:+ " AS original USING (") +:+
  ln 2 "  SELECT" +:+
  ln 3 columnNamesStr +:+
  ln 2 "  FROM" +:+
  ln 3 (schemaIdentifier +:+ "." +:+ quote stagingTableName) +:+
  ln 2 (") AS staging ON (original." +:+ primaryKey +:+ " = staging." +:+ primaryKey
          +:+ ")") +:+
  ln 2 "WHEN NOT MATCHED THEN" +:+
  ln 3 ("INSERT (" +:+ columnNamesStr +:+ ") VALUES (" +:+ stagingColumnValues +:+ ")") +:+
  ln 2 "WHEN MATCHED THEN" +:+
  ln 3 ("UPDATE SET " +:+ columnsWithValues +:+ ";") +:+
  ln 0 ";".

(** One turn of the loop over the users table's columns. *)
Definition userColumn (identifiesSchema : TableSchema)
    (acc : list string * list string * list string) (colName : string)
    : list string * list string * list string :=
  let '(userColNames, firstValProps, identifyColNames) := acc in
  if decide (colName = "ID") then acc
  else
    (userColNames ++ [quote colName],
     firstValProps ++ [firstValPropsQuery colName],
     identifyColNames ++
       [match identifiesSchema !! colName with
        | Some _ => quote colName
        | None =>
            (* column in users table not present in identities table *)
            "NULL as " +:+ quote colName
        end]).

Definition closeResp (resp : tableLoadResp) : M B unit :=
  match resp_db resp with
  | Some db => close db
  | None => panic "runtime error: invalid memory address or nil pointer dereference"
  end.

Definition execResp (resp : tableLoadResp) (q : string) : M B (option error) :=
  match resp_db resp with
  | Some db => exec db q
  | None => panic "runtime error: invalid memory address or nil pointer dereference"
  end.

Definition queryRowCountsResp (resp : tableLoadResp) (q : string)
    : M B (row_result (Z * Z)) :=
  match resp_db resp with
  | Some db => queryRowCounts db q
  | None => panic "runtime error: invalid memory address or nil pointer dereference"
  end.

Definition loadUserTables_body (sf : Snowflake) (resp : tableLoadResp)
    (identifiesSchema usersSchema : TableSchema) : M B (gmap string (option error)) :=
  if decide (size usersSchema = 0%nat) then
    mret {[ identifiesTable := None ]}
  else
  let userColMap := GetTableSchemaInWarehouse (sf_Uploader sf) usersTable in
  let '(userColNames, firstValProps, identifyColNames) :=
    foldl (userColumn identifiesSchema) ([], [], []) (rangeKeys userColMap) in
  let schemaIdentifier := schemaIdentifier sf in
  let stagingTableName := StagingTableName provider usersTable tableNameLimit in
  let sqlStatement :=
    usersStagingSQL schemaIdentifier stagingTableName (Join firstValProps ",")
      usersTable (stagingTable resp) (Join userColNames ",")
      (Join identifyColNames ",") in
  let fields := loadFields sf ++ [(logfield.TableName, UsersTable)] in
  Infow "creating staging table for users"
    (fields ++ [(logfield.StagingTableName, stagingTableName);
                (logfield.Query, sqlStatement)]);;
  err ← execResp resp sqlStatement;
  match err with
  | Some err =>
      Warnw "failure creating staging table for users"
        (fields ++ [(logfield.Error, Error err)]);;
      mret (<[usersTable := Some (Errorf_w "creating staging table for users: " err)]>
              {[ identifiesTable := None ]})
  | None =>
  let primaryKey := dq +:+ "ID" +:+ dq in
  let columnNames := (dq +:+ "ID" +:+ dq) :: userColNames in
  let columnNamesStr := Join columnNames "," in
  (* the loop appends one term per column and a comma between terms *)
  let columnsWithValues :=
    Join (map (λ colName, "original." +:+ colName +:+ " = staging." +:+ colName)
              columnNames) "," in
  let stagingColumnValues :=
    Join (map (λ colName, "staging." +:+ colName) columnNames) "," in
  let sqlStatement :=
    usersMergeSQL usersTable stagingTableName columnNamesStr primaryKey
      columnsWithValues stagingColumnValues schemaIdentifier in
  Infow "deduplication" (fields ++ [(logfield.Query, sqlStatement)]);;
  row ← queryRowCountsResp resp sqlStatement;
  match row_Err row with
  | Some rowErr =>
      Warnw "failure running deduplication"
        (fields ++ [(logfield.Query, sqlStatement); (logfield.Error, Error rowErr)]);;
      mret (<[usersTable := Some (Errorf_w "running deduplication: " rowErr)]>
              {[ identifiesTable := None ]})
  | None =>
  match row_Scan row with
  | inl err =>
      Warnw "getting rows affected for dedup"
        (fields ++ [(logfield.Query, sqlStatement); (logfield.Error, Error err)]);;
      mret (<[usersTable := Some (Errorf_w "getting rows affected for dedup: " err)]>
              {[ identifiesTable := None ]})
  | inr (inserted, updated) =>
      emit (EStat "dedup_rows" (dedupTags sf UsersTable) updated);;
      Infow "completed loading for users and identifies tables" (loadFields sf);;
      mret (<[usersTable := None]> {[ identifiesTable := None ]})
  end end end.

Definition loadUserTables (sf : Snowflake) : M B (gmap string (option error)) :=
  let identifiesSchema := GetTableSchemaInUpload (sf_Uploader sf) identifiesTable in
  let usersSchema := GetTableSchemaInUpload (sf_Uploader sf) usersTable in
  Infow "started loading for identifies and users tables" (loadFields sf);;
  '(resp, err) ← loadTable sf identifiesTable identifiesSchema true;
  match err with
  | Some err =>
      mret {[ identifiesTable :=
                Some (Errorf_w ("loading table " +:+ identifiesTable +:+ ": ") err) ]}
  | None =>
      defer (closeResp resp)
            (loadUserTables_body sf resp identifiesSchema usersSchema)
  end.

Definition LoadUserTables (sf : Snowflake) : M B (gmap string (option error)) :=
  loadUserTables sf.

(** *** Schema discovery *)

Definition fetchSchemaSQL : string :=
  nl +:+
  "        SELECT" +:+ nl +:+
  "            table_name," +:+ nl +:+
  "            column_name," +:+ nl +:+
  "            data_type," +:+ nl +:+
  "            numeric_scale" +:+ nl +:+
  "        FROM" +:+ nl +:+
  "            INFORMATION_SCHEMA.COLUMNS" +:+ nl +:+
  "        WHERE" +:+ nl +:+
  "            table_schema = ?" +:+ nl +:+
  tab.

(** [warehouseutils.WHCounterStat(name, &sf.Warehouse, extraTags...).Count(n)];
    the helper adds the warehouse's own tags, which are declared outside
    this file, so the event keeps the extra tags only. *)
Definition WHCounterStat (name : string) (extraTags : list (string * string))
    (n : Z) : M B unit :=
  emit (EStat name extraTags n).

(** The [for rows.Next()] loop: one turn per scanned row, in order, with the
    two maps under construction. *)
Fixpoint fetchSchema_rows (scans : list (error + column_row))
    (schema unrecognizedSchema : Schema) : M B (error + Schema * Schema) :=
  match scans with
  | [] => mret (inr (schema, unrecognizedSchema))
  | inl err :: _ => mret (inl (Errorf_w "scanning schema: " err))
  | inr row :: rest =>
      let tableName := col_table row in
      let columnName := col_name row in
      let columnType := col_type row in
      let numericScale := col_scale row in
      let schema :=
        match schema !! tableName with
        | Some _ => schema
        | None => <[tableName := ∅]> schema
        end in
      match calculateDataType columnType numericScale with
      | Some datatype =>
          fetchSchema_rows rest
            (<[tableName := <[columnName := datatype]> (default ∅ (schema !! tableName))]>
               schema)
            unrecognizedSchema
      | None =>
          let unrecognizedSchema :=
            match unrecognizedSchema !! tableName with
            | Some _ => unrecognizedSchema
            | None => <[tableName := ∅]> unrecognizedSchema
            end in
          let unrecognizedSchema :=
            <[tableName := <[columnName := MissingDatatype]>
                             (default ∅ (unrecognizedSchema !! tableName))]>
              unrecognizedSchema in
          WHCounterStat RudderMissingDatatype [("datatype", columnType)] 1;;
          fetchSchema_rows rest schema unrecognizedSchema
      end
  end.

(** FetchSchema queries the snowflake database and returns the schema *)
Definition FetchSchema (sf : Snowflake) : M B (error + Schema * Schema) :=
  let schema : Schema := ∅ in
  let unrecognizedSchema : Schema := ∅ in
  let sqlStatement := fetchSchemaSQL in
  r ← query (DB sf) sqlStatement [Namespace sf];
  match r with
  | inl err =>
      if errors_Is err ErrNoRows then mret (inr (schema, unrecognizedSchema))
      else mret (inl (Errorf_w "fetching schema: " err))
  | inr rows =>
      (* rows.Close() is deferred; it has no effect the driver observes *)
      r ← fetchSchema_rows (rows_scans rows) schema unrecognizedSchema;
      match r with
      | inl err => mret (inl err)
      | inr res =>
          match rows_Err rows with
          | Some err => mret (inl (Errorf_w "fetching schema: " err))
          | None => mret (inr res)
          end
      end
  end.

End Driver.

(** ** What the merge statements mean

    The statements of a load run inside the warehouse.  Their meaning is the
    standard one of MERGE over a ranked sub-query, written here as functions
    on tables (lists of rows).  A row maps column names to values; a column
    missing from the map is NULL. *)

Module SQL.

Inductive datum : Type :=
| DInt (z : Z)
| DText (s : string).

Global Instance datum_eq_dec : EqDecision datum.
Proof. solve_decision. Defined.

Abbreviation row := (gmap string datum).

(** [a = b] in a join predicate: NULL equals nothing, itself included. *)
Definition sql_eq (a b : option datum) : bool :=
  match a, b with
  | Some x, Some y => bool_decide (x = y)
  | _, _ => false
  end.

Definition datum_lt (a b : datum) : bool :=
  match a, b with
  | DInt x, DInt y => (x <? y)%Z
  | DText s, DText t => String.ltb s t
  | DInt _, DText _ => true
  | DText _, DInt _ => false
  end.

(** The sort order of ORDER BY: NULL sorts as the largest value, so it
    comes first under DESC. *)
Definition key_lt (a b : option datum) : bool :=
  match a, b with
  | Some x, Some y => datum_lt x y
  | Some _, None => true
  | None, _ => false
  end.

(** PARTITION BY: rows are grouped by equal values, NULLs together. *)
Definition same_partition (cols : list string) (r1 r2 : row) : bool :=
  forallb (λ c, bool_decide (r1 !! c = r2 !! c)) cols.

Fixpoint countb {A} (f : A → bool) (l : list A) : nat :=
  match l with
  | [] => 0
  | x :: l' => (if f x then 1 else 0) + countb f l'
  end.

(** [row_number() OVER (PARTITION BY cols ORDER BY ord DESC)] of the row [r]
    that stands between [before] and [after] in the scanned table: one
    more than the rows of its partition sorted ahead of it.  Rows with
    equal sort keys keep their scan order (SQL leaves that choice open). *)
Definition row_number (cols : list string) (ord : string)
    (before : list row) (r : row) (after : list row) : nat :=
  S (countb (λ r', same_partition cols r' r && negb (key_lt (r' !! ord) (r !! ord)))
            before
     + countb (λ r', same_partition cols r' r && key_lt (r !! ord) (r' !! ord))
              after).

(** [SELECT * FROM (SELECT *, row_number() ... AS n FROM staged) WHERE n = 1] *)
Fixpoint rank1_from (cols : list string) (ord : string)
    (before rest : list row) : list row :=
  match rest with
  | [] => []
  | r :: after =>
      if Nat.eqb (row_number cols ord before r after) 1
      then r :: rank1_from cols ord (before ++ [r]) after
      else rank1_from cols ord (before ++ [r]) after
  end.

Definition rank1 (cols : list string) (ord : string) (staged : list row) : list row :=
  rank1_from cols ord [] staged.

Inductive set_clause : Type :=
| SetFromStaging (cols : list string)   (* original.c = staging.c, ... *)
| SetSelf (col : string).               (* original.c = original.c *)

(** MERGE INTO target USING (rank-1 rows of staging) ON (...)
    WHEN NOT MATCHED THEN INSERT ... WHEN MATCHED THEN UPDATE SET ... *)
Record merge := {
  m_schema : string;
  m_target : string;
  m_staging : string;
  m_partition_by : list string;
  m_order_by_desc : string;
  m_on : list string;
  m_insert : list string;
  m_update : set_clause;
}.

(** ON (original.c1 = staging.c1 AND ...) *)
Definition matches (on : list string) (t s : row) : bool :=
  forallb (λ c, sql_eq (t !! c) (s !! c)) on.

Definition assign (c : string) (v : option datum) (r : row) : row :=
  match v with
  | Some d => <[c := d]> r
  | None => delete c r
  end.

Definition apply_set (u : set_clause) (t s : row) : row :=
  match u with
  | SetFromStaging cols => foldr (λ c acc, assign c (s !! c) acc) t cols
  | SetSelf c => assign c (t !! c) t
  end.

(** INSERT (cols) VALUES (staging.cols): the columns not listed are NULL. *)
Definition project (cols : list string) (s : row) : row :=
  foldr (λ c acc, assign c (s !! c) acc) ∅ cols.

Record merge_result := {
  new_target : list row;
  inserted : Z;
  updated : Z;
}.

Definition update_row (m : merge) (src : list row) (t : row) : row :=
  match List.find (matches (m_on m) t) src with
  | Some s => apply_set (m_update m) t s
  | None => t
  end.

Definition unmatched (m : merge) (target : list row) (s : row) : bool :=
  negb (existsb (λ t, matches (m_on m) t s) target).

Definition run_merge (m : merge) (target staged : list row) : merge_result :=
  let src := rank1 (m_partition_by m) (m_order_by_desc m) staged in
  let ins := List.filter (unmatched m target) src in
  {| new_target := map (update_row m src) target ++ map (project (m_insert m)) ins;
     inserted := Z.of_nat (length ins);
     updated := Z.of_nat (countb (λ t, existsb (matches (m_on m) t) src) target) |}.


End SQL.

(** ** The dedup statements, read as [SQL.merge] *)

Section Reading.
Context `{Externals}.

Import Go.

Definition partitionColumns (tableName : string) : list string :=
  if decide (tableName = discardsTable)
  then ["ROW_ID"; "COLUMN_NAME"; "TABLE_NAME"]
  else ["ID"].

Definition joinColumns (tableName : string) : list string :=
  if decide (tableName = discardsTable)
  then ["ROW_ID"; "TABLE_NAME"; "COLUMN_NAME"]
  else ["ID"].

(** The UPDATE SET clause of the dedup statement under each policy; the
    keep-first clause needs a first column. *)
Definition dedupUpdate (strKeys : list string) (keepLatestRecordOnDedup : bool)
    : option SQL.set_clause :=
  if keepLatestRecordOnDedup
  then Some (SQL.SetFromStaging strKeys)
  else SQL.SetSelf <$> strKeys !! 0%nat.

(** The statement [dedupSQL] builds, clause by clause. *)
Definition dedupMerge (sf : Snowflake) (tableName : string) (strKeys : list string)
    (update : SQL.set_clause) : SQL.merge :=
  {| SQL.m_schema := schemaIdentifier sf;
     SQL.m_target := tableName;
     SQL.m_staging := StagingTableName provider tableName tableNameLimit;
     SQL.m_partition_by := partitionColumns tableName;
     SQL.m_order_by_desc := "RECEIVED_AT";
     SQL.m_on := joinColumns tableName;
     SQL.m_insert := strKeys;
     SQL.m_update := update |}.

Definition print_set (u : SQL.set_clause) : string :=
  match u with
  | SQL.SetFromStaging cols =>
      Join (map (λ c, "original." +:+ quote c +:+ " = staging." +:+ quote c) cols) ","
  | SQL.SetSelf c => "original." +:+ quote c +:+ " = original." +:+ quote c
  end.

(** Concrete syntax of a merge in the layout of [loadTable]: the ranked
    sub-query over the staging table, the join on the first key column
    followed by one AND per further key column, the INSERT of the listed
    columns and the UPDATE SET clause. *)
Definition print_dedup (m : SQL.merge) : option string :=
  match SQL.m_on m with
  | key :: more =>
      Some
        (nl +:+
         ln 3 ("MERGE INTO " +:+ SQL.m_schema m +:+ "." +:+ quote (SQL.m_target m)
                 +:+ " AS original USING (") +:+
         ln 3 "  SELECT" +:+
         ln 4 "*" +:+
         ln 3 "  FROM" +:+
         ln 4 "(" +:+
         ln 4 "  SELECT" +:+
         ln 5 "*," +:+
         ln 5 "row_number() OVER (" +:+
         ln 5 ("  PARTITION BY " +:+ Join (map quote (SQL.m_partition_by m)) ", ") +:+
         ln 5 "  ORDER BY" +:+
         ln 6 (SQL.m_order_by_desc m +:+ " DESC") +:+
         ln 5 ") AS _rudder_staging_row_number" +:+
         ln 4 "  FROM" +:+
         ln 5 (SQL.m_schema m +:+ "." +:+ quote (SQL.m_staging m)) +:+
         ln 4 ") AS q" +:+
         ln 3 "  WHERE" +:+
         ln 4 "_rudder_staging_row_number = 1" +:+
         ln 3 ") AS staging ON (" +:+
         ln 3 ("  original." +:+ quote key +:+ " = staging." +:+ quote key +:+ " "
                 +:+ Join (map (λ c, "AND original." +:+ quote c +:+ " = staging."
                                       +:+ quote c) more) " ") +:+
         ln 3 ")" +:+
         ln 3 "WHEN NOT MATCHED THEN" +:+
         ln 3 ("  INSERT (" +:+ Join (map quote (SQL.m_insert m)) "," +:+ ") VALUES ("
                 +:+ Join (map (λ c, "staging." +:+ quote c) (SQL.m_insert m)) ","
                 +:+ ")") +:+
         ln 3 "WHEN MATCHED THEN" +:+
         ln 3 ("  UPDATE SET " +:+ print_set (SQL.m_update m) +:+ ";"))
  | [] => None
  end.

(** The statement [mappingsMergeSQL] writes out, clause by clause:
    PARTITION BY the property type and value, ORDER BY "ID" DESC, ON both
    key columns, UPDATE SET the resolved id and its timestamp, INSERT the
    four columns. *)
Definition mappingsMerge (sf : Snowflake) : SQL.merge :=
  {| SQL.m_schema := schemaIdentifier sf;
     SQL.m_target := identityMappingsTable;
     SQL.m_staging := StagingTableName provider identityMappingsTable tableNameLimit;
     SQL.m_partition_by := ["MERGE_PROPERTY_TYPE"; "MERGE_PROPERTY_VALUE"];
     SQL.m_order_by_desc := "ID";
     SQL.m_on := ["MERGE_PROPERTY_TYPE"; "MERGE_PROPERTY_VALUE"];
     SQL.m_insert := ["MERGE_PROPERTY_TYPE"; "MERGE_PROPERTY_VALUE";
                      "RUDDER_ID"; "UPDATED_AT"];
     SQL.m_update := SQL.SetFromStaging ["RUDDER_ID"; "UPDATED_AT"] |}.


End Reading.

(** ** A scripted backend

    Each call consumes the next answer of a script; a call the script did not
    foresee fails.  Any finite behaviour of a database is such a script. *)

Inductive answer : Type :=
| AOpen (r : error + handle)
| AExec (r : option error)
| ARowBool (r : row_result bool)
| ARowCounts (r : row_result (Z * Z))
| ARows (r : error + Rows).

Definition unforeseen : error := errorString "unforeseen call".

Global Instance scripted : Backend (list answer) := {|
  snowflake_DSN := λ cfg, inr ("snowflake://" +:+ Account cfg);
  sql_Open := λ dsn s,
    match s with
    | AOpen r :: s' => (r, s')
    | _ => (inl unforeseen, tail s)
    end;
  ExecContext := λ h q s,
    match s with
    | AExec r :: s' => (r, s')
    | _ => (Some unforeseen, tail s)
    end;
  QueryRowBool := λ h q s,
    match s with
    | ARowBool r :: s' => (r, s')
    | _ => (RowErr unforeseen, tail s)
    end;
  QueryRowCounts := λ h q s,
    match s with
    | ARowCounts r :: s' => (r, s')
    | _ => (RowErr unforeseen, tail s)
    end;
  QueryContext := λ h q args s,
    match s with
    | ARows r :: s' => (r, s')
    | _ => (inl unforeseen, tail s)
    end;
  Close := λ h s, s;
|}.

(** Running a driver function against a script, from an empty trace. *)
Definition run {A} (m : M (list answer) A) (script : list answer)
    : outcome A * list event :=
  let '(r, w) := m (World script []) in (r, trace w).

(** The statements a trace sent to the database, in order. *)
Definition statements (tr : list event) : list string :=
  omap (λ e, match e with
             | EExec _ q => Some q
             | EQueryRow _ q => Some q
             | EQuery _ q _ => Some q
             | _ => None
             end) tr.

(** The text a trace wrote to the log: messages and field values. *)
Definition logged (tr : list event) : list string :=
  tr ≫= λ e, match e with
             | ELog _ msg fields => msg :: fields.*2
             | _ => []
             end.

(** Handles a trace opened and did not close. *)
Definition unclosed (tr : list event) : list handle :=
  foldl (λ acc e, match e with
                  | EOpen h => acc ++ [h]
                  | EClose h => List.filter (λ h', negb (Nat.eqb h' h)) acc
                  | _ => acc
                  end) [] tr.

(** ** A concrete environment, to run the driver on examples *)

Module Demo.

Inductive mask_state := Copying | Dropping (n : nat) | Inside.

Fixpoint drop_string (n : nat) (s : string) : string :=
  match n, s with
  | S n', String _ s' => drop_string n' s'
  | _, _ => s
  end.

(** Replace every match of [key='[^']*'] by [key='***']. *)
Fixpoint mask (key : string) (st : mask_state) (s : string) : string :=
  match s with
  | EmptyString => EmptyString
  | String c s' =>
      match st with
      | Copying =>
          let opening := key +:+ "='" in
          if Go.has_prefix opening s
             && Go.Contains (drop_string (String.length opening) s) "'"
          then opening +:+ "***"
                 +:+ mask key (Dropping (String.length opening - 1)) s'
          else String c (mask key Copying s')
      | Dropping (S n) => mask key (Dropping n) s'
      | Dropping O | Inside =>
          if bool_decide (c = "'"%char) then String c (mask key Copying s')
          else mask key Inside s'
      end
  end.

(** Modelled from the spec: [misc.ReplaceMultiRegex] is declared outside
    this file; the spec says of it that "a fixed set of key='...' patterns
    are replaced with a masked placeholder".  The three patterns of the
    driver are applied one after the other. *)
Definition maskSecrets (str : string) (expToReplacementMap : list (string * string))
    : error + string :=
  inr (mask "AWS_TOKEN" Copying
         (mask "AWS_SECRET_KEY" Copying (mask "AWS_KEY_ID" Copying str))).

Definition rudderType (columnType : string) (numericScale : option Z)
    : option string :=
  if decide (columnType = "VARCHAR") then Some "string"
  else if decide (columnType = "BOOLEAN") then Some "boolean"
  else if decide (columnType = "NUMBER") then
    match numericScale with
    | Some scale => if (0 <? scale)%Z then Some "float" else Some "int"
    | None => Some "int"
    end
  else None.

Definition externals : Externals := {|
  provider := "SNOWFLAKE";
  usersTable := "USERS";
  identifiesTable := "IDENTIFIES";
  discardsTable := "RUDDER_DISCARDS";
  identityMergeRulesTable := "RUDDER_IDENTITY_MERGE_RULES";
  identityMappingsTable := "RUDDER_IDENTITY_MAPPINGS";
  UsersTable := "users";
  MissingDatatype := "<missing_datatype>";
  RudderMissingDatatype := "warehouse_rudder_missing_datatype";
  StagingTableName := λ provider tableName limit, "RUDDER_STAGING_" +:+ tableName;
  GetObjectFolder := λ storage location, location;
  GetObjectLocation := λ storage location, location;
  GetConfigValue := λ key wh, default "" (Destination_Config wh !! key);
  IsConfiguredToUseRudderObjectStorage := λ cfg,
    bool_decide (cfg !! "useRudderStorage" = Some "true");
  GetTemporaryS3Cred := λ wh, ("AKIAEXAMPLE", "s3cr3t", "t0k3n");
  ReplaceMultiRegex := maskSecrets;
  dataTypesMap := list_to_map [("string", "varchar"); ("int", "number");
                               ("boolean", "boolean"); ("float", "double precision")];
  calculateDataType := rudderType;
  rangeKeys := λ m, (map_to_list m).*1;
  rangeKeys_keys := λ m, reflexivity _;
|}.

Definition wh : Warehouse := {|
  Source_ID := "src-1";
  Source_SourceDefinition_Name := "http";
  Destination_ID := "dest-1";
  Destination_DestinationDefinition_Name := "SNOWFLAKE";
  Destination_Config := ∅;
  WorkspaceID := "ws-1";
  Warehouse_Namespace := "ANALYTICS";
|}.

Definition schemaOf (tableName : string) : TableSchema :=
  if decide (tableName = "IDENTIFIES")
  then list_to_map [("ID", "string"); ("RECEIVED_AT", "datetime"); ("EMAIL", "string")]
  else if decide (tableName = "TRACKS")
  then list_to_map [("RECEIVED_AT", "datetime"); ("ID", "string"); ("EVENT", "string")]
  else ∅.

Definition uploader (keepLatest : bool) : Uploader := {|
  GetTableSchemaInUpload := schemaOf;
  GetTableSchemaInWarehouse := schemaOf;
  GetSampleLoadFileLocation := λ tableName, inr ("s3://bucket/" +:+ tableName +:+ "/");
  GetSingleLoadFile := λ tableName,
    inr {| Location := "s3://bucket/" +:+ tableName +:+ "/load.csv.gz" |};
  ShouldOnDedupUseNewRecord := keepLatest;
  UseRudderStorage := false;
|}.

Definition sf (keepLatest : bool) : Snowflake := {|
  DB := 0%nat;
  Namespace := "ANALYTICS";
  CloudProvider := "AWS";
  ObjectStorage := "S3";
  sf_Warehouse := wh;
  sf_Uploader := uploader keepLatest;
  connectTimeout := 0%Z;
|}.

End Demo.

(** ** What schema reconciliation expects of the warehouse

    The driver sees a catalog only through the answers to its statements.
    [catalog] is what a backend state holds; the three contracts below say
    what the existence query and the two IF NOT EXISTS statements do to it,
    for the namespace of the driver and one of its tables. *)

Section Contract.
Context `{Externals} {B : Type} `{!Backend B} {V : Type}.
Variable catalog : B → V.
Variable schema_in : string → V → bool.
Variable table_in : string → string → V → bool.

Definition answers_existence (sf : Snowflake) : Prop :=
  ∀ b, let '(r, b') := QueryRowBool (DB sf) (schemaExistsSQL (Namespace sf)) b in
       r = RowScan (schema_in (Namespace sf) (catalog b)) ∧ catalog b' = catalog b.

Definition creates_schema (sf : Snowflake) : Prop :=
  ∀ b, let '(err, b') := ExecContext (DB sf) (createSchemaSQL (schemaIdentifier sf)) b in
       err = None → schema_in (Namespace sf) (catalog b') = true.

Definition creates_table_if_not_exists (sf : Snowflake) (tableName : string) : Prop :=
  ∀ columns b,
    let '(err, b') :=
      ExecContext (DB sf) (createTableSQL (schemaIdentifier sf) tableName columns) b in
    (table_in (Namespace sf) tableName (catalog b) = true →
     err = None ∧ catalog b' = catalog b) ∧
    (err = None → table_in (Namespace sf) tableName (catalog b') = true).

End Contract.

(** A warehouse with room for one namespace and one table in it: the state
    says whether each exists. *)
Module OneTable.

Definition state : Type := bool * bool.

Definition namespace : string := "ANALYTICS".
Definition table : string := "TRACKS".

Definition tableHead : string :=
  "CREATE TABLE IF NOT EXISTS " +:+ Go.quote namespace +:+ "." +:+ Go.quote table.

Definition absent : error := errorString "SQL compilation error: object does not exist".

Global Instance backend : Backend state := {|
  snowflake_DSN := λ cfg, inr ("snowflake://" +:+ Account cfg);
  sql_Open := λ dsn (s : state), (inr 0%nat, s);
  ExecContext := λ h q (s : state),
    if decide (q = "CREATE SCHEMA IF NOT EXISTS " +:+ Go.quote namespace)
    then (None, (true, s.2))
    else if Go.has_prefix tableHead q
    then (if s.2 then (None, s)
          else if s.1 then (None, (true, true))
          else (Some absent, s))
    else (Some absent, s);
  QueryRowBool := λ h q (s : state),
    if decide (q = "SELECT EXISTS ( SELECT 1 FROM INFORMATION_SCHEMA.SCHEMATA WHERE SCHEMA_NAME = '"
                     +:+ namespace +:+ "' )")
    then (RowScan s.1, s)
    else (RowErr absent, s);
  QueryRowCounts := λ h q (s : state), (RowErr absent, s);
  QueryContext := λ h q args (s : state), (inl absent, s);
  Close := λ h (s : state), s;
|}.

End OneTable.

(** The type a schema records for a column of a table, if any. *)
Definition column_of (s : Schema) (tableName columnName : string) : option string :=
  s !! tableName ≫= λ columns, columns !! columnName.

(** The catalog identifies a column by its table and its name. *)
Definition column_key (r : column_row) : string * string :=
  (col_table r, col_name r).

(** What a table load may send to the database and in which form: the
    session setup, the staging table, the bulk copy from the sample
    location's folder, and the dedup merge as the one row query. *)
Definition loadTable_sends `{Externals} (sf : Snowflake) (tableName : string)
    (tableSchemaInUpload : TableSchema) (e : event) : Prop :=
  match e with
  | EExec _ q =>
      q = "ALTER SESSION SET ABORT_DETACHED_QUERY=TRUE" ∨
      q = createTemporaryTableSQL (schemaIdentifier sf)
            (StagingTableName provider tableName tableNameLimit) tableName ∨
      ∃ csvObjectLocation,
        GetSampleLoadFileLocation (sf_Uploader sf) tableName = inr csvObjectLocation ∧
        q = loadTableCopySQL sf tableName tableSchemaInUpload csvObjectLocation
  | EQueryRow _ q =>
      dedupSQL sf tableName (strKeysOf tableSchemaInUpload)
        (ShouldOnDedupUseNewRecord (sf_Uploader sf)) = Return q
  | EQuery _ _ _ => False
  | _ => True
  end.

(** Rows for the examples: events of one id, and identity mappings of one
    property. *)
Module Rows.
Import SQL.

Definition event (id : Z) (name : string) (received_at : Z) : row :=
  list_to_map [("ID", DInt id); ("EVENT", DText name); ("RECEIVED_AT", DInt received_at)].

(** A target row that also has a column the upload does not carry. *)
Definition stored (id : Z) (name : string) (received_at : Z) (note : string) : row :=
  <["NOTE" := DText note]> (event id name received_at).

Definition mapping (id : Z) (rudder_id : string) (updated_at : Z) : row :=
  list_to_map [("ID", DInt id); ("MERGE_PROPERTY_TYPE", DText "email");
               ("MERGE_PROPERTY_VALUE", DText "a@b.c"); ("RUDDER_ID", DText rudder_id);
               ("UPDATED_AT", DInt updated_at)].

Definition stored_mapping (rudder_id : string) (updated_at : Z) : row :=
  list_to_map [("MERGE_PROPERTY_TYPE", DText "email");
               ("MERGE_PROPERTY_VALUE", DText "a@b.c"); ("RUDDER_ID", DText rudder_id);
               ("UPDATED_AT", DInt updated_at)].

End Rows.

(** ** Shapes of the statements, for the properties below *)

Section Shapes.
Context `{Externals}.

(** The text of the ALTER of [AddColumns] before its column list. *)
Definition addColumnsHead (schemaIdentifier tableName : string) : string :=
  Go.nl +:+ Go.tabs 2 +:+ "ALTER TABLE" +:+ Go.nl
    +:+ Go.tabs 2 +:+ "  " +:+ schemaIdentifier +:+ "." +:+ Go.quote tableName +:+ Go.nl
    +:+ Go.tabs 2 +:+ "ADD COLUMN".

(** One column of that list: a space, the quoted name, a space, the
    warehouse type of the column's type. *)
Definition addColumnsItem (columnInfo : ColumnInfo) : string :=
  " " +:+ Go.quote (Name columnInfo) +:+ " "
      +:+ default "" (dataTypesMap !! Type_ columnInfo).

End Shapes.

(** The stages at which a table load can fail, as the prefixes of the
    errors it returns. *)
Definition loadTable_stages : list string :=
  [ "connect: "; "create temporary table: "; "getting sample load file location: ";
    "copy into table: "; "merge into table: "; "getting rows affected for dedup: " ].

Definition alterSessionSQL : string := "ALTER SESSION SET ABORT_DETACHED_QUERY=TRUE".

(** The handles a trace opened, and the handles it closed, in order. *)
Definition opened (tr : list event) : list handle :=
  omap (λ e, match e with EOpen h => Some h | _ => None end) tr.

Definition closed (tr : list event) : list handle :=
  omap (λ e, match e with EClose h => Some h | _ => None end) tr.

(** The columns of the users table that the loop of [loadUserTables]
    keeps: all but ID. *)
Definition userColumnsOf (columns : list string) : list string :=
  filter (λ colName, colName ≠ "ID") columns.

Section IdentityShapes.
Context `{Externals}.

(** The bulk copy of the merge rules load. *)
Definition mergeRulesCopySQL (sf : Snowflake) (loadFile : LoadFile) : string :=
  identityCopySQL (schemaIdentifier sf +:+ "." +:+ Go.quote identityMergeRulesTable)
    "MERGE_PROPERTY_1_TYPE,MERGE_PROPERTY_1_VALUE,MERGE_PROPERTY_2_TYPE,MERGE_PROPERTY_2_VALUE"
    (GetObjectLocation (ObjectStorage sf) (Location loadFile))
    (authString sf).

(** The world in which an identity load calls [connect]: two lines are in
    the log by then. *)
Definition identityLoadStart {B} (tableName : string) (w : world B) : world B :=
  World (backend w)
    ((trace w ++ [ELog LInfo ("SF: Starting load for table:" +:+ tableName +:+ Go.nl) []])
       ++ [ELog LInfo ("SF: Fetching load file location for " +:+ tableName) []]).

End IdentityShapes.

Section DiscoveryShapes.
Context `{Externals}.

(** The counters the row loop of [FetchSchema] emits for rows that scan:
    one for every row whose raw type has no mapping, in order. *)
Definition missingCounters (crs : list column_row) : list event :=
  omap (λ r, match calculateDataType (col_type r) (col_scale r) with
             | Some _ => None
             | None => Some (EStat RudderMissingDatatype [("datatype", col_type r)] 1)
             end) crs.

(** What one turn of that loop does to the two maps. *)
Definition fileRow (acc : Schema * Schema) (row : column_row) : Schema * Schema :=
  let '(schema, unrecognizedSchema) := acc in
  let schema :=
    match schema !! col_table row with
    | Some _ => schema
    | None => <[col_table row := ∅]> schema
    end in
  match calculateDataType (col_type row) (col_scale row) with
  | Some datatype =>
      (<[col_table row := <[col_name row := datatype]>
                            (default ∅ (schema !! col_table row))]> schema,
       unrecognizedSchema)
  | None =>
      let unrecognizedSchema :=
        match unrecognizedSchema !! col_table row with
        | Some _ => unrecognizedSchema
        | None => <[col_table row := ∅]> unrecognizedSchema
        end in
      (schema,
       <[col_table row := <[col_name row := MissingDatatype]>
                            (default ∅ (unrecognizedSchema !! col_table row))]>
         unrecognizedSchema)
  end.

End DiscoveryShapes.


(** ** Maintenance: clean-up by job, emptiness, counts, identity rules

    The functions below talk to the database through two more calls of
    [database/sql] than the loads need: a row query scanned into one
    [int64], and a query whose rows are scanned into two
    [sql.NullString]s (here [option string]: NULL is [None]). *)

Record StringRows := {
  strings_scans : list (error + option string * option string);
  strings_Err : option error;
}.

Class Reads (B : Type) := {
  QueryRowInt : handle → string → B → row_result Z * B;
  QueryStrings : handle → string → B → (error + StringRows) * B;
}.

(** [encoding/csv]: the text a writer holds after one record was written
    to it and it was flushed. *)
Class Encoding := { csv_record : list string → string }.

(** [sf.config], set by [New]. *)
Record config := {
  slowQueryThreshold : Z;
  enableDeleteByJobs : bool;
}.

(** [warehouseutils.DeleteByParams], declared outside this file; the
    fields are what ["%s"] prints of them. *)
Record DeleteByParams := {
  SourceId : string;
  JobRunId : string;
  TaskRunId : string;
  StartTime : string;
}.

(** [int64] arithmetic wraps around. *)
Definition int64 (z : Z) : Z := ((z + 2 ^ 63) mod 2 ^ 64 - 2 ^ 63)%Z.

Definition Debugf {B} (msg : string) : M B unit := emit (ELog LDebug msg []).

Section Maintenance.
Context `{Externals} `{Encoding} {B : Type} `{!Backend B} `{!Reads B}.

Import Go.

Definition queryRowInt (h : handle) (query : string) : M B (row_result Z) :=
  call (EQueryRow h query) (QueryRowInt h query).

Definition queryStrings (h : handle) (q : string) : M B (error + StringRows) :=
  call (EQuery h q []) (QueryStrings h q).

Definition tableExistsSQL (namespace tableName : string) : string :=
  ln 0 "SELECT EXISTS ( SELECT 1" +:+
  "   " +:+ ln 8 " FROM   information_schema.tables" +:+
  "   " +:+ ln 8 (" WHERE  table_schema = '" +:+ namespace +:+ "'") +:+
  "   " +:+ ln 8 (" AND    table_name = '" +:+ tableName +:+ "'") +:+
  tabs 8 +:+ "   )".

Definition tableExists (sf : Snowflake) (tableName : string)
    : M B (bool * option error) :=
  let sqlStatement := tableExistsSQL (Namespace sf) tableName in
  r ← queryRowBool (DB sf) sqlStatement;
  match row_Scan r with
  | inr exists_ => mret (exists_, None)
  | inl err => mret (false, Some err)
  end.

Definition columnExistsSQL (namespace tableName columnName : string) : string :=
  ln 0 "SELECT EXISTS ( SELECT 1" +:+
  "   " +:+ ln 8 " FROM   information_schema.columns" +:+
  "   " +:+ ln 8 (" WHERE  table_schema = '" +:+ namespace +:+ "'") +:+
  ln 9 ("AND table_name = '" +:+ tableName +:+ "'") +:+
  ln 9 ("AND column_name = '" +:+ columnName +:+ "'") +:+
  tabs 8 +:+ "   )".

Definition columnExists (sf : Snowflake) (columnName tableName : string)
    : M B (bool * option error) :=
  let sqlStatement := columnExistsSQL (Namespace sf) tableName columnName in
  r ← queryRowBool (DB sf) sqlStatement;
  match row_Scan r with
  | inr exists_ => mret (exists_, None)
  | inl err => mret (false, Some err)
  end.

Definition deleteBySQL (namespace tb : string) (params : DeleteByParams) : string :=
  nl +:+
  ln 3 "DELETE FROM" +:+
  ln 4 (quote namespace +:+ "." +:+ quote tb) +:+
  ln 3 "WHERE" +:+
  ln 4 ("context_sources_job_run_id <> '" +:+ JobRunId params +:+ "' AND") +:+
  ln 4 ("context_sources_task_run_id <> '" +:+ TaskRunId params +:+ "' AND") +:+
  ln 4 ("context_source_id = '" +:+ SourceId params +:+ "' AND") +:+
  ln 4 ("received_at < '" +:+ StartTime params +:+ "';") +:+
  tabs 2.

(** The loop of [DeleteBy] over the table names. *)
Fixpoint DeleteBy (sf : Snowflake) (config : config) (tableNames : list string)
    (params : DeleteByParams) : M B (option error) :=
  match tableNames with
  | [] => mret None
  | tb :: rest =>
      Infof ("SF: Cleaning up the following tables in snowflake for SF:" +:+ tb);;
      let sqlStatement := deleteBySQL (Namespace sf) tb params in
      Infof ("SF: Deleting rows in table in snowflake for SF:"
               +:+ Destination_ID (sf_Warehouse sf));;
      Debugf ("SF: Executing the sql statement " +:+ sqlStatement);;
      if enableDeleteByJobs config then
        err ← exec (DB sf) sqlStatement;
        match err with
        | Some err =>
            Errorf ("Error " +:+ Error err);;
            mret (Some err)
        | None => DeleteBy sf config rest params
        end
      else DeleteBy sf config rest params
  end.

Definition dropTableSQL (schemaIdentifier tableName : string) : string :=
  "DROP TABLE " +:+ schemaIdentifier +:+ "." +:+ quote tableName.

Definition DropTable (sf : Snowflake) (tableName : string) : M B (option error) :=
  let schemaIdentifier := schemaIdentifier sf in
  let sqlStatement := dropTableSQL schemaIdentifier tableName in
  Infof ("SF: Dropping table in snowflake for SF:" +:+ Destination_ID (sf_Warehouse sf)
           +:+ " : " +:+ sqlStatement);;
  exec (DB sf) sqlStatement.

Definition totalCountSQL (schemaIdentifier tableName : string) : string :=
  nl +:+
  ln 2 ("SELECT count(*) FROM " +:+ schemaIdentifier +:+ "." +:+ quote tableName +:+ ";") +:+
  tabs 1.

Definition GetTotalCountInTable (sf : Snowflake) (tableName : string)
    : M B (Z * option error) :=
  let sqlStatement := totalCountSQL (schemaIdentifier sf) tableName in
  r ← queryRowInt (DB sf) sqlStatement;
  match row_Scan r with
  | inr total => mret (total, None)
  | inl err => mret (0%Z, Some err)
  end.

Definition LoadTestTable (sf : Snowflake) (location tableName : string)
    : M B (option error) :=
  let loadFolder := GetObjectFolder (ObjectStorage sf) location in
  let schemaIdentifier := schemaIdentifier sf in
  let sqlStatement :=
    identityCopySQL (schemaIdentifier +:+ "." +:+ quote tableName)
      (quote "id" +:+ ", " +:+ quote "val") loadFolder (authString sf) in
  exec (DB sf) sqlStatement.

(** The tables that carry identities. *)
Definition identityTables : list string :=
  ["TRACKS"; "PAGES"; "SCREENS"; "IDENTIFIES"; "ALIASES"].

Definition countSQL (schemaIdentifier tableName : string) : string :=
  "SELECT COUNT(*) FROM " +:+ schemaIdentifier +:+ "." +:+ quote tableName.

(** The loop of [IsEmpty] over the tables; [empty] is true all along. *)
Fixpoint isEmpty_tables (sf : Snowflake) (tables : list string)
    : M B (bool * option error) :=
  match tables with
  | [] => mret (true, None)
  | tableName :: rest =>
      '(exists_, err) ← tableExists sf tableName;
      match err with
      | Some err => mret (true, Some err)
      | None =>
          if negb exists_ then isEmpty_tables sf rest
          else
            let schemaIdentifier := schemaIdentifier sf in
            let sqlStatement := countSQL schemaIdentifier tableName in
            r ← queryRowInt (DB sf) sqlStatement;
            match row_Scan r with
            | inl err => mret (true, Some err)
            | inr count =>
                if (0 <? count)%Z then mret (false, None)
                else isEmpty_tables sf rest
            end
      end
  end.

(** The receiver of [IsEmpty] once it has taken over the warehouse. *)
Definition withWarehouse (sf : Snowflake) (warehouse : Warehouse) : Snowflake :=
  {| DB := DB sf;
     Namespace := Warehouse_Namespace warehouse;
     CloudProvider := CloudProvider sf;
     ObjectStorage := ObjectStorage sf;
     sf_Warehouse := warehouse;
     sf_Uploader := sf_Uploader sf;
     connectTimeout := connectTimeout sf |}.

Definition withDB (sf : Snowflake) (db : handle) : Snowflake :=
  {| DB := db;
     Namespace := Namespace sf;
     CloudProvider := CloudProvider sf;
     ObjectStorage := ObjectStorage sf;
     sf_Warehouse := sf_Warehouse sf;
     sf_Uploader := sf_Uploader sf;
     connectTimeout := connectTimeout sf |}.

Definition IsEmpty (sf : Snowflake) (warehouse : Warehouse)
    : M B (bool * option error) :=
  let sf := withWarehouse sf warehouse in
  r ← connect sf {| schemaName := "" |};
  match r with
  | inl err => mret (true, Some err)
  | inr db =>
      let sf := withDB sf db in
      defer (close (DB sf)) (isEmpty_tables sf identityTables)
  end.

(** *** Identity rules *)

Definition batchSize : Z := 10000.

(** The CSV record of one scanned row, if the row is written at all. *)
Definition csvRowOf (anonymousID userID : option string) : option (list string) :=
  if negb (bool_decide (is_Some anonymousID)) && negb (bool_decide (is_Some userID))
  then None
  else
    (* avoid setting null merge_property_1 to avoid not null constraint in
       local postgres *)
    if bool_decide (is_Some anonymousID)
    then Some ["anonymous_id"; default "" anonymousID; "user_id"; default "" userID]
    else Some ["user_id"; default "" userID; "anonymous_id"; default "" anonymousID].

(** The [for rows.Next()] loop of one batch; [gz] is what the gzip writer
    has been given so far. *)
Fixpoint writeRows (scans : list (error + option string * option string))
    (gz : list string) : list string * option error :=
  match scans with
  | [] => (gz, None)
  | inl err :: _ => (gz, Some err)
  | inr (anonymousID, userID) :: rest =>
      match csvRowOf anonymousID userID with
      | None => writeRows rest gz
      | Some csvRow => writeRows rest (gz ++ [csv_record csvRow])
      end
  end.

Definition downloadSQL (toSelectFields schemaIdentifier tableName : string)
    (offset : Z) : string :=
  "SELECT DISTINCT " +:+ toSelectFields +:+ " FROM " +:+ schemaIdentifier +:+ "."
    +:+ quote tableName +:+ " LIMIT " +:+ pretty batchSize +:+ " OFFSET "
    +:+ pretty offset.

(** The batch loop.  It has no bound of its own; [fuel] counts its turns,
    and [None] says that the turns ran out. *)
Fixpoint downloadBatches (fuel : nat) (sf : Snowflake)
    (tableName toSelectFields : string) (totalRows offset : Z) (gz : list string)
    : M B (option (list string * option error)) :=
  match fuel with
  | O => mret None
  | S fuel =>
      let sqlStatement :=
        downloadSQL toSelectFields (schemaIdentifier sf) tableName offset in
      Infof ("SF: Downloading distinct combinations of anonymous_id, user_id: "
               +:+ sqlStatement +:+ ", totalRows: " +:+ pretty totalRows);;
      r ← queryStrings (DB sf) sqlStatement;
      match r with
      | inl err => mret (Some (gz, Some err))
      | inr rows =>
          let '(gz, err) := writeRows (strings_scans rows) gz in
          match err with
          | Some err => mret (Some (gz, Some err))
          | None =>
              match strings_Err rows with
              | Some err => mret (Some (gz, Some err))
              | None =>
                  let offset := int64 (offset + batchSize) in
                  if (totalRows <=? offset)%Z then mret (Some (gz, None))
                  else downloadBatches fuel sf tableName toSelectFields
                         totalRows offset gz
              end
          end
      end
  end.

(** [getFromTable]; the batch loop gets the turns that [totalRows] rows
    need when [offset] does not wrap around. *)
Definition getFromTable (sf : Snowflake) (tableName : string) (gz : list string)
    : M B (option (list string * option error)) :=
  '(exists_, err) ← tableExists sf tableName;
  if bool_decide (err ≠ None) || negb exists_ then mret (Some (gz, err))
  else
    let schemaIdentifier := schemaIdentifier sf in
    let sqlStatement :=
      "SELECT count(*) FROM " +:+ schemaIdentifier +:+ "." +:+ quote tableName in
    r ← queryRowInt (DB sf) sqlStatement;
    match row_Scan r with
    | inl err => mret (Some (gz, Some err))
    | inr totalRows =>
        (* check if table in warehouse has anonymous_id and user_id and
           construct accordingly *)
        '(hasAnonymousID, err) ← columnExists sf "ANONYMOUS_ID" tableName;
        match err with
        | Some err => mret (Some (gz, Some err))
        | None =>
            '(hasUserID, err) ← columnExists sf "USER_ID" tableName;
            match err with
            | Some err => mret (Some (gz, Some err))
            | None =>
                let batches toSelectFields :=
                  downloadBatches (S (Z.to_nat (totalRows / batchSize))) sf tableName
                    toSelectFields totalRows 0 gz in
                if hasAnonymousID && hasUserID then
                  batches (quote "ANONYMOUS_ID" +:+ ", " +:+ quote "USER_ID")
                else if hasAnonymousID then
                  batches (quote "ANONYMOUS_ID" +:+ ", NULL AS " +:+ quote "USER_ID")
                else if hasUserID then
                  batches ("NULL AS " +:+ quote "ANONYMOUS_ID" +:+ ", " +:+ quote "USER_ID")
                else
                  Infof ("SF: ANONYMOUS_ID, USER_ID columns not present in table: "
                           +:+ tableName);;
                  mret (Some (gz, None))
            end
        end
    end.

Fixpoint downloadTables (sf : Snowflake) (tables : list string) (gz : list string)
    : M B (option (list string * option error)) :=
  match tables with
  | [] => mret (Some (gz, None))
  | table :: rest =>
      r ← getFromTable sf table gz;
      match r with
      | None => mret None
      | Some (gz, Some err) => mret (Some (gz, Some err))
      | Some (gz, None) => downloadTables sf rest gz
      end
  end.

(** DownloadIdentityRules gets distinct combinations of anonymous_id,
    user_id from tables in warehouse *)
Definition DownloadIdentityRules (sf : Snowflake) (gz : list string)
    : M B (option (list string * option error)) :=
  downloadTables sf identityTables gz.

End Maintenance.

(** A script for the maintenance functions: the answers of the scripted
    backend, and beside them the answers to the count queries and to the
    string queries, each taken in order. *)
Record scripts := {
  answers : list answer;
  counts : list (row_result Z);
  pages : list (error + StringRows);
}.

Definition on_answers {A} (f : list answer → A * list answer) (s : scripts)
    : A * scripts :=
  let '(a, rest) := f (answers s) in
  (a, {| answers := rest; counts := counts s; pages := pages s |}).

Global Instance scripted_maintenance : Backend scripts | 100 := {|
  snowflake_DSN := snowflake_DSN (B := list answer);
  sql_Open := λ dsn, on_answers (sql_Open dsn);
  ExecContext := λ h q, on_answers (ExecContext h q);
  QueryRowBool := λ h q, on_answers (QueryRowBool h q);
  QueryRowCounts := λ h q, on_answers (QueryRowCounts h q);
  QueryContext := λ h q args, on_answers (QueryContext h q args);
  Close := λ h s, s;
|}.

Global Instance scripted_reads : Reads scripts := {|
  QueryRowInt := λ h q s,
    match counts s with
    | r :: rest => (r, {| answers := answers s; counts := rest; pages := pages s |})
    | [] => (RowErr unforeseen, s)
    end;
  QueryStrings := λ h q s,
    match pages s with
    | r :: rest => (r, {| answers := answers s; counts := counts s; pages := rest |})
    | [] => (inl unforeseen, s)
    end;
|}.

(** A CSV writer for the examples: fields that need no quoting, joined by
    commas, and a newline. *)
Definition plain_csv : Encoding := {|
  csv_record := λ fields, Go.Join fields "," +:+ Go.nl;
|}.

(** Whether an event of a trace is a call on the handle [h], or no call on a
    handle at all: opening and closing a connection are neither. *)
Definition on_handle (h : handle) (e : event) : Prop :=
  match e with
  | EOpen _ | EClose _ => False
  | EExec h' _ | EQueryRow h' _ | EQuery h' _ _ => h' = h
  | ELog _ _ _ | EStat _ _ _ => True
  end.

(** The number of batches that [totalRows] rows take (one at least), and
    their offsets. *)
Definition pagesOf (totalRows : Z) : nat :=
  Z.to_nat (Z.max 1 ((totalRows + batchSize - 1) / batchSize)).

Definition batchOffsets (totalRows : Z) : list Z :=
  map (λ i, (Z.of_nat i * batchSize)%Z) (seq 0 (pagesOf totalRows)).

(** A run from [w] to [w'] that, for the database, was calls on the
    handle [h] and nothing else. *)
Definition only_on_handle {B} (h : handle) (w w' : world B) : Prop :=
  ∃ evs, trace w' = trace w ++ evs ∧ Forall (on_handle h) evs.

(** The largest row count for which the offsets of the batch loop stay
    within [int64]. *)
Definition maxTotalRows : Z := (2 ^ 63 - 1 - batchSize)%Z.


(** ** Inputs for the examples of the further properties *)

Module Cases.

(** The example warehouse with a destination configuration. *)
Definition wh (cfg : gmap string string) : Warehouse := {|
  Source_ID := "src-1";
  Source_SourceDefinition_Name := "http";
  Destination_ID := "dest-1";
  Destination_DestinationDefinition_Name := "SNOWFLAKE";
  Destination_Config := cfg;
  WorkspaceID := "ws-1";
  Warehouse_Namespace := "ANALYTICS";
|}.

Definition usersSchemaOf (tableName : string) : TableSchema :=
  if decide (tableName = "USERS")
  then list_to_map [("ID", "string"); ("EMAIL", "string"); ("PLAN", "string")]
  else Demo.schemaOf tableName.

(** An upload that carries users besides identifies; the users table of
    the warehouse has a column PLAN that identifies has not. *)
Definition uploader : Uploader := {|
  GetTableSchemaInUpload := usersSchemaOf;
  GetTableSchemaInWarehouse := usersSchemaOf;
  GetSampleLoadFileLocation := λ tableName, inr ("s3://bucket/" +:+ tableName +:+ "/");
  GetSingleLoadFile := λ tableName,
    inr {| Location := "s3://bucket/" +:+ tableName +:+ "/load.csv.gz" |};
  ShouldOnDedupUseNewRecord := true;
  UseRudderStorage := false;
|}.

Definition sf (provider : string) (cfg : gmap string string) : Snowflake := {|
  DB := 0%nat;
  Namespace := "ANALYTICS";
  CloudProvider := provider;
  ObjectStorage := "S3";
  sf_Warehouse := wh cfg;
  sf_Uploader := uploader;
  connectTimeout := 0%Z;
|}.

(** The example environment with a [ReplaceMultiRegex] that fails. *)
Definition no_regex : Externals := {|
  provider := provider (Externals := Demo.externals);
  usersTable := usersTable (Externals := Demo.externals);
  identifiesTable := identifiesTable (Externals := Demo.externals);
  discardsTable := discardsTable (Externals := Demo.externals);
  identityMergeRulesTable := identityMergeRulesTable (Externals := Demo.externals);
  identityMappingsTable := identityMappingsTable (Externals := Demo.externals);
  UsersTable := UsersTable (Externals := Demo.externals);
  MissingDatatype := MissingDatatype (Externals := Demo.externals);
  RudderMissingDatatype := RudderMissingDatatype (Externals := Demo.externals);
  StagingTableName := StagingTableName (Externals := Demo.externals);
  GetObjectFolder := GetObjectFolder (Externals := Demo.externals);
  GetObjectLocation := GetObjectLocation (Externals := Demo.externals);
  GetConfigValue := GetConfigValue (Externals := Demo.externals);
  IsConfiguredToUseRudderObjectStorage :=
    IsConfiguredToUseRudderObjectStorage (Externals := Demo.externals);
  GetTemporaryS3Cred := GetTemporaryS3Cred (Externals := Demo.externals);
  ReplaceMultiRegex := λ str expToReplacementMap,
    inl (errorString "error parsing regexp");
  dataTypesMap := dataTypesMap (Externals := Demo.externals);
  calculateDataType := calculateDataType (Externals := Demo.externals);
  rangeKeys := rangeKeys (Externals := Demo.externals);
  rangeKeys_keys := rangeKeys_keys (Externals := Demo.externals);
|}.

(** A catalog of four columns in two tables; GEOGRAPHY has no mapping. *)
Definition id_column : column_row :=
  {| col_table := "TRACKS"; col_name := "ID"; col_type := "VARCHAR"; col_scale := None |}.
Definition location_column : column_row :=
  {| col_table := "TRACKS"; col_name := "LOCATION"; col_type := "GEOGRAPHY";
     col_scale := None |}.
Definition age_column : column_row :=
  {| col_table := "USERS"; col_name := "AGE"; col_type := "NUMBER";
     col_scale := Some 0%Z |}.
Definition shape_column : column_row :=
  {| col_table := "AREAS"; col_name := "SHAPE"; col_type := "GEOGRAPHY";
     col_scale := None |}.

Definition catalog : list column_row :=
  [id_column; location_column; age_column; shape_column].

Definition params : DeleteByParams :=
  {| SourceId := "src-1"; JobRunId := "job-2"; TaskRunId := "task-3";
     StartTime := "2023-01-01 00:00:00" |}.

(** Scanned rows of ids: both present, user id only, both NULL, anonymous
    id only. *)
Definition ids : list (error + option string * option string) :=
  [inr (Some "anon-1", Some "user-1"); inr (None, Some "user-2"); inr (None, None);
   inr (Some "anon-3", None)].

Definition page (scans : list (error + option string * option string))
    : error + StringRows :=
  inr {| strings_scans := scans; strings_Err := None |}.

(** What holds of a script all along: its counts are small. *)
Definition small_counts (s : scripts) : Prop :=
  Forall (λ r, ∀ n, r = RowScan n → (n ≤ maxTotalRows)%Z) (counts s).

End Cases.

(** * Properties *)

(** The keys of the log fields stand for different strings, so a field is
    identified by its key. *)
Lemma logfield_name_inj (k1 k2 : logfield.key) :
  logfield.name k1 = logfield.name k2 → k1 = k2.
Proof. destruct k1, k2; simpl; intros Heq; first [reflexivity | discriminate Heq]. Qed.

Ltac unfold_m :=
  unfold mbind, M_bind, mret, M_ret, Infof, Errorf, Infow, Debugw, Warnw,
    WHCounterStat, emit, exec, queryRowBool, queryRowCounts, query, close, open,
    call, lift_outcome, panic, defer in *.

Section SchemaChanges.
Context `{Externals} {B : Type} `{!Backend B}.

Lemma checkAndIgnoreAlreadyExistError_nil :
  checkAndIgnoreAlreadyExistError None = true.
Proof. reflexivity. Qed.

Lemma checkAndIgnoreAlreadyExistError_iff (e : error) :
  checkAndIgnoreAlreadyExistError (Some e) = true ↔
  ∃ msg, e = SnowflakeError "42601" msg.
Proof.
  destruct e as [st msg| |msg|msg inner]; simpl;
    try (split; [discriminate | intros [? [=]]]).
  destruct (decide (st = "42601")) as [->|Hne]; split; eauto.
  - discriminate.
  - intros [? [=]]. contradiction.
Qed.

(** C4. [AddColumns] sends one ALTER and looks at the backend's answer
    [err] to it.  With exactly one column and an answer that
    [checkAndIgnoreAlreadyExistError] accepts, it returns nil; with more
    than one column it returns the backend's answer as it is, whatever
    it is. *)
Theorem AddColumns_error_handling
    (sf : Snowflake) (tableName : string) (columnsInfo : list ColumnInfo)
    (w : world B) :
  let query := addColumnsSQL (schemaIdentifier sf) tableName columnsInfo in
  let err := (ExecContext (DB sf) query (backend w)).1 in
  let result := (AddColumns sf tableName columnsInfo w).1 in
  (length columnsInfo = 1%nat →
   checkAndIgnoreAlreadyExistError err = true → result = Return None) ∧
  (1 < length columnsInfo → result = Return err)%nat.
Proof.
  intros query err result. subst result err query.
  unfold AddColumns. unfold_m. simpl.
  destruct (ExecContext _ _ _) as [err b'] eqn:Hexec. simpl.
  split.
  - intros Hlen Hcheck.
    destruct columnsInfo as [|c [|c' l]]; try discriminate Hlen.
    destruct err as [e|]; [|reflexivity].
    rewrite Hcheck. reflexivity.
  - intros Hlen.
    destruct columnsInfo as [|c [|c' l]]; simpl in Hlen; try lia.
    destruct err; reflexivity.
Qed.

End SchemaChanges.

(** C4 on a scripted database: the same "already exists" answer is swallowed
    for one column and returned for two. *)
Lemma AddColumns_error_handling_witness :
  let e := SnowflakeError "42601" "column 'X' already exists" in
  let x := {| Name := "X"; Type_ := "string" |} in
  let y := {| Name := "Y"; Type_ := "int" |} in
  (@AddColumns Demo.externals _ scripted (Demo.sf true) "TRACKS" [x]
     (World [AExec (Some e)] [])).1 = Return None ∧
  (@AddColumns Demo.externals _ scripted (Demo.sf true) "TRACKS" [x; y]
     (World [AExec (Some e)] [])).1 = Return (Some e).
Proof.
  intros e x y. split.
  - apply (proj1 (@AddColumns_error_handling Demo.externals _ scripted
                    (Demo.sf true) "TRACKS" [x] (World [AExec (Some e)] [])));
      reflexivity.
  - apply (proj2 (@AddColumns_error_handling Demo.externals _ scripted
                    (Demo.sf true) "TRACKS" [x; y] (World [AExec (Some e)] []))).
    simpl. lia.
Defined.

Section Idempotence.
Context `{Externals} {B : Type} `{!Backend B} {V : Type}.
Variable catalog : B → V.
Variable schema_in : string → V → bool.
Variable table_in : string → string → V → bool.

Lemma CreateSchema_skips (sf : Snowflake) (w : world B) (b' : B) :
  QueryRowBool (DB sf) (schemaExistsSQL (Namespace sf)) (backend w) = (RowScan true, b') →
  CreateSchema sf w =
    (Return None,
     World b' (trace w ++ [EQueryRow (DB sf) (schemaExistsSQL (Namespace sf))]
                 ++ [ELog LInfo ("SF: Skipping creating schema: " +:+ schemaIdentifier sf
                                   +:+ " since it already exists") []])).
Proof.
  intros Hq. unfold CreateSchema, schemaExists. unfold_m. simpl.
  rewrite Hq. simpl. by rewrite <- app_assoc.
Qed.

Lemma CreateSchema_ok_inv (sf : Snowflake) (w w1 : world B) :
  answers_existence catalog schema_in sf →
  creates_schema catalog schema_in sf →
  CreateSchema sf w = (Return None, w1) →
  schema_in (Namespace sf) (catalog (backend w1)) = true.
Proof.
  intros Hex Hcr. unfold CreateSchema, schemaExists, createSchema. unfold_m. simpl.
  specialize (Hex (backend w)).
  destruct (QueryRowBool _ _ _) as [r b1] eqn:Hq. destruct Hex as [-> Hcat].
  simpl. destruct (schema_in _ _) eqn:Hin; simpl.
  - intros [= <-]. simpl. by rewrite Hcat.
  - specialize (Hcr b1).
    destruct (ExecContext _ _ b1) as [err b2] eqn:He. simpl.
    intros [= -> <-]. simpl. by apply Hcr.
Qed.

Lemma CreateTable_run (sf : Snowflake) (tableName : string) (columnMap : TableSchema)
    (w : world B) :
  let q := createTableSQL (schemaIdentifier sf) tableName
             (ColumnsWithDataTypes columnMap "") in
  let '(err, b') := ExecContext (DB sf) q (backend w) in
  CreateTable sf tableName columnMap w =
    (Return err,
     World b' (trace w
                 ++ [ELog LInfo ("Creating table in snowflake for SF:"
                                   +:+ Destination_ID (sf_Warehouse sf) +:+ " : " +:+ q) []]
                 ++ [EExec (DB sf) q])).
Proof.
  intros q. subst q. unfold CreateTable, createTable. unfold_m. simpl.
  destruct (ExecContext _ _ _) as [err b']. by rewrite <- app_assoc.
Qed.

(** C5. Against a warehouse that answers the existence query truthfully and
    implements the two creation statements, a second [CreateSchema] after a
    successful one returns nil, sends the existence query and nothing else,
    and leaves the catalog as it was; a second [CreateTable] after a
    successful one sends the CREATE TABLE IF NOT EXISTS statement, returns
    nil and leaves the catalog as it was. *)
Theorem CreateSchema_CreateTable_idempotent
    (sf : Snowflake) (tableName : string) (columnMap : TableSchema) :
  answers_existence catalog schema_in sf →
  creates_schema catalog schema_in sf →
  creates_table_if_not_exists catalog table_in sf tableName →
  (∀ w w1, CreateSchema sf w = (Return None, w1) →
     ∃ w2, CreateSchema sf w1 = (Return None, w2) ∧
           catalog (backend w2) = catalog (backend w1) ∧
           statements (trace w2) =
             statements (trace w1) ++ [schemaExistsSQL (Namespace sf)]) ∧
  (∀ w w1, CreateTable sf tableName columnMap w = (Return None, w1) →
     ∃ w2, CreateTable sf tableName columnMap w1 = (Return None, w2) ∧
           catalog (backend w2) = catalog (backend w1) ∧
           statements (trace w2) =
             statements (trace w1)
               ++ ["CREATE TABLE IF NOT EXISTS " +:+ schemaIdentifier sf +:+ "."
                     +:+ Go.quote tableName +:+ " ( "
                     +:+ ColumnsWithDataTypes columnMap "" +:+ " )"]).
Proof.
  intros Hex Hcs Hct. split.
  - intros w w1 Hrun.
    pose proof (CreateSchema_ok_inv sf w w1 Hex Hcs Hrun) as Hin.
    pose proof (Hex (backend w1)) as Hq.
    destruct (QueryRowBool _ _ (backend w1)) as [r b2] eqn:Hq2.
    destruct Hq as [-> Hcat]. rewrite Hin in Hq2.
    eexists. split; [by apply CreateSchema_skips|].
    split; [done|].
    simpl. unfold statements. by rewrite !omap_app.
  - intros w w1 Hrun.
    pose proof (CreateTable_run sf tableName columnMap w) as H1.
    pose proof (CreateTable_run sf tableName columnMap w1) as H2.
    cbv zeta in H1, H2.
    pose proof (Hct (ColumnsWithDataTypes columnMap "") (backend w)) as C1.
    pose proof (Hct (ColumnsWithDataTypes columnMap "") (backend w1)) as C2.
    destruct (ExecContext _ _ (backend w)) as [e1 b1].
    destruct (ExecContext _ _ (backend w1)) as [e2 b2].
    rewrite H1 in Hrun. injection Hrun as -> <-. simpl in C2.
    destruct C1 as [_ C1]. specialize (C1 eq_refl).
    destruct C2 as [C2 _]. destruct (C2 C1) as [-> Hcat].
    eexists. split; [exact H2|]. split; [done|].
    simpl. unfold statements. by rewrite !omap_app.
Qed.

End Idempotence.

Lemma OneTable_answers_existence :
  answers_existence (B := OneTable.state) id (λ _ s, s.1)
    (Demo.sf true).
Proof. intros [x y]. vm_compute. done. Qed.

Lemma OneTable_creates_schema :
  creates_schema (B := OneTable.state) id (λ _ s, s.1)
    (Demo.sf true).
Proof. intros [x y]. vm_compute. done. Qed.

Lemma OneTable_creates_table :
  creates_table_if_not_exists (B := OneTable.state) id
    (λ _ _ s, s.2) (Demo.sf true) "TRACKS".
Proof.
  intros columns [x y]. unfold createTableSQL. cbn.
  destruct y, x; cbn; split; (done || intros; done).
Qed.

(** C5 on the one-table warehouse, starting empty: the first [CreateSchema]
    creates the namespace, the second changes nothing; the same for the
    table once the namespace is there. *)
Lemma CreateSchema_CreateTable_idempotent_witness :
  let sf := Demo.sf true in
  let columns := Demo.schemaOf "TRACKS" in
  let w1 := (CreateSchema (B := OneTable.state) sf
               (World (false, false) [])).2 in
  let w1' := (CreateTable (H := Demo.externals) (B := OneTable.state) sf "TRACKS" columns w1).2 in
  (∃ w2, CreateSchema (B := OneTable.state) sf w1 = (Return None, w2) ∧
         backend w2 = backend w1 ∧
         statements (trace w2) =
           statements (trace w1) ++ [schemaExistsSQL (Namespace sf)]) ∧
  (∃ w2, CreateTable (H := Demo.externals) (B := OneTable.state) sf "TRACKS" columns w1'
           = (Return None, w2) ∧
         backend w2 = backend w1' ∧
         statements (trace w2) =
           statements (trace w1')
             ++ ["CREATE TABLE IF NOT EXISTS " +:+ schemaIdentifier sf +:+ "."
                   +:+ Go.quote "TRACKS" +:+ " ( "
                   +:+ ColumnsWithDataTypes (H := Demo.externals) columns "" +:+ " )"]).
Proof.
  intros sf columns w1 w1'.
  pose proof (CreateSchema_CreateTable_idempotent (H := Demo.externals)
                (B := OneTable.state) id (λ _ s, s.1) (λ _ _ s, s.2) sf "TRACKS" columns
                OneTable_answers_existence OneTable_creates_schema
                OneTable_creates_table) as [Hs Ht].
  split.
  - apply (Hs (World (false, false) [])). reflexivity.
  - apply (Ht w1). reflexivity.
Defined.

Section SchemaDiscovery.
Context `{Externals} {B : Type} `{!Backend B}.

Lemma column_of_ensure (s : Schema) (t0 t c : string) :
  column_of (match s !! t0 with Some _ => s | None => <[t0 := ∅]> s end) t c
  = column_of s t c.
Proof.
  destruct (s !! t0) eqn:Ht0; [done|].
  unfold column_of. destruct (decide (t = t0)) as [->|Hne].
  - rewrite lookup_insert_eq, Ht0. done.
  - by rewrite lookup_insert_ne.
Qed.

Lemma column_of_set (s : Schema) (t0 c0 v t c : string) :
  column_of (<[t0 := <[c0 := v]> (default ∅ (s !! t0))]> s) t c
  = if decide (t = t0 ∧ c = c0) then Some v else column_of s t c.
Proof.
  unfold column_of. destruct (decide (t = t0)) as [->|Hne].
  - rewrite lookup_insert_eq. simpl.
    destruct (decide (c = c0)) as [->|Hc].
    + rewrite lookup_insert_eq. by rewrite decide_True.
    + rewrite lookup_insert_ne by done. rewrite decide_False by (by intros [_ ?]).
      by destruct (s !! t0).
  - rewrite lookup_insert_ne by done. rewrite decide_False by (by intros [? _]). done.
Qed.

(** The row loop on scans that all succeed: it ends normally, touches the
    backend no further, counts every unmapped row, and files each column
    under the schema its type decides. *)
Lemma fetchSchema_rows_spec (crs : list column_row) :
  ∀ (s u : Schema) (w : world B),
  ∃ s' u' w',
    fetchSchema_rows (map inr crs) s u w = (Return (inr (s', u')), w') ∧
    backend w' = backend w ∧
    (∀ e, e ∈ trace w → e ∈ trace w') ∧
    (∀ r, r ∈ crs → calculateDataType (col_type r) (col_scale r) = None →
          EStat RudderMissingDatatype [("datatype", col_type r)] 1 ∈ trace w') ∧
    (∀ t c, (∀ r, r ∈ crs → column_key r = (t, c) →
                  calculateDataType (col_type r) (col_scale r) = None) →
            column_of s' t c = column_of s t c) ∧
    (∀ t c, column_of u t c = Some MissingDatatype →
            column_of u' t c = Some MissingDatatype) ∧
    (∀ r, r ∈ crs → calculateDataType (col_type r) (col_scale r) = None →
          column_of u' (col_table r) (col_name r) = Some MissingDatatype).
Proof.
  induction crs as [|r0 crs IH]; intros s u w.
  - exists s, u, w. simpl. unfold_m.
    repeat split; try done; intros ? Hin; by apply elem_of_nil in Hin.
  - simpl. destruct (calculateDataType (col_type r0) (col_scale r0)) as [dt|] eqn:Hdt.
    + edestruct IH as (s' & u' & w' & Hrun & Hb & Htr & Hstat & Hs & Hu & Hun).
      exists s', u', w'. split; [exact Hrun|]. repeat split; try done.
      * intros r [->|Hin]%elem_of_cons Hr; [congruence | by apply Hstat].
      * intros t c Hall. rewrite Hs.
        -- rewrite column_of_set, column_of_ensure.
           rewrite decide_False; [done|]. intros [-> ->].
           specialize (Hall r0 (list_elem_of_here _ _) eq_refl). congruence.
        -- intros r Hin. apply Hall. by apply list_elem_of_further.
      * intros r [->|Hin]%elem_of_cons Hr; [congruence | by apply Hun].
    + unfold_m. simpl.
      edestruct IH as (s' & u' & w' & Hrun & Hb & Htr & Hstat & Hs & Hu & Hun).
      exists s', u', w'. split; [exact Hrun|]. simpl in *. repeat split.
      * done.
      * intros e He. apply Htr, elem_of_app. by left.
      * intros r [->|Hin]%elem_of_cons Hr; [|by apply Hstat].
        apply Htr, elem_of_app. right. apply list_elem_of_here.
      * intros t c Hall. rewrite Hs.
        -- by rewrite column_of_ensure.
        -- intros r Hin. apply Hall. by apply list_elem_of_further.
      * intros t c Hcol. apply Hu. rewrite column_of_set, column_of_ensure.
        by case_decide.
      * intros r [->|Hin]%elem_of_cons Hr; [|by apply Hun].
        apply Hu. rewrite column_of_set. by rewrite decide_True.
Qed.

(** C6. The catalog query answered with rows that all scan, keyed by table
    and column as the catalog keys them: a row whose raw type
    [calculateDataType] does not know is filed under the unrecognized schema
    with the missing-datatype sentinel, a counter tagged with the raw type
    is emitted, the main schema has no such column, and [FetchSchema]
    returns both schemas without error. *)
Theorem FetchSchema_unrecognized_column
    (sf : Snowflake) (w : world B) (b' : B) (rows : Rows) (crs : list column_row)
    (r : column_row) :
  QueryContext (DB sf) fetchSchemaSQL [Namespace sf] (backend w) = (inr rows, b') →
  rows_scans rows = map inr crs →
  rows_Err rows = None →
  NoDup (map column_key crs) →
  r ∈ crs →
  calculateDataType (col_type r) (col_scale r) = None →
  ∃ schema unrecognizedSchema w',
    FetchSchema sf w = (Return (inr (schema, unrecognizedSchema)), w') ∧
    column_of unrecognizedSchema (col_table r) (col_name r) = Some MissingDatatype ∧
    column_of schema (col_table r) (col_name r) = None ∧
    EStat RudderMissingDatatype [("datatype", col_type r)] 1 ∈ trace w'.
Proof.
  intros Hq Hscans Herr Hnodup Hin Hnone.
  unfold FetchSchema. unfold_m. simpl. rewrite Hq, Hscans. simpl.
  edestruct (fetchSchema_rows_spec crs ∅ ∅) as
    (s' & u' & w' & Hrun & Hb & Htr & Hstat & Hs & Hu & Hun).
  rewrite Hrun, Herr. exists s', u', w'. split; [done|].
  split; [by apply Hun|]. split; [|by apply Hstat].
  rewrite Hs; [done|].
  intros r' Hin' Hkey.
  assert (r' = r) as ->; [|done].
  clear -Hnodup Hin Hin' Hkey.
  induction crs as [|x crs IH]; [by apply elem_of_nil in Hin|].
  apply NoDup_cons in Hnodup as [Hx Hnodup].
  apply elem_of_cons in Hin as [->|Hin]; apply elem_of_cons in Hin' as [->|Hin'].
  - done.
  - exfalso. apply Hx. apply list_elem_of_fmap. exists r'. split; [by symmetry|done].
  - exfalso. apply Hx. apply list_elem_of_fmap. exists r. by split.
  - by apply IH.
Qed.

End SchemaDiscovery.

(** C6 on a scripted catalog of three columns, one of a type the mapping
    does not know. *)
Lemma FetchSchema_unrecognized_column_witness :
  let geo := {| col_table := "TRACKS"; col_name := "LOCATION";
                col_type := "GEOGRAPHY"; col_scale := None |} in
  let crs := [ {| col_table := "TRACKS"; col_name := "ID";
                  col_type := "VARCHAR"; col_scale := None |};
               geo;
               {| col_table := "USERS"; col_name := "AGE";
                  col_type := "NUMBER"; col_scale := Some 0%Z |} ] in
  let rows := {| rows_scans := map inr crs; rows_Err := None |} in
  ∃ schema unrecognizedSchema w',
    FetchSchema (H := Demo.externals) (Demo.sf true) (World [ARows (inr rows)] [])
      = (Return (inr (schema, unrecognizedSchema)), w') ∧
    column_of unrecognizedSchema "TRACKS" "LOCATION" = Some "<missing_datatype>" ∧
    column_of schema "TRACKS" "LOCATION" = None ∧
    EStat "warehouse_rudder_missing_datatype" [("datatype", "GEOGRAPHY")] 1 ∈ trace w'.
Proof.
  intros geo crs rows.
  apply (FetchSchema_unrecognized_column (H := Demo.externals) (Demo.sf true)
           (World [ARows (inr rows)] []) [] rows crs geo).
  - reflexivity.
  - reflexivity.
  - reflexivity.
  - apply (bool_decide_unpack _). vm_compute. exact I.
  - apply list_elem_of_further, list_elem_of_here.
  - reflexivity.
Defined.

Section TableLoad.
Context `{Externals} {B : Type} `{!Backend B}.

Ltac answer :=
  match goal with
  | |- context [snowflake_DSN ?c] => destruct (snowflake_DSN c) as [?|?] eqn:?
  | |- context [sql_Open ?d ?b] => destruct (sql_Open d b) as [[?|?] ?] eqn:?
  | |- context [ExecContext ?h ?q ?b] => destruct (ExecContext h q b) as [[?|] ?] eqn:?
  | |- context [QueryRowCounts ?h ?q ?b] =>
      destruct (QueryRowCounts h q b) as [[?|?|[? ?]] ?] eqn:?
  | |- context [GetSampleLoadFileLocation ?u ?t] =>
      destruct (GetSampleLoadFileLocation u t) as [?|?] eqn:?
  | |- context [dedupSQL ?sf ?t ?k ?p] => destruct (dedupSQL sf t k p) as [?|?] eqn:?
  end; simpl.

Ltac member H :=
  repeat first
    [ apply elem_of_app in H as [H|H]
    | apply elem_of_cons in H as [H|H]
    | apply elem_of_nil in H; destruct H ].

Lemma loadTable_body_sends (sf : Snowflake) (db : handle) (tableName : string)
    (tableSchemaInUpload : TableSchema) (w : world B) (e : event) :
  e ∈ trace (loadTable_body sf db tableName tableSchemaInUpload w).2 →
  e ∈ trace w ∨ loadTable_sends sf tableName tableSchemaInUpload e.
Proof.
  unfold loadTable_body. unfold_m. simpl.
  repeat answer; intros He; member He; subst; simpl; eauto 10.
Qed.

Local Arguments loadTable_body : simpl never.

Lemma loadTable_sends_only (sf : Snowflake) (tableName : string)
    (tableSchemaInUpload : TableSchema) (skipClosingDBSession : bool)
    (w : world B) (e : event) :
  e ∈ trace (loadTable sf tableName tableSchemaInUpload skipClosingDBSession w).2 →
  e ∈ trace w ∨ loadTable_sends sf tableName tableSchemaInUpload e.
Proof.
  unfold loadTable, connect. unfold_m. simpl.
  repeat answer; try (intros He; member He; subst; simpl; by eauto 10).
  destruct skipClosingDBSession; simpl;
    match goal with
    | |- context [loadTable_body ?sf ?db ?t ?s ?w0] =>
        pose proof (loadTable_body_sends sf db t s w0 e) as Hbody;
        destruct (loadTable_body sf db t s w0) as [r w1]
    end;
    simpl in *; intros He; member He; subst; simpl; eauto;
    destruct (Hbody He) as [Hw|Hs]; eauto; member Hw; subst; simpl; eauto.
Qed.


Lemma strKeysOf_columns (tableSchemaInUpload : TableSchema) :
  strKeysOf tableSchemaInUpload ≡ₚ (map_to_list tableSchemaInUpload).*1.
Proof.
  unfold strKeysOf, Go.sort_Strings, GetColumnsFromTableSchema.
  rewrite merge_sort_Permutation. apply rangeKeys_keys.
Qed.


Lemma sortedColumnNamesOf_quoted (strKeys : list string) :
  sortedColumnNamesOf strKeys = Go.Join (map Go.quote strKeys) ",".
Proof.
  unfold sortedColumnNamesOf, JoinWithFormatting. f_equal. apply imap_const.
Qed.


(** How a table load can end: a panic is the panic of building the dedup
    statement, and success means the dedup statement was built. *)
Lemma loadTable_body_outcome (sf : Snowflake) (db : handle) (tableName : string)
    (tableSchemaInUpload : TableSchema) (w : world B) :
  match (loadTable_body sf db tableName tableSchemaInUpload w).1 with
  | Panic msg =>
      dedupSQL sf tableName (strKeysOf tableSchemaInUpload)
        (ShouldOnDedupUseNewRecord (sf_Uploader sf)) = Panic msg
  | Return (resp, None) =>
      ∃ q, dedupSQL sf tableName (strKeysOf tableSchemaInUpload)
             (ShouldOnDedupUseNewRecord (sf_Uploader sf)) = Return q
  | Return (resp, Some err) => True
  end.
Proof.
  unfold loadTable_body. unfold_m. simpl. repeat answer; eauto.
Qed.

Lemma loadTable_outcome (sf : Snowflake) (tableName : string)
    (tableSchemaInUpload : TableSchema) (skipClosingDBSession : bool) (w : world B) :
  match (loadTable sf tableName tableSchemaInUpload skipClosingDBSession w).1 with
  | Panic msg =>
      dedupSQL sf tableName (strKeysOf tableSchemaInUpload)
        (ShouldOnDedupUseNewRecord (sf_Uploader sf)) = Panic msg
  | Return (resp, None) =>
      ∃ q, dedupSQL sf tableName (strKeysOf tableSchemaInUpload)
             (ShouldOnDedupUseNewRecord (sf_Uploader sf)) = Return q
  | Return (resp, Some err) => True
  end.
Proof.
  unfold loadTable, connect. unfold_m. simpl.
  set (d := dedupSQL _ _ _ _).
  repeat answer; try done.
  destruct skipClosingDBSession; simpl;
    match goal with
    | |- context [loadTable_body ?sf ?db ?t ?s ?w0] =>
        pose proof (loadTable_body_outcome sf db t s w0) as Hbody;
        destruct (loadTable_body sf db t s w0) as [r w1]
    end; simpl in *; exact Hbody.
Qed.

Lemma strKeysOf_empty : strKeysOf ∅ = [].
Proof.
  unfold strKeysOf, GetColumnsFromTableSchema.
  pose proof (rangeKeys_keys ∅) as Hk. rewrite map_to_list_empty in Hk.
  apply Permutation_nil_r in Hk. by rewrite Hk.
Qed.

Lemma strKeysOf_nonempty (tableSchemaInUpload : TableSchema) :
  tableSchemaInUpload ≠ ∅ → strKeysOf tableSchemaInUpload ≠ [].
Proof.
  intros Hne Hnil. pose proof (strKeysOf_columns tableSchemaInUpload) as Hk.
  rewrite Hnil in Hk. symmetry in Hk. apply Permutation_nil_r in Hk.
  apply fmap_nil_inv in Hk. by apply map_to_list_empty_iff in Hk.
Qed.

Lemma dedupSQL_no_panic (sf : Snowflake) (tableName : string) (strKeys : list string)
    (keepLatestRecordOnDedup : bool) (msg : string) :
  strKeys ≠ [] ∨ keepLatestRecordOnDedup = true →
  dedupSQL sf tableName strKeys keepLatestRecordOnDedup ≠ Panic msg.
Proof.
  unfold dedupSQL. destruct keepLatestRecordOnDedup; [done|].
  intros [Hne|?]; [|done]. by destruct strKeys.
Qed.

(** C10. With the keep-first policy and an upload schema without columns,
    building the dedup statement indexes [strKeys[0]] of an empty list.
    The load then never returns success; against a database that carries
    out the steps before the merge it panics with the index error, and
    does not return an error.  With a schema that has columns no load
    panics. *)
Theorem loadTable_empty_schema_panics
    (sf : Snowflake) (tableName : string) (tableSchemaInUpload : TableSchema) :
  ShouldOnDedupUseNewRecord (sf_Uploader sf) = false →
  tableSchemaInUpload = ∅ →
  (∀ skip (w : world B) resp,
     (loadTable sf tableName tableSchemaInUpload skip w).1 ≠ Return (resp, None)) ∧
  (∀ skip h csvObjectLocation script,
     GetSampleLoadFileLocation (sf_Uploader sf) tableName = inr csvObjectLocation →
     (loadTable (B := list answer) sf tableName tableSchemaInUpload skip
        (World ([AOpen (inr h); AExec None; AExec None; AExec None] ++ script) [])).1
     = Panic "runtime error: index out of range [0] with length 0") ∧
  (∀ table schema skip (w : world B) msg,
     schema ≠ ∅ → (loadTable sf table schema skip w).1 ≠ Panic msg).
Proof.
  intros Hkeep ->. split; [|split].
  - intros skip w resp Hret.
    pose proof (loadTable_outcome sf tableName ∅ skip w) as Hout.
    rewrite Hret, Hkeep, strKeysOf_empty in Hout. by destruct Hout.
  - intros skip h csv script Hcsv.
    unfold loadTable, connect, loadTable_body. unfold_m. simpl.
    rewrite Hcsv, Hkeep, strKeysOf_empty. by destruct skip.
  - intros table schema skip w msg Hne Hpanic.
    pose proof (loadTable_outcome sf table schema skip w) as Hout.
    rewrite Hpanic in Hout. revert Hout. apply dedupSQL_no_panic.
    left. by apply strKeysOf_nonempty.
Qed.

End TableLoad.


(** C10 on the scripted database: the table EMPTY has no columns in the
    upload and the policy keeps the first record. *)
Lemma loadTable_empty_schema_panics_witness :
  let sf := Demo.sf false in
  (∀ skip (w : world (list answer)) resp,
     (loadTable (H := Demo.externals) sf "EMPTY" ∅ skip w).1 ≠ Return (resp, None)) ∧
  (loadTable (H := Demo.externals) sf "EMPTY" ∅ false
     (World [AOpen (inr 7%nat); AExec None; AExec None; AExec None] [])).1
  = Panic "runtime error: index out of range [0] with length 0" ∧
  (∀ skip (w : world (list answer)) msg,
     (loadTable (H := Demo.externals) sf "TRACKS" (Demo.schemaOf "TRACKS") skip w).1
     ≠ Panic msg).
Proof.
  intros sf.
  destruct (loadTable_empty_schema_panics (H := Demo.externals) (B := list answer)
              sf "EMPTY" ∅ eq_refl eq_refl) as (Hnever & Hpanic & Hsafe).
  split; [exact Hnever|]. split.
  - apply (Hpanic false 7%nat "s3://bucket/EMPTY/" []). reflexivity.
  - intros skip w msg. apply Hsafe. intros Hempty.
    apply (f_equal (λ m : TableSchema, m !! "ID")) in Hempty. discriminate Hempty.
Defined.

Section Connections.
Context `{Externals} {B : Type} `{!Backend B}.

Ltac answer :=
  match goal with
  | |- context [snowflake_DSN ?c] => destruct (snowflake_DSN c) as [?|?] eqn:?
  | |- context [sql_Open ?d ?b] => destruct (sql_Open d b) as [[?|?] ?] eqn:?
  | |- context [ExecContext ?h ?q ?b] => destruct (ExecContext h q b) as [[?|] ?] eqn:?
  | |- context [QueryRowCounts ?h ?q ?b] =>
      destruct (QueryRowCounts h q b) as [[?|?|[? ?]] ?] eqn:?
  | |- context [GetSampleLoadFileLocation ?u ?t] =>
      destruct (GetSampleLoadFileLocation u t) as [?|?] eqn:?
  | |- context [GetSingleLoadFile ?u ?t] =>
      destruct (GetSingleLoadFile u t) as [?|?] eqn:?
  | |- context [dedupSQL ?sf ?t ?k ?p] => destruct (dedupSQL sf t k p) as [?|?] eqn:?
  end; simpl.

Ltac member H :=
  repeat first
    [ apply elem_of_app in H as [H|H]
    | apply elem_of_cons in H as [H|H]
    | apply elem_of_nil in H; destruct H ].

Local Arguments loadTable_body : simpl never.

(** The body of a table load closes nothing itself. *)
Lemma loadTable_body_closes_nothing (sf : Snowflake) (db : handle) (tableName : string)
    (tableSchemaInUpload : TableSchema) (w : world B) (h : handle) :
  EClose h ∈ trace (loadTable_body sf db tableName tableSchemaInUpload w).2 →
  EClose h ∈ trace w.
Proof.
  unfold loadTable_body. unfold_m. simpl.
  repeat answer; intros He; member He; done.
Qed.

(** A load that closes its session ends with the close of the connection
    it opened. *)
Lemma loadTable_closes (sf : Snowflake) (tableName : string)
    (tableSchemaInUpload : TableSchema) (w w0 : world B) (db : handle) :
  connect sf {| schemaName := Namespace sf |}
    (World (backend w)
           (trace w ++ [ELog LInfo "started loading"
                          (loadFields sf ++ [(logfield.TableName, tableName)])]))
  = (Return (inr db), w0) →
  last (trace (loadTable sf tableName tableSchemaInUpload false w).2) = Some (EClose db).
Proof.
  intros Hconnect. unfold loadTable. unfold_m. simpl. simpl in Hconnect.
  rewrite Hconnect. simpl.
  destruct (loadTable_body _ _ _ _ _) as [r w1]. simpl. apply last_snoc.
Qed.

(** A load told to keep its session open never closes the connection,
    also when it returns an error and hands no connection to its caller. *)
Lemma loadTable_keep_open_closes_nothing (sf : Snowflake) (tableName : string)
    (tableSchemaInUpload : TableSchema) (w : world B) (h : handle) :
  EClose h ∈ trace (loadTable sf tableName tableSchemaInUpload true w).2 →
  EClose h ∈ trace w.
Proof.
  unfold loadTable, connect. unfold_m. simpl.
  repeat answer; try (intros He; member He; done).
  intros He. apply loadTable_body_closes_nothing in He. simpl in He. member He; done.
Qed.

(** When the identifies load fails, [loadUserTables] returns at once: the
    connection that load opened is closed by nobody. *)
Lemma loadUserTables_error_closes_nothing (sf : Snowflake) (w : world B)
    (resp : tableLoadResp) (err : error) (h : handle) :
  (loadTable sf identifiesTable
     (GetTableSchemaInUpload (sf_Uploader sf) identifiesTable) true
     (World (backend w)
            (trace w ++ [ELog LInfo "started loading for identifies and users tables"
                           (loadFields sf)]))).1
  = Return (resp, Some err) →
  EClose h ∈ trace (loadUserTables sf w).2 → EClose h ∈ trace w.
Proof.
  intros Hload. unfold loadUserTables. unfold_m. simpl.
  pose proof (loadTable_keep_open_closes_nothing sf identifiesTable
                (GetTableSchemaInUpload (sf_Uploader sf) identifiesTable)
                (World (backend w)
                   (trace w ++ [ELog LInfo
                                  "started loading for identifies and users tables"
                                  (loadFields sf)])) h) as Hclose.
  destruct (loadTable _ _ _ _ _) as [r w1]. simpl in *. subst r. simpl.
  intros He. apply Hclose in He. member He; done.
Qed.

End Connections.

(** C9, evaluated on the failing input.  The identifies load of
    [loadUserTables] opens connection 7; the database then refuses the
    staging table.  [loadTable] returns the error without a connection in
    its response, [loadUserTables] returns the error map, and connection 7
    is still open: the trace has its open and no close.  The same failure
    in a load that closes its session ends with the close. *)
Theorem loadUserTables_leaks_connection_on_error :
  let script := [AOpen (inr 7%nat); AExec None;
                 AExec (Some (errorString "SQL compilation error"))] in
  let users := run (loadUserTables (H := Demo.externals) (Demo.sf true)) script in
  let single := run (LoadTable (H := Demo.externals) (Demo.sf true) "IDENTIFIES") script in
  let refused := Errorf_w "create temporary table: " (errorString "SQL compilation error") in
  users.1 = Return (<["IDENTIFIES" := Some (Errorf_w "loading table IDENTIFIES: " refused)]> ∅) ∧
  EOpen 7%nat ∈ (users.2) ∧
  (EClose 7%nat ∉ users.2) ∧
  unclosed (users.2) = [7%nat] ∧
  single.1 = Return (Some refused) ∧
  last (single.2) = Some (EClose 7%nat) ∧
  unclosed (single.2) = [].
Proof.
  intros script users single refused.
  repeat split; try (vm_compute; reflexivity);
    apply (bool_decide_unpack _); vm_compute; exact I.
Qed.

Section Redaction.
Context `{Externals} {B : Type} `{!Backend B}.

Ltac answer :=
  match goal with
  | |- context [snowflake_DSN ?c] => destruct (snowflake_DSN c) as [?|?] eqn:?
  | |- context [sql_Open ?d ?b] => destruct (sql_Open d b) as [[?|?] ?] eqn:?
  | |- context [ExecContext ?h ?q ?b] => destruct (ExecContext h q b) as [[?|] ?] eqn:?
  | |- context [GetSingleLoadFile ?u ?t] =>
      destruct (GetSingleLoadFile u t) as [?|?] eqn:?
  | |- context [checkAndIgnoreAlreadyExistError ?e] =>
      destruct (checkAndIgnoreAlreadyExistError e) eqn:?
  end; simpl.

Ltac member H :=
  repeat first
    [ apply elem_of_app in H as [H|H]
    | apply elem_of_cons in H as [H|H]
    | apply elem_of_nil in H; destruct H ].

Ltac find_event :=
  repeat first
    [ solve [apply elem_of_app; right; apply list_elem_of_singleton; reflexivity]
    | apply elem_of_app; left ].

Local Arguments checkAndIgnoreAlreadyExistError : simpl never.

(** The bulk copy of the identity mappings load goes to the log as it goes
    to the database: the text with the authentication clause in it, not
    passed through [ReplaceMultiRegex]. *)
Lemma LoadIdentityMappingsTable_logs_copy_raw (sf : Snowflake) (w : world B)
    (h : handle) (q : string) :
  EExec h q ∈ trace (LoadIdentityMappingsTable sf w).2 →
  EExec h q ∉ trace w →
  Go.has_prefix "COPY INTO" q = true →
  (∃ loadFile,
     GetSingleLoadFile (sf_Uploader sf) identityMappingsTable = inr loadFile ∧
     q = identityCopySQL
           (schemaIdentifier sf +:+ "."
              +:+ Go.quote (StagingTableName provider identityMappingsTable tableNameLimit))
           mappingsColumns
           (GetObjectLocation (ObjectStorage sf) (Location loadFile))
           (authString sf)) ∧
  ELog LInfo ("SF: Dedup records for table:" +:+ identityMappingsTable
                +:+ " using staging table: " +:+ q +:+ Go.nl) []
    ∈ trace (LoadIdentityMappingsTable sf w).2.
Proof.
  unfold LoadIdentityMappingsTable, connect. unfold_m. simpl.
  repeat answer; intros He Hnew Hcopy; member He; try done;
    injection He as -> ->; try (cbn in Hcopy; discriminate Hcopy);
    (split; [eexists; split; reflexivity | find_event]).
Qed.

(** When the storage integration is not configured and the provider is AWS
    that authentication clause spells out the temporary credentials. *)
Lemma authString_credentials (sf : Snowflake) :
  CloudProvider sf = "AWS" →
  GetConfigValue storageIntegration (sf_Warehouse sf) = "" →
  authString sf =
    "CREDENTIALS = (AWS_KEY_ID='" +:+ (GetTemporaryS3Cred (sf_Warehouse sf)).1.1
      +:+ "' AWS_SECRET_KEY='" +:+ (GetTemporaryS3Cred (sf_Warehouse sf)).1.2
      +:+ "' AWS_TOKEN='" +:+ (GetTemporaryS3Cred (sf_Warehouse sf)).2 +:+ "')".
Proof.
  intros Haws Hsi. unfold authString. rewrite Haws, Hsi.
  rewrite !bool_decide_eq_true_2 by done. rewrite orb_true_r.
  by destruct (GetTemporaryS3Cred _) as [[? ?] ?].
Qed.

End Redaction.

(** [connect] itself returns without closing the handle of [sql.Open] when
    the session setup fails, whatever the caller's flag. *)
Example connect_failure_leaves_handle :
  let script := [AOpen (inr 7%nat); AExec (Some (errorString "session refused"))] in
  let single := run (LoadTable (H := Demo.externals) (Demo.sf true) "TRACKS") script in
  single.1 = Return (Some (Errorf_w "connect: "
                             (Errorf_v "SF: snowflake alter session error : "
                                (errorString "session refused")))) ∧
  unclosed (single.2) = [7%nat].
Proof. split; vm_compute; reflexivity. Qed.

(** C3, evaluated on the failing input: an identity mappings load with
    temporary AWS credentials, against a database that accepts every
    statement.  The log line of its bulk copy carries the three raw
    credential values and no placeholder.  The same credentials in the
    bulk copies of a table load and of the merge rules load are logged
    masked. *)
Theorem LoadIdentityMappingsTable_logs_raw_credentials :
  let script := [AOpen (inr 7%nat); AExec None; AExec None; AExec None; AExec None;
                 AExec None; ARowCounts (RowScan (1, 2)%Z)] in
  let shows (tr : list event) (text : string) : bool :=
    existsb (λ line, Go.Contains line text) (logged tr) in
  let mappings :=
    (run (LoadIdentityMappingsTable (H := Demo.externals) (Demo.sf true)) script).2 in
  let rules :=
    (run (LoadIdentityMergeRulesTable (H := Demo.externals) (Demo.sf true)) script).2 in
  let table :=
    (run (LoadTable (H := Demo.externals) (Demo.sf true) "TRACKS") script).2 in
  shows mappings "AWS_KEY_ID='AKIAEXAMPLE'" = true ∧
  shows mappings "AWS_SECRET_KEY='s3cr3t'" = true ∧
  shows mappings "AWS_TOKEN='t0k3n'" = true ∧
  shows mappings "AWS_SECRET_KEY='***'" = false ∧
  shows rules "s3cr3t" = false ∧ shows rules "AWS_SECRET_KEY='***'" = true ∧
  shows table "s3cr3t" = false ∧ shows table "AWS_SECRET_KEY='***'" = true.
Proof.
  intros script shows mappings rules table.
  repeat split; vm_compute; reflexivity.
Qed.

(** ** Ranking and merging *)

Section Ranking.
Import SQL.

Lemma countb_zero {A} (f : A → bool) (l : list A) :
  countb f l = 0%nat ↔ ∀ x, x ∈ l → f x = false.
Proof.
  induction l as [|a l IH]; simpl.
  - split; [|done]. intros _ x Hx. by apply elem_of_nil in Hx.
  - split.
    + intros Hc x [->|Hx]%elem_of_cons.
      * destruct (f a); [discriminate|done].
      * apply IH; [|done]. destruct (f a); [discriminate|done].
    + intros Hall. rewrite (Hall a (list_elem_of_here _ _)). simpl.
      apply IH. intros x Hx. apply Hall. by apply list_elem_of_further.
Qed.












End Ranking.

Section Merging.
Import SQL.

Lemma lookup_assign (c c' : string) (v : option datum) (r : row) :
  assign c v r !! c' = if decide (c = c') then v else r !! c'.
Proof.
  destruct v as [d|]; simpl; [apply lookup_insert | apply lookup_delete].
Qed.


(** UPDATE SET original.c = original.c leaves the row as it is. *)
Lemma assign_self (c : string) (t : row) : assign c (t !! c) t = t.
Proof.
  apply map_eq. intros c'. rewrite lookup_assign. by case_decide; subst.
Qed.



Lemma new_target_lookup (m : merge) (target staged : list row) (i : nat) (t : row) :
  target !! i = Some t →
  new_target (run_merge m target staged) !! i
  = Some (update_row m (rank1 (m_partition_by m) (m_order_by_desc m) staged) t).
Proof.
  intros Ht. simpl. rewrite lookup_app_l.
  - by rewrite list_lookup_fmap, Ht.
  - rewrite length_fmap. by eapply lookup_lt_Some.
Qed.


(** A merge whose UPDATE SET assigns a column to itself leaves every row
    of the target as it was; what it adds comes after them. *)
Lemma merge_self_update (m : merge) (c0 : string) (target staged : list row) :
  m_update m = SetSelf c0 →
  take (length target) (new_target (run_merge m target staged)) = target ∧
  ∀ i t, target !! i = Some t →
         new_target (run_merge m target staged) !! i = Some t.
Proof.
  intros Hupd.
  assert (∀ src t, update_row m src t = t) as Hid.
  { intros src t. unfold update_row. destruct (List.find _ _); [|done].
    rewrite Hupd. simpl. apply assign_self. }
  split.
  - simpl. replace (map _ target) with target.
    + apply take_app_length.
    + induction target as [|t target IH]; [done|]. simpl. by rewrite Hid, <- IH.
  - intros i t Ht. by rewrite (new_target_lookup _ _ _ _ _ Ht), Hid.
Qed.

(** The update count of a merge is the number of target rows that some
    rank-1 staged row matches. *)
Lemma merge_updated_positive (m : merge) (target staged : list row) (t s : row) :
  t ∈ target → s ∈ rank1 (m_partition_by m) (m_order_by_desc m) staged →
  matches (m_on m) t s = true →
  (0 < updated (run_merge m target staged))%Z.
Proof.
  intros Ht Hs Hm. simpl.
  destruct (countb _ target) eqn:Hc; [|lia].
  apply countb_zero with (x := t) in Hc; [|done].
  assert (existsb (matches (m_on m) t)
            (rank1 (m_partition_by m) (m_order_by_desc m) staged) = true) as Hex.
  { apply existsb_exists. exists s. split; [by apply list_elem_of_In|done]. }
  congruence.
Qed.

End Merging.

Section DedupMerge.
Context `{Externals} {B : Type} `{!Backend B}.
Import SQL.

Lemma primaryKeyOf_cases (tableName : string) :
  primaryKeyOf tableName = if decide (tableName = discardsTable) then "ROW_ID" else "ID".
Proof.
  unfold primaryKeyOf, primaryKeyMap. case_decide as Hd.
  - subst. by rewrite lookup_insert_eq.
  - rewrite lookup_insert_ne by done.
    destruct (decide (tableName = identifiesTable)) as [->|Hi].
    + by rewrite lookup_insert_eq.
    + rewrite lookup_insert_ne by done.
      destruct (decide (tableName = usersTable)) as [->|Hu].
      * by rewrite lookup_insert_eq.
      * by rewrite lookup_insert_ne, lookup_empty.
Qed.

Lemma partitionKeyOf_cases (tableName : string) :
  partitionKeyOf tableName = Go.Join (map Go.quote (partitionColumns tableName)) ", ".
Proof.
  unfold partitionKeyOf, partitionKeyMap, partitionColumns. case_decide as Hd.
  - subst. by rewrite lookup_insert_eq.
  - rewrite lookup_insert_ne by done.
    destruct (decide (tableName = identifiesTable)) as [->|Hi].
    + by rewrite lookup_insert_eq.
    + rewrite lookup_insert_ne by done.
      destruct (decide (tableName = usersTable)) as [->|Hu].
      * by rewrite lookup_insert_eq.
      * by rewrite lookup_insert_ne, lookup_empty.
Qed.

Lemma stagingColumnNamesOf_map (strKeys : list string) :
  stagingColumnNamesOf strKeys
  = Go.Join (map (λ c, "staging." +:+ Go.quote c) strKeys) ",".
Proof.
  unfold stagingColumnNamesOf, JoinWithFormatting. f_equal.
  apply (imap_const (λ c, "staging." +:+ Go.quote c)).
Qed.

Lemma columnsWithValuesOf_map (strKeys : list string) :
  columnsWithValuesOf strKeys
  = Go.Join (map (λ c, "original." +:+ Go.quote c +:+ " = staging." +:+ Go.quote c)
                 strKeys) ",".
Proof.
  unfold columnsWithValuesOf, JoinWithFormatting. f_equal.
  apply (imap_const (λ c, "original." +:+ Go.quote c +:+ " = staging." +:+ Go.quote c)).
Qed.

(** The text [dedupSQL] builds is the concrete syntax of [dedupMerge]. *)
Lemma dedupSQL_prints (sf : Snowflake) (tableName : string) (strKeys : list string)
    (keep : bool) (update : set_clause) :
  dedupUpdate strKeys keep = Some update →
  ∃ q, dedupSQL sf tableName strKeys keep = Return q ∧
       print_dedup (dedupMerge sf tableName strKeys update) = Some q.
Proof.
  intros Hupd. unfold dedupSQL, print_dedup, dedupMerge, mergeIntoSQL.
  cbn [m_on m_order_by_desc m_target m_staging m_insert m_update m_partition_by m_schema].
  rewrite ?primaryKeyOf_cases, ?partitionKeyOf_cases, ?sortedColumnNamesOf_quoted,
    ?stagingColumnNamesOf_map, ?columnsWithValuesOf_map.
  unfold additionalJoinClauseOf, joinColumns.
  unfold dedupUpdate in Hupd. destruct keep.
  - injection Hupd as <-. eexists. split; [done|]. by case_decide.
  - destruct (strKeys !! 0%nat) as [key0|]; [|done]. injection Hupd as <-.
    eexists. split; [done|]. by case_decide.
Qed.


Ltac answer :=
  match goal with
  | |- context [snowflake_DSN ?c] => destruct (snowflake_DSN c) as [?|?] eqn:?
  | |- context [sql_Open ?d ?b] => destruct (sql_Open d b) as [[?|?] ?] eqn:?
  | |- context [ExecContext ?h ?q ?b] => destruct (ExecContext h q b) as [[?|] ?] eqn:?
  | |- context [QueryRowCounts ?h ?q ?b] =>
      destruct (QueryRowCounts h q b) as [[?|?|[? ?]] ?] eqn:?
  | |- context [GetSampleLoadFileLocation ?u ?t] =>
      destruct (GetSampleLoadFileLocation u t) as [?|?] eqn:?
  | |- context [dedupSQL ?sf ?t ?k ?p] => destruct (dedupSQL sf t k p) as [?|?] eqn:?
  end; simpl.

(** A table load that succeeds has sent its dedup statement as a row
    query on its connection, which it hands back. *)
Lemma loadTable_body_sends_dedup (sf : Snowflake) (db : handle) (tableName : string)
    (tableSchemaInUpload : TableSchema) (w w' : world B) (resp : tableLoadResp) :
  loadTable_body sf db tableName tableSchemaInUpload w = (Return (resp, None), w') →
  ∃ q added,
    dedupSQL sf tableName (strKeysOf tableSchemaInUpload)
      (ShouldOnDedupUseNewRecord (sf_Uploader sf)) = Return q ∧
    resp_db resp = Some db ∧
    trace w' = trace w ++ added ∧
    EQueryRow db q ∈ added.
Proof.
  unfold loadTable_body. unfold_m. simpl.
  repeat answer; intros Heq; try discriminate Heq; inversion Heq; subst; clear Heq.
  simpl. rewrite <- !app_assoc.
  eexists _, _. split; [reflexivity|]. split; [reflexivity|]. split; [reflexivity|].
  rewrite !elem_of_app, !list_elem_of_singleton. tauto.
Qed.

Local Arguments loadTable_body : simpl never.

Lemma loadTable_sends_dedup (sf : Snowflake) (tableName : string)
    (tableSchemaInUpload : TableSchema) (skipClosingDBSession : bool)
    (w : world B) (resp : tableLoadResp) :
  (loadTable sf tableName tableSchemaInUpload skipClosingDBSession w).1
    = Return (resp, None) →
  ∃ db q added,
    dedupSQL sf tableName (strKeysOf tableSchemaInUpload)
      (ShouldOnDedupUseNewRecord (sf_Uploader sf)) = Return q ∧
    resp_db resp = Some db ∧
    trace (loadTable sf tableName tableSchemaInUpload skipClosingDBSession w).2
      = trace w ++ added ∧
    EQueryRow db q ∈ added.
Proof.
  unfold loadTable, connect. unfold_m. simpl.
  set (d := dedupSQL _ _ _ _).
  repeat answer; try done.
  destruct skipClosingDBSession; simpl;
    match goal with
    | |- context [loadTable_body ?sf ?db ?t ?s ?w0] =>
        destruct (loadTable_body sf db t s w0) as [r w1] eqn:Hrun
    end;
    simpl; intros ->;
    apply loadTable_body_sends_dedup in Hrun as (q & added & Hq & Hdb & Htr & Hin);
    simpl in Htr; rewrite Htr, <- ?app_assoc;
    eexists _, q, _; (split; [done|]); (split; [done|]); (split; [reflexivity|]);
    rewrite !elem_of_app; tauto.
Qed.

(** Against a database that carries out the steps before it and answers
    the merge with two counts, a table load sends its dedup statement as a
    row query on the connection it opened, and succeeds. *)
Lemma loadTable_scripted_run (sf : Snowflake) (tableName : string)
    (tableSchemaInUpload : TableSchema) (skip : bool) (h : handle)
    (csvObjectLocation q : string) (counts : Z * Z) (script : list answer) :
  GetSampleLoadFileLocation (sf_Uploader sf) tableName = inr csvObjectLocation →
  dedupSQL sf tableName (strKeysOf tableSchemaInUpload)
    (ShouldOnDedupUseNewRecord (sf_Uploader sf)) = Return q →
  let result :=
    run (loadTable sf tableName tableSchemaInUpload skip)
        ([AOpen (inr h); AExec None; AExec None; AExec None;
          ARowCounts (RowScan counts)] ++ script) in
  result.1 = Return ({| resp_db := Some h;
                        stagingTable := StagingTableName provider tableName
                                          tableNameLimit |}, None) ∧
  EQueryRow h q ∈ result.2.
Proof.
  intros Hcsv Hq result. subst result.
  unfold run, loadTable, connect, loadTable_body.
  unfold_m. simpl.
  rewrite Hcsv, Hq. destruct counts as [ins upd].
  destruct skip; simpl; (split; [reflexivity|]);
    repeat first [apply list_elem_of_here | apply list_elem_of_further].
Qed.



(** C2. With the policy off, a row query that a table load sends is the
    concrete syntax of the merge [m key0] below, whose UPDATE SET assigns
    the first column of the sorted column list to itself (a load without
    columns sends no row query); a load that succeeds has sent it on the
    connection it hands back, and against a database that carries out
    the steps before it the load does send it.  Under that merge every
    row the target had before comes out equal to what it was, in all its
    columns; a second merge of the same staged data leaves every row of
    the first result (inserted ones included) as it was; and the update
    count is positive as soon as one target row is matched. *)
Theorem keep_first_merge_changes_no_value
    (sf : Snowflake) (tableName : string) (tableSchemaInUpload : TableSchema) :
  ShouldOnDedupUseNewRecord (sf_Uploader sf) = false →
  let strKeys := strKeysOf tableSchemaInUpload in
  let stagingTableName := StagingTableName provider tableName tableNameLimit in
  let m := λ key0,
    {| m_schema := Go.quote (Namespace sf);
       m_target := tableName;
       m_staging := stagingTableName;
       m_partition_by := if decide (tableName = discardsTable)
                         then ["ROW_ID"; "COLUMN_NAME"; "TABLE_NAME"] else ["ID"];
       m_order_by_desc := "RECEIVED_AT";
       m_on := if decide (tableName = discardsTable)
               then ["ROW_ID"; "TABLE_NAME"; "COLUMN_NAME"] else ["ID"];
       m_insert := strKeys;
       m_update := SetSelf key0 |} in
  (∀ skip (w : world B) h q,
     EQueryRow h q ∈ trace (loadTable sf tableName tableSchemaInUpload skip w).2 →
     EQueryRow h q ∉ trace w →
     ∃ key0, strKeys !! 0%nat = Some key0 ∧ print_dedup (m key0) = Some q) ∧
  (∀ key0, strKeys !! 0%nat = Some key0 →
     ∃ q, print_dedup (m key0) = Some q ∧
       (∀ skip (w : world B) resp,
          let res := loadTable sf tableName tableSchemaInUpload skip w in
          res.1 = Return (resp, None) →
          ∃ h added, resp_db resp = Some h ∧ trace res.2 = trace w ++ added ∧
                     EQueryRow h q ∈ added) ∧
       (∀ skip h csvObjectLocation counts script,
          GetSampleLoadFileLocation (sf_Uploader sf) tableName = inr csvObjectLocation →
          let result :=
            run (loadTable sf tableName tableSchemaInUpload skip)
                ([AOpen (inr h); AExec None; AExec None; AExec None;
                  ARowCounts (RowScan counts)] ++ script) in
          result.1 = Return ({| resp_db := Some h; stagingTable := stagingTableName |},
                             None) ∧
          EQueryRow h q ∈ result.2)) ∧
  ∀ key0 (target staged : list row),
    let first := run_merge (m key0) target staged in
    let again := run_merge (m key0) (new_target first) staged in
    (∀ i t, target !! i = Some t → new_target first !! i = Some t) ∧
    (∀ i t, new_target first !! i = Some t → new_target again !! i = Some t) ∧
    (∀ t s, t ∈ target →
            s ∈ rank1 (m_partition_by (m key0)) (m_order_by_desc (m key0)) staged →
            matches (m_on (m key0)) t s = true → (0 < updated first)%Z).
Proof.
  intros Hkeep strKeys stagingTableName m. split; [|split].
  - intros skip w h q Hin Hnew.
    apply loadTable_sends_only in Hin as [Hin|Hsend]; [done|].
    simpl in Hsend. rewrite Hkeep in Hsend. fold strKeys in Hsend.
    destruct (strKeys !! 0%nat) as [key0|] eqn:Hkey0.
    + exists key0. split; [done|].
      destruct (dedupSQL_prints sf tableName strKeys false (SetSelf key0))
        as (q' & Hq & Hprint).
      { unfold dedupUpdate. by rewrite Hkey0. }
      rewrite Hq in Hsend. by injection Hsend as <-.
    + unfold dedupSQL in Hsend. by rewrite Hkey0 in Hsend.
  - intros key0 Hkey0.
    destruct (dedupSQL_prints sf tableName strKeys false (SetSelf key0))
      as (q & Hq & Hprint).
    { unfold dedupUpdate. by rewrite Hkey0. }
    exists q. split; [exact Hprint|]. split.
    + intros skip w resp res Hres. subst res.
      destruct (loadTable_sends_dedup _ _ _ _ _ _ Hres)
        as (db & q' & added & Hq' & Hdb & Htr & Hin).
      rewrite Hkeep in Hq'. fold strKeys in Hq'. rewrite Hq in Hq'.
      injection Hq' as <-. by exists db, added.
    + intros skip h csv counts script Hcsv.
      apply (loadTable_scripted_run _ _ _ _ _ csv); [done|]. by rewrite Hkeep.
  - intros key0 target staged first again. split; [|split].
    + apply (merge_self_update (m key0) key0 target staged eq_refl).
    + apply (merge_self_update (m key0) key0 (new_target first) staged eq_refl).
    + intros t s. apply merge_updated_positive.
Qed.

End DedupMerge.

Section IdentityMappings.
Context `{Externals}.
Import SQL.

Local Arguments checkAndIgnoreAlreadyExistError : simpl never.


End IdentityMappings.



(** C2 on scripted loads of TRACKS with the keep-first policy: the load
    succeeds and its one row query is the merge that assigns EVENT to
    itself; a load that keeps its session, run after an earlier event, has
    added the merge to the trace.  The target has id 1 as "x", the staged
    row of id 1 says "y". *)
Lemma keep_first_merge_changes_no_value_witness :
  let sf := Demo.sf false in
  let schema := Demo.schemaOf "TRACKS" in
  let strKeys := strKeysOf (H := Demo.externals) schema in
  let m := dedupMerge (H := Demo.externals) sf "TRACKS" strKeys (SQL.SetSelf "EVENT") in
  let script :=
    [AOpen (inr 7%nat); AExec None; AExec None; AExec None;
     ARowCounts (RowScan (0, 1)%Z)] in
  let result := run (loadTable (H := Demo.externals) sf "TRACKS" schema false) script in
  let earlier := World script [ELog LInfo "earlier" []] in
  let kept := loadTable (H := Demo.externals) sf "TRACKS" schema true earlier in
  let old := Rows.stored 1 "x" 50 "kept" in
  let y := Rows.event 1 "y" 200 in
  let first := SQL.run_merge m [old] [y] in
  let again := SQL.run_merge m (SQL.new_target first) [y] in
  strKeys !! 0%nat = Some "EVENT" ∧
  (∃ q, print_dedup m = Some q ∧
        result.1 = Return ({| resp_db := Some 7%nat;
                              stagingTable := "RUDDER_STAGING_TRACKS" |}, None) ∧
        EQueryRow 7%nat q ∈ result.2 ∧
        (∀ h q', EQueryRow h q' ∈ result.2 → q' = q) ∧
        (∃ added, trace kept.2 = trace earlier ++ added ∧ EQueryRow 7%nat q ∈ added) ∧
        Go.Contains q ("UPDATE SET original." +:+ Go.quote "EVENT" +:+ " = original."
                         +:+ Go.quote "EVENT" +:+ ";") = true) ∧
  SQL.new_target first !! 0%nat = Some old ∧
  SQL.new_target again !! 0%nat = Some old ∧
  (0 < SQL.updated first)%Z.
Proof.
  intros sf schema strKeys m script result earlier kept old y first again. subst script.
  destruct (keep_first_merge_changes_no_value (H := Demo.externals) (B := list answer)
              sf "TRACKS" schema eq_refl)
    as (Honly & Hsends & Hsem).
  assert (strKeys !! 0%nat = Some "EVENT") as Hkey0 by (vm_compute; reflexivity).
  split; [exact Hkey0|].
  destruct (Hsends "EVENT" Hkey0) as (q & Hprint & Hsucc & Hsent).
  destruct (Hsent false 7%nat "s3://bucket/TRACKS/" (0, 1)%Z [] eq_refl)
    as [Hres Hin].
  split.
  { exists q. split; [exact Hprint|]. split; [exact Hres|]. split; [exact Hin|].
    split.
    { intros h q' Hq'.
      destruct (Honly false (World [AOpen (inr 7%nat); AExec None; AExec None; AExec None; ARowCounts (RowScan (0, 1)%Z)] []) h q' Hq' (not_elem_of_nil _))
        as (key0 & Hk & Hp).
      pose proof (eq_trans (eq_sym Hk) Hkey0) as [= ->].
      change (print_dedup m = Some q') in Hp.
      change (print_dedup m = Some q) in Hprint.
      rewrite Hp in Hprint. injection Hprint as Heq. exact Heq. }
    split.
    { assert (kept.1 = Return ({| resp_db := Some 7%nat;
                                  stagingTable := "RUDDER_STAGING_TRACKS" |}, None))
        as Hkept by (vm_compute; reflexivity).
      destruct (Hsucc true earlier _ Hkept) as (h & added & Hdb & Htr & Hadded).
      injection Hdb as <-. exists added. split; [exact Htr|exact Hadded]. }
    vm_compute in Hprint. injection Hprint as <-. vm_compute. reflexivity. }
  destruct (Hsem "EVENT" [old] [y]) as (Hfirst & Hagain & Hcount).
  split; [by apply Hfirst|]. split; [by apply Hagain, Hfirst|].
  apply (Hcount old y).
  - apply list_elem_of_here.
  - apply (bool_decide_unpack _). vm_compute. exact I.
  - reflexivity.
Defined.



(** The scenarios of the spec, evaluated. *)
Example scenario_later_row_wins :
  let strKeys := ["EVENT"; "ID"; "RECEIVED_AT"] in
  let m := dedupMerge (H := Demo.externals) (Demo.sf true) "TRACKS" strKeys
             (SQL.SetFromStaging strKeys) in
  SQL.rank1 ["ID"] "RECEIVED_AT" [Rows.event 1 "a" 100; Rows.event 1 "b" 200]
    = [Rows.event 1 "b" 200] ∧
  SQL.rank1 ["ID"] "RECEIVED_AT" [Rows.event 1 "b" 200; Rows.event 1 "a" 100]
    = [Rows.event 1 "b" 200] ∧
  SQL.new_target (SQL.run_merge m [] [Rows.event 1 "a" 100; Rows.event 1 "b" 200])
    = [Rows.event 1 "b" 200] ∧
  SQL.new_target (SQL.run_merge m [Rows.stored 1 "x" 50 "kept"]
                    [Rows.event 1 "b" 200; Rows.event 1 "a" 100])
    = [Rows.stored 1 "b" 200 "kept"].
Proof. repeat split; vm_compute; reflexivity. Qed.

Example scenario_keep_first :
  let strKeys := ["EVENT"; "ID"; "RECEIVED_AT"] in
  let m := dedupMerge (H := Demo.externals) (Demo.sf false) "TRACKS" strKeys
             (SQL.SetSelf "EVENT") in
  let result := SQL.run_merge m [Rows.event 1 "x" 50] [Rows.event 1 "y" 200] in
  SQL.new_target result = [Rows.event 1 "x" 50] ∧
  SQL.updated result = 1%Z ∧ SQL.inserted result = 0%Z.
Proof. repeat split; vm_compute; reflexivity. Qed.

Example scenario_highest_surrogate_key :
  let m := mappingsMerge (H := Demo.externals) (Demo.sf true) in
  SQL.new_target (SQL.run_merge m [Rows.stored_mapping "rid-0" 5]
                    [Rows.mapping 2 "rid-new" 20; Rows.mapping 1 "rid-old" 10])
    = [Rows.stored_mapping "rid-new" 20] ∧
  SQL.new_target (SQL.run_merge m []
                    [Rows.mapping 1 "rid-old" 10; Rows.mapping 2 "rid-new" 20])
    = [Rows.stored_mapping "rid-new" 20].
Proof. repeat split; vm_compute; reflexivity. Qed.
(** ** Further properties: schema changes *)

Section StringFacts.

Lemma append_cons (x : ascii) (a b : string) :
  String x a +:+ b = String x (a +:+ b).
Proof. reflexivity. Qed.

Lemma append_assoc (a b c : string) : (a +:+ b) +:+ c = a +:+ (b +:+ c).
Proof. induction a as [|x a IH]; [done|]. by rewrite !append_cons, IH. Qed.

Lemma append_nil_r (a : string) : a +:+ "" = a.
Proof. induction a as [|x a IH]; [done|]. by rewrite append_cons, IH. Qed.

Lemma append_nonempty (a b : string) : b ≠ "" → a +:+ b ≠ "".
Proof. by destruct a. Qed.

Lemma TrimSuffix1_cons (x y : ascii) (s : string) (c : ascii) :
  Go.TrimSuffix1 (String x (String y s)) c = String x (Go.TrimSuffix1 (String y s) c).
Proof. reflexivity. Qed.

Lemma TrimSuffix1_append (a b : string) (c : ascii) :
  b ≠ "" → Go.TrimSuffix1 (a +:+ b) c = a +:+ Go.TrimSuffix1 b c.
Proof.
  intros Hb. induction a as [|x a IH]; [done|].
  rewrite !append_cons, <- IH.
  pose proof (append_nonempty a b Hb) as Hne.
  destruct (a +:+ b); [done|]. by rewrite TrimSuffix1_cons.
Qed.

Lemma TrimSuffix1_snoc (a : string) (c : ascii) :
  Go.TrimSuffix1 (a +:+ String c "") c = a.
Proof.
  induction a as [|x a IH].
  - change (Go.TrimSuffix1 (String c "") c = ""). cbn [Go.TrimSuffix1].
    by rewrite bool_decide_eq_true_2.
  - rewrite append_cons. destruct a as [|y a].
    + change (Go.TrimSuffix1 (String x (String c "")) c = String x "").
      cbn [Go.TrimSuffix1]. by rewrite bool_decide_eq_true_2.
    + rewrite append_cons in *. by rewrite TrimSuffix1_cons, IH.
Qed.

End StringFacts.

Ltac statements_of :=
  unfold statements in *; simpl; rewrite ?omap_app; simpl;
  rewrite ?app_nil_r, <- ?app_assoc; simpl.

Ltac find_in_trace :=
  repeat first
    [ solve [apply elem_of_app; right; apply list_elem_of_singleton; reflexivity]
    | apply elem_of_app; left ].

Section MoreSchemaChanges.
Context `{Externals} {B : Type} `{!Backend B}.

(** X1. [CreateSchema] and a failing existence query.  An error other
    than [sql.ErrNoRows] is returned as it is and no CREATE SCHEMA is sent.
    [sql.ErrNoRows] itself (compared with [==], so not when it is wrapped)
    counts as "the schema is not there": CREATE SCHEMA IF NOT EXISTS is
    sent and its answer is what [CreateSchema] returns. *)
Theorem CreateSchema_existence_query_fails
    (sf : Snowflake) (w : world B) (r : row_result bool) (b' : B) (err : error) :
  QueryRowBool (DB sf) (schemaExistsSQL (Namespace sf)) (backend w) = (r, b') →
  row_Scan r = inl err →
  let res := CreateSchema sf w in
  (err ≠ ErrNoRows →
   res.1 = Return (Some err) ∧
   statements (trace res.2) = statements (trace w) ++ [schemaExistsSQL (Namespace sf)]) ∧
  (err = ErrNoRows →
   res.1 = Return (ExecContext (DB sf) (createSchemaSQL (schemaIdentifier sf)) b').1 ∧
   statements (trace res.2) =
     statements (trace w) ++ [schemaExistsSQL (Namespace sf);
                              createSchemaSQL (schemaIdentifier sf)]).
Proof.
  intros Hq Hscan res. subst res.
  unfold CreateSchema, schemaExists, createSchema. unfold_m. simpl.
  rewrite Hq. simpl. rewrite Hscan. split.
  - intros Hne. rewrite decide_False by done. simpl. split; [done|].
    by statements_of.
  - intros ->. rewrite decide_True by done. simpl.
    destruct (ExecContext _ _ b') as [e b2]. simpl. split; [done|].
    by statements_of.
Qed.

(** The loop of [AddColumns]: every column followed by a comma. *)
Lemma addColumns_fold (head : string) (columnsInfo : list ColumnInfo) :
  foldl (λ qb columnInfo,
           qb +:+ " " +:+ Go.quote (Name columnInfo) +:+ " "
              +:+ default "" (dataTypesMap !! Type_ columnInfo) +:+ ",")
        head columnsInfo
  = head +:+ foldr (λ c acc, addColumnsItem c +:+ "," +:+ acc) "" columnsInfo.
Proof.
  revert head. induction columnsInfo as [|c l IH]; intros head.
  - simpl. by rewrite append_nil_r.
  - simpl. rewrite IH. unfold addColumnsItem. by rewrite !append_assoc.
Qed.

Lemma addColumns_items (c : ColumnInfo) (l : list ColumnInfo) :
  foldr (λ c acc, addColumnsItem c +:+ "," +:+ acc) "" (c :: l)
  = Go.Join (map addColumnsItem (c :: l)) "," +:+ ",".
Proof.
  revert c. induction l as [|c' l IH]; intros c.
  - reflexivity.
  - change (addColumnsItem c +:+ "," +:+
              foldr (λ c acc, addColumnsItem c +:+ "," +:+ acc) "" (c' :: l)
            = (addColumnsItem c +:+ "," +:+ Go.Join (map addColumnsItem (c' :: l)) ",")
                +:+ ",").
    rewrite IH. by rewrite !append_assoc.
Qed.

(** X2. The ALTER statement of [AddColumns]: the loop appends a comma
    after every column and the trailing one is trimmed, so the statement
    lists the columns separated by commas and ends in a semicolon; for no
    columns at all it is the bare head followed by the semicolon.  A type
    the driver's table does not know leaves the column without a type. *)
Theorem addColumnsSQL_comma_separated
    (schemaIdentifier tableName : string) (columnsInfo : list ColumnInfo) :
  addColumnsSQL schemaIdentifier tableName columnsInfo =
    addColumnsHead schemaIdentifier tableName
      +:+ Go.Join (map addColumnsItem columnsInfo) "," +:+ ";".
Proof.
  unfold addColumnsSQL, addColumnsHead.
  set (pre := Go.nl +:+ Go.tabs 2 +:+ "ALTER TABLE" +:+ Go.nl +:+ Go.tabs 2 +:+ "  ").
  destruct columnsInfo as [|c l].
  - cbn [foldl map Go.Join].
    replace (Go.nl +:+ Go.tabs 2 +:+ "ALTER TABLE" +:+ Go.nl +:+ Go.tabs 2 +:+ "  "
               +:+ schemaIdentifier +:+ "." +:+ Go.quote tableName +:+ Go.nl
               +:+ Go.tabs 2 +:+ "ADD COLUMN")
      with ((pre +:+ schemaIdentifier +:+ "." +:+ Go.quote tableName +:+ Go.nl
               +:+ Go.tabs 2) +:+ "ADD COLUMN")
      by (subst pre; by rewrite !append_assoc).
    rewrite TrimSuffix1_append by done.
    subst pre. cbn [Go.TrimSuffix1]. by rewrite !append_assoc.
  - rewrite addColumns_fold, addColumns_items.
    rewrite <- !append_assoc.
    change ","%string with (String ","%char "") at 3.
    rewrite TrimSuffix1_snoc. by rewrite !append_assoc.
Qed.

(** X3. Which authentication clause a COPY carries.  With Rudder's own
    object storage the temporary credentials are spelled out whatever
    else is configured; otherwise a configured storage integration, or
    any provider other than AWS, gives the STORAGE_INTEGRATION clause,
    which for such a provider without an integration names nothing. *)
Theorem authString_clause (sf : Snowflake) :
  let integration := GetConfigValue storageIntegration (sf_Warehouse sf) in
  let keys := GetTemporaryS3Cred (sf_Warehouse sf) in
  let credentials :=
    "CREDENTIALS = (AWS_KEY_ID='" +:+ keys.1.1 +:+ "' AWS_SECRET_KEY='" +:+ keys.1.2
      +:+ "' AWS_TOKEN='" +:+ keys.2 +:+ "')" in
  (IsConfiguredToUseRudderObjectStorage (Destination_Config (sf_Warehouse sf)) = true →
   authString sf = credentials) ∧
  (IsConfiguredToUseRudderObjectStorage (Destination_Config (sf_Warehouse sf)) = false →
   (CloudProvider sf ≠ "AWS" ∨ integration ≠ "") →
   authString sf = "STORAGE_INTEGRATION = " +:+ integration) ∧
  (IsConfiguredToUseRudderObjectStorage (Destination_Config (sf_Warehouse sf)) = false →
   CloudProvider sf ≠ "AWS" → integration = "" →
   authString sf = "STORAGE_INTEGRATION = ").
Proof.
  intros integration keys credentials. subst integration keys credentials.
  unfold authString. repeat split.
  - intros ->. simpl. by destruct (GetTemporaryS3Cred _) as [[? ?] ?].
  - intros -> [Hp|Hi]; simpl.
    + by rewrite (bool_decide_eq_false_2 _ Hp).
    + rewrite (bool_decide_eq_false_2 _ Hi). by rewrite andb_false_r.
  - intros -> Hp Hi. simpl. rewrite (bool_decide_eq_false_2 _ Hp). simpl.
    by rewrite Hi.
Qed.

(** X4. The column definitions of a CREATE TABLE.  Whatever order the
    runtime hands out the columns of the map in, [ColumnsWithDataTypes]
    joins by commas one definition per column of the schema, each column
    once and with the warehouse type of its own type; the name goes
    between double quotes as it is, after the prefix. *)
Theorem ColumnsWithDataTypes_every_column (columns : TableSchema) (prefix : string) :
  ∃ items,
    ColumnsWithDataTypes columns prefix = Go.Join items "," ∧
    items ≡ₚ map (λ column, Go.dq +:+ prefix +:+ column.1 +:+ Go.dq +:+ " "
                              +:+ default "" (dataTypesMap !! column.2))
                 (map_to_list columns) ∧
    length items = size columns.
Proof.
  unfold ColumnsWithDataTypes. eexists. split; [reflexivity|].
  assert (map (λ name, Go.dq +:+ prefix +:+ name +:+ Go.dq +:+ " "
                         +:+ default "" (dataTypesMap !! default "" (columns !! name)))
              (rangeKeys columns)
          ≡ₚ map (λ column, Go.dq +:+ prefix +:+ column.1 +:+ Go.dq +:+ " "
                              +:+ default "" (dataTypesMap !! column.2))
                 (map_to_list columns)) as Hperm.
  { rewrite (rangeKeys_keys columns). rewrite <- list_fmap_compose.
    assert (∀ l : list (string * string),
              (∀ column, column ∈ l → columns !! column.1 = Some column.2) →
              map ((λ name, Go.dq +:+ prefix +:+ name +:+ Go.dq +:+ " "
                              +:+ default "" (dataTypesMap !! default "" (columns !! name)))
                     ∘ fst) l
              = map (λ column, Go.dq +:+ prefix +:+ column.1 +:+ Go.dq +:+ " "
                                 +:+ default "" (dataTypesMap !! column.2)) l) as Heq.
    { induction l as [|column l IH]; intros Hall; [done|]. simpl.
      rewrite (Hall column (list_elem_of_here _ _)). simpl. f_equal.
      apply IH. intros c Hc. apply Hall. by apply list_elem_of_further. }
    rewrite Heq; [done|]. intros [name dataType] Hin. simpl.
    by apply elem_of_map_to_list in Hin. }
  split; [exact Hperm|].
  rewrite Hperm, length_map. by rewrite length_map_to_list.
Qed.

End MoreSchemaChanges.

(** ** Further properties: connections and table loads *)

Section MoreTableLoad.
Context `{Externals} {B : Type} `{!Backend B}.

Ltac answer :=
  match goal with
  | |- context [snowflake_DSN ?c] => destruct (snowflake_DSN c) as [?|?] eqn:?
  | |- context [sql_Open ?d ?b] => destruct (sql_Open d b) as [[?|?] ?] eqn:?
  | |- context [ExecContext ?h ?q ?b] => destruct (ExecContext h q b) as [[?|] ?] eqn:?
  | |- context [QueryRowCounts ?h ?q ?b] =>
      destruct (QueryRowCounts h q b) as [[?|?|[? ?]] ?] eqn:?
  | |- context [GetSampleLoadFileLocation ?u ?t] =>
      destruct (GetSampleLoadFileLocation u t) as [?|?] eqn:?
  | |- context [GetSingleLoadFile ?u ?t] =>
      destruct (GetSingleLoadFile u t) as [?|?] eqn:?
  | |- context [dedupSQL ?sf ?t ?k ?p] => destruct (dedupSQL sf t k p) as [?|?] eqn:?
  end; simpl.

Ltac member H :=
  repeat first
    [ apply elem_of_app in H as [H|H]
    | apply elem_of_cons in H as [H|H]
    | apply elem_of_nil in H; destruct H ].

Ltac returned :=
  let Heq := fresh "Heq" in
  intros Heq; try discriminate Heq; inversion Heq; subst; clear Heq.

Local Arguments loadTable_body : simpl never.

Lemma errors_Is_refl (e : error) : errors_Is e e = true.
Proof. destruct e; cbn [errors_Is]; by rewrite bool_decide_eq_true_2. Qed.

Lemma errors_Is_wrapped (msg : string) (cause : error) :
  errors_Is (wrapError msg cause) cause = true.
Proof. cbn [errors_Is]. rewrite errors_Is_refl. apply orb_true_r. Qed.

(** What [connect] does to the trace, by the way it ends. *)
Lemma connect_run (sf : Snowflake) (opts : optionalCreds) (w : world B) :
  match connect sf opts w with
  | (Return (inr db), w') => trace w' = trace w ++ [EOpen db; EExec db alterSessionSQL]
  | (Return (inl err), w') =>
      (∃ msg, err = errorString msg) ∧
      (trace w' = trace w ∨
       ∃ db cause, trace w' = trace w ++ [EOpen db; EExec db alterSessionSQL] ∧
                   err = Errorf_v "SF: snowflake alter session error : " cause)
  | (Panic _, _) => False
  end.
Proof.
  unfold connect. unfold_m. simpl.
  repeat answer; rewrite ?app_nil_r, <- ?app_assoc; eauto 10.
Qed.

(** X5. [connect] ends in one of two ways, never in a panic.  On success
    it has opened one handle and sent the session setup on it, nothing
    else.  On failure the error is a plain message: the cause is formatted
    into it with [%v], so [errors.Is] finds nothing but the error itself;
    nothing was closed, also not the handle of a session setup that was
    refused. *)
Theorem connect_outcomes (sf : Snowflake) (opts : optionalCreds) (w : world B) :
  let res := connect sf opts w in
  match res.1 with
  | Return (inr db) => trace res.2 = trace w ++ [EOpen db; EExec db alterSessionSQL]
  | Return (inl err) =>
      (∀ target, errors_Is err target = true → target = err) ∧
      (∀ h, EClose h ∈ trace res.2 → EClose h ∈ trace w) ∧
      (trace res.2 = trace w ∨
       ∃ db, trace res.2 = trace w ++ [EOpen db; EExec db alterSessionSQL])
  | Panic _ => False
  end.
Proof.
  intros res. subst res. pose proof (connect_run sf opts w) as Hrun.
  destruct (connect sf opts w) as [[[err|db]|msg] w']; simpl; [|done|done].
  destruct Hrun as [[msg ->] Htrace]. split; [|split].
  - intros target. simpl. rewrite orb_false_r. intros Heq.
    by apply bool_decide_eq_true_1 in Heq.
  - intros h He. destruct Htrace as [Htr|(db & cause & Htr & _)];
      rewrite Htr in He; [done|]. member He; done.
  - destruct Htrace as [Htr|(db & cause & Htr & _)]; eauto.
Qed.

(** A table load that succeeds, from the staging table on. *)
Lemma loadTable_body_success (sf : Snowflake) (db : handle) (tableName : string)
    (tableSchemaInUpload : TableSchema) (w w' : world B) (resp : tableLoadResp) :
  loadTable_body sf db tableName tableSchemaInUpload w = (Return (resp, None), w') →
  ∃ csvObjectLocation merge counts,
    GetSampleLoadFileLocation (sf_Uploader sf) tableName = inr csvObjectLocation ∧
    dedupSQL sf tableName (strKeysOf tableSchemaInUpload)
      (ShouldOnDedupUseNewRecord (sf_Uploader sf)) = Return merge ∧
    resp = {| resp_db := Some db;
              stagingTable := StagingTableName provider tableName tableNameLimit |} ∧
    statements (trace w') =
      statements (trace w)
        ++ [createTemporaryTableSQL (schemaIdentifier sf)
              (StagingTableName provider tableName tableNameLimit) tableName;
            loadTableCopySQL sf tableName tableSchemaInUpload csvObjectLocation;
            merge] ∧
    (∃ b, (QueryRowCounts db merge b).1 = RowScan counts) ∧
    EStat "dedup_rows" (dedupTags sf tableName) counts.2 ∈ trace w' ∧
    (∀ h, EOpen h ∈ trace w' → EOpen h ∈ trace w) ∧
    (∀ h, EClose h ∈ trace w' → EClose h ∈ trace w).
Proof.
  unfold loadTable_body. unfold_m. simpl.
  repeat answer; returned.
  match goal with
  | Hq : QueryRowCounts _ _ ?b = (RowScan (?i, ?u), _) |- _ =>
      eexists _, _, (i, u);
      split; [reflexivity|]; split; [reflexivity|]; split; [reflexivity|];
      split; [by statements_of|];
      split; [exists b; by rewrite Hq|];
      split; [simpl; apply elem_of_app; left; apply elem_of_app; right;
              apply list_elem_of_singleton; reflexivity|];
      split; intros h He; simpl in He; member He; done
  end.
Qed.

(** A table load that fails, from the staging table on. *)
Lemma loadTable_body_failure (sf : Snowflake) (db : handle) (tableName : string)
    (tableSchemaInUpload : TableSchema) (w w' : world B) (resp : tableLoadResp)
    (err : error) :
  loadTable_body sf db tableName tableSchemaInUpload w = (Return (resp, Some err), w') →
  resp = noResp ∧
  (∃ prefix cause, prefix ∈ loadTable_stages ∧ err = Errorf_w prefix cause) ∧
  (∀ tags n, EStat "dedup_rows" tags n ∈ trace w' →
             EStat "dedup_rows" tags n ∈ trace w) ∧
  (∀ h, EOpen h ∈ trace w' → EOpen h ∈ trace w).
Proof.
  unfold loadTable_body, loadTable_stages. unfold_m. simpl.
  repeat answer; returned;
    (split; [done|]; split;
      [ eexists _, _; split; [|reflexivity];
        apply (bool_decide_unpack _); vm_compute; exact I
      | split; intros; simpl in *;
        match goal with He : _ ∈ _ |- _ => member He; done end ]).
Qed.

(** The body of a table load opens nothing. *)
Lemma loadTable_body_opens_nothing (sf : Snowflake) (db : handle) (tableName : string)
    (tableSchemaInUpload : TableSchema) (w : world B) (h : handle) :
  EOpen h ∈ trace (loadTable_body sf db tableName tableSchemaInUpload w).2 →
  EOpen h ∈ trace w.
Proof.
  unfold loadTable_body. unfold_m. simpl.
  repeat answer; intros He; member He; done.
Qed.

(** X6. A table load that returns an error returns no connection and no
    staging table with it; the error wraps its cause with [%w] under the
    prefix of the stage that failed, so [errors.Is] finds the cause; and
    no dedup_rows counter has been emitted. *)
Theorem loadTable_failure_wraps_cause
    (sf : Snowflake) (tableName : string) (tableSchemaInUpload : TableSchema)
    (skipClosingDBSession : bool) (w : world B) (resp : tableLoadResp) (err : error) :
  let res := loadTable sf tableName tableSchemaInUpload skipClosingDBSession w in
  res.1 = Return (resp, Some err) →
  resp = {| resp_db := None; stagingTable := "" |} ∧
  (∃ prefix cause,
     prefix ∈ loadTable_stages ∧
     err = wrapError (prefix +:+ Error cause) cause ∧
     errors_Is err cause = true) ∧
  (∀ tags n, EStat "dedup_rows" tags n ∈ trace res.2 →
             EStat "dedup_rows" tags n ∈ trace w).
Proof.
  intros res. subst res. unfold loadTable. unfold_m. simpl.
  pose proof (connect_run sf {| schemaName := Namespace sf |}
                (World (backend w)
                   (trace w ++ [ELog LInfo "started loading"
                                  (loadFields sf ++ [(logfield.TableName, tableName)])])))
    as Hconnect.
  destruct (connect _ _ _) as [[[cerr|db]|msg] w0]; simpl; [| |done].
  - intros [= <- <-]. split; [done|]. split.
    + exists "connect: ", cerr. split; [|split; [done|]].
      * apply (bool_decide_unpack _). vm_compute. exact I.
      * apply errors_Is_wrapped.
    + intros tags n He. destruct Hconnect as [_ [Htr|(db & c & Htr & _)]];
        simpl in Htr; rewrite Htr in He; member He; done.
  - assert (∀ r w1,
      loadTable_body sf db tableName tableSchemaInUpload w0 = (r, w1) →
      r = Return (resp, Some err) →
      resp = noResp ∧
      (∃ prefix cause, prefix ∈ loadTable_stages ∧
         err = wrapError (prefix +:+ Error cause) cause ∧ errors_Is err cause = true) ∧
      (∀ tags n, EStat "dedup_rows" tags n ∈ trace w1 →
                 EStat "dedup_rows" tags n ∈ trace w)) as Hbody.
    { intros r w1 Hrun ->. apply loadTable_body_failure in Hrun
        as (-> & (prefix & cause & Hin & ->) & Hstat & _).
      split; [done|]. split.
      - exists prefix, cause. split; [done|]. split; [done|].
        apply errors_Is_wrapped.
      - intros tags n He. apply Hstat in He. simpl in Hconnect.
        rewrite Hconnect in He. member He; done. }
    destruct skipClosingDBSession; simpl;
      destruct (loadTable_body sf db tableName tableSchemaInUpload w0) as [r w1] eqn:Hrun;
      simpl; intros Hr; destruct (Hbody r w1 eq_refl Hr) as (? & ? & Hstat);
      (split; [done|]); (split; [done|]).
    + done.
    + intros tags n He. member He; [by apply Hstat|done].
Qed.

(** X7. A table load that succeeds has sent four statements, in this
    order: the session setup, the staging table, the bulk copy and the
    dedup merge.  It hands back the connection it opened and the staging
    table's name, and has counted the rows the merge reported as updated
    (the second count of its answer) under dedup_rows.  Unless it was told
    to keep the session, the connection it hands back is already closed. *)
Theorem loadTable_success_statements
    (sf : Snowflake) (tableName : string) (tableSchemaInUpload : TableSchema)
    (skipClosingDBSession : bool) (w : world B) (resp : tableLoadResp) :
  let res := loadTable sf tableName tableSchemaInUpload skipClosingDBSession w in
  res.1 = Return (resp, None) →
  ∃ db csvObjectLocation merge counts,
    resp = {| resp_db := Some db;
              stagingTable := StagingTableName provider tableName tableNameLimit |} ∧
    GetSampleLoadFileLocation (sf_Uploader sf) tableName = inr csvObjectLocation ∧
    dedupSQL sf tableName (strKeysOf tableSchemaInUpload)
      (ShouldOnDedupUseNewRecord (sf_Uploader sf)) = Return merge ∧
    statements (trace res.2) =
      statements (trace w)
        ++ [alterSessionSQL;
            createTemporaryTableSQL (schemaIdentifier sf)
              (StagingTableName provider tableName tableNameLimit) tableName;
            loadTableCopySQL sf tableName tableSchemaInUpload csvObjectLocation;
            merge] ∧
    (∃ b, (QueryRowCounts db merge b).1 = RowScan counts) ∧
    EStat "dedup_rows" (dedupTags sf tableName) counts.2 ∈ trace res.2 ∧
    (skipClosingDBSession = false → last (trace res.2) = Some (EClose db)) ∧
    (skipClosingDBSession = true → EClose db ∈ trace res.2 → EClose db ∈ trace w).
Proof.
  intros res. subst res. unfold loadTable. unfold_m. simpl.
  pose proof (connect_run sf {| schemaName := Namespace sf |}
                (World (backend w)
                   (trace w ++ [ELog LInfo "started loading"
                                  (loadFields sf ++ [(logfield.TableName, tableName)])])))
    as Hconnect.
  destruct (connect _ _ _) as [[[cerr|db]|msg] w0]; simpl; [done| |done].
  simpl in Hconnect.
  destruct skipClosingDBSession; simpl;
    destruct (loadTable_body sf db tableName tableSchemaInUpload w0) as [r w1] eqn:Hrun;
    simpl; intros ->;
    apply loadTable_body_success in Hrun
      as (csv & merge & counts & Hcsv & Hmerge & -> & Hst & Hq & Hstat & _ & Hclose);
    exists db, csv, merge, counts;
    (split; [done|]); (split; [done|]); (split; [done|]).
  - split; [|split; [done|split; [done|split; [done|]]]].
    + rewrite Hst, Hconnect. by statements_of.
    + intros _ He. apply Hclose in He. rewrite Hconnect in He. member He; done.
  - split; [|split; [done|split; [|split; [|done]]]].
    + unfold statements in *. rewrite omap_app, Hst, Hconnect. by statements_of.
    + apply elem_of_app. by left.
    + intros _. apply last_snoc.
Qed.

(** The body of a table load only adds to the trace. *)
Lemma loadTable_body_keeps (sf : Snowflake) (db : handle) (tableName : string)
    (tableSchemaInUpload : TableSchema) (w : world B) (e : event) :
  e ∈ trace w → e ∈ trace (loadTable_body sf db tableName tableSchemaInUpload w).2.
Proof.
  unfold loadTable_body. unfold_m. simpl.
  repeat answer; intros He; repeat (apply elem_of_app; left); done.
Qed.

(** A table load that succeeds hands back the connection it opened. *)
Lemma loadTable_success_resp (sf : Snowflake) (tableName : string)
    (tableSchemaInUpload : TableSchema) (skipClosingDBSession : bool)
    (w w1 : world B) (resp : tableLoadResp) :
  loadTable sf tableName tableSchemaInUpload skipClosingDBSession w
    = (Return (resp, None), w1) →
  ∃ db, resp = {| resp_db := Some db;
                  stagingTable := StagingTableName provider tableName tableNameLimit |} ∧
        EOpen db ∈ trace w1.
Proof.
  unfold loadTable. unfold_m. simpl.
  pose proof (connect_run sf {| schemaName := Namespace sf |}
                (World (backend w)
                   (trace w ++ [ELog LInfo "started loading"
                                  (loadFields sf ++ [(logfield.TableName, tableName)])])))
    as Hconnect.
  destruct (connect _ _ _) as [[[cerr|db]|msg] w0]; simpl; [done| |done].
  simpl in Hconnect.
  assert (EOpen db ∈ trace w0) as Hopen.
  { rewrite Hconnect. apply elem_of_app. right. apply list_elem_of_here. }
  apply (loadTable_body_keeps sf db tableName tableSchemaInUpload) in Hopen.
  destruct skipClosingDBSession; simpl;
    destruct (loadTable_body sf db tableName tableSchemaInUpload w0) as [r w2] eqn:Hrun;
    simpl; intros [= -> <-];
    apply loadTable_body_success in Hrun as (csv & merge & counts & _ & _ & -> & _);
    exists db; (split; [done|]); simpl; [done|].
  apply elem_of_app. by left.
Qed.

(** X8. [LoadTable] closes the connection it opens: whenever a run of it
    opened a handle, the run ends with the close of that handle, also when
    the load fails or panics.  The one exception is [connect] itself, when
    the session setup on the new handle is refused. *)
Theorem LoadTable_closes_its_connection
    (sf : Snowflake) (tableName : string) (w : world B) (h : handle) :
  let res := LoadTable sf tableName w in
  EOpen h ∈ trace res.2 →
  EOpen h ∉ trace w →
  last (trace res.2) = Some (EClose h) ∨
  ∃ cause, res.1 = Return (Some (Errorf_w "connect: "
                                  (Errorf_v "SF: snowflake alter session error : " cause))).
Proof.
  intros res. subst res. unfold LoadTable, loadTable. unfold_m. simpl.
  pose proof (connect_run sf {| schemaName := Namespace sf |}
                (World (backend w)
                   (trace w ++ [ELog LInfo "started loading"
                                  (loadFields sf ++ [(logfield.TableName, tableName)])])))
    as Hconnect.
  destruct (connect _ _ _) as [[[cerr|db]|msg] w0]; simpl; [| |done].
  - destruct Hconnect as [_ [Htr|(db & cause & Htr & ->)]]; simpl in Htr; rewrite Htr.
    + intros He Hnew. member He; done.
    + intros _ _. right. by exists cause.
  - simpl in Hconnect.
    pose proof (loadTable_body_opens_nothing sf db tableName
                  (GetTableSchemaInUpload (sf_Uploader sf) tableName) w0 h) as Hopens.
    destruct (loadTable_body _ _ _ _ _) as [r w1]. simpl in *.
    assert (EOpen h ∈ trace w1 ++ [EClose db] → EOpen h ∉ trace w →
            last (trace w1 ++ [EClose db]) = Some (EClose h)) as Hlast.
    { intros He Hnew. rewrite last_snoc. member He; [|done].
      apply Hopens in He. rewrite Hconnect in He. member He; try done.
      by injection He as ->. }
    destruct r as [[resp err]|msg]; simpl; intros He Hnew; left; by apply Hlast.
Qed.

End MoreTableLoad.

(** ** Further properties: the users table *)

Section MoreUserTables.
Context `{Externals} {B : Type} `{!Backend B}.

Ltac answer :=
  match goal with
  | |- context [ExecContext ?h ?q ?b] => destruct (ExecContext h q b) as [[?|] ?] eqn:?
  | |- context [QueryRowCounts ?h ?q ?b] =>
      destruct (QueryRowCounts h q b) as [[?|?|[? ?]] ?] eqn:?
  end; simpl.

Ltac member H :=
  repeat first
    [ apply elem_of_app in H as [H|H]
    | apply elem_of_cons in H as [H|H]
    | apply elem_of_nil in H; destruct H ].

Local Arguments loadTable : simpl never.
Local Arguments loadTable_body : simpl never.

Lemma userColumn_fold (identifiesSchema : TableSchema) (columns : list string) :
  ∀ userColNames firstValProps identifyColNames,
  foldl (userColumn identifiesSchema)
        (userColNames, firstValProps, identifyColNames) columns
  = (userColNames ++ map Go.quote (userColumnsOf columns),
     firstValProps ++ map firstValPropsQuery (userColumnsOf columns),
     identifyColNames ++
       map (λ colName, match identifiesSchema !! colName with
                       | Some _ => Go.quote colName
                       | None => "NULL as " +:+ Go.quote colName
                       end) (userColumnsOf columns)).
Proof.
  unfold userColumnsOf.
  induction columns as [|c l IH]; intros u f i.
  - simpl. by rewrite !app_nil_r.
  - cbn [foldl]. unfold userColumn at 2.
    destruct (decide (c = "ID")) as [->|Hne].
    + rewrite IH. rewrite filter_cons_False by (intros Hc; by apply Hc). done.
    + rewrite IH. rewrite filter_cons_True by done. simpl.
      by rewrite <- !app_assoc.
Qed.

(** X9. The loop over the users table's columns skips ID and yields, for
    every other column and in the same order, the quoted name for the
    users side, a FIRST_VALUE term, and for the identifies side the quoted
    name when the identifies upload has the column and [NULL as "name"]
    when it has not: the two sides of the UNION select the same number of
    columns. *)
Theorem userColumn_loop_aligned (identifiesSchema : TableSchema) (columns : list string) :
  let '(userColNames, firstValProps, identifyColNames) :=
    foldl (userColumn identifiesSchema) ([], [], []) columns in
  userColNames = map Go.quote (userColumnsOf columns) ∧
  firstValProps = map firstValPropsQuery (userColumnsOf columns) ∧
  identifyColNames =
    map (λ colName, if decide (is_Some (identifiesSchema !! colName))
                    then Go.quote colName
                    else "NULL as " +:+ Go.quote colName) (userColumnsOf columns) ∧
  length identifyColNames = length userColNames ∧
  "ID" ∉ userColumnsOf columns.
Proof.
  rewrite userColumn_fold. simpl. split; [done|]. split; [done|]. split; [|split].
  - apply map_ext. intros c. destruct (identifiesSchema !! c) eqn:Hc.
    + by rewrite decide_True.
    + rewrite decide_False; [done|]. by intros [? ?].
  - by rewrite !length_map.
  - unfold userColumnsOf. intros Hin. by apply list_elem_of_filter in Hin as [Hne _].
Qed.

Lemma loadUserTables_body_returns (sf : Snowflake) (resp : tableLoadResp) (db : handle)
    (identifiesSchema usersSchema : TableSchema) (w : world B) :
  resp_db resp = Some db →
  ∃ m, (loadUserTables_body sf resp identifiesSchema usersSchema w).1 = Return m.
Proof.
  intros Hdb. unfold loadUserTables_body, execResp, queryRowCountsResp. rewrite Hdb.
  destruct (decide (size usersSchema = 0%nat)); [by eexists|].
  destruct (foldl _ _ _) as [[u f] i]. unfold_m. simpl.
  repeat answer; by eexists.
Qed.

(** X10. Once the identifies load has succeeded, [loadUserTables] closes
    the connection that load handed over on every path: it returns a
    result, and its run ends with the close of that connection. *)
Theorem loadUserTables_closes_after_identifies_load
    (sf : Snowflake) (w w1 : world B) (resp : tableLoadResp) :
  loadTable sf identifiesTable
    (GetTableSchemaInUpload (sf_Uploader sf) identifiesTable) true
    (World (backend w)
       (trace w ++ [ELog LInfo "started loading for identifies and users tables"
                      (loadFields sf)]))
  = (Return (resp, None), w1) →
  ∃ db m,
    resp_db resp = Some db ∧
    EOpen db ∈ trace w1 ∧
    (loadUserTables sf w).1 = Return m ∧
    last (trace (loadUserTables sf w).2) = Some (EClose db).
Proof.
  intros Hload. pose proof Hload as Hresp.
  apply loadTable_success_resp in Hresp as (db & -> & Hopen).
  unfold loadUserTables. unfold_m. simpl. rewrite Hload. simpl.
  edestruct (loadUserTables_body_returns sf
               {| resp_db := Some db;
                  stagingTable := StagingTableName provider identifiesTable tableNameLimit |}
               db (GetTableSchemaInUpload (sf_Uploader sf) identifiesTable)
               (GetTableSchemaInUpload (sf_Uploader sf) usersTable) w1 eq_refl)
    as [m Hm].
  destruct (loadUserTables_body _ _ _ _ _) as [r w2]. simpl in Hm. subst r.
  exists db, m. simpl. repeat split; try done. apply last_snoc.
Qed.

(** X11. Without a users schema in the upload [loadUserTables] is the
    identifies load alone: it returns the one entry for the identifies
    table, with no error, and sends no statement of its own. *)
Theorem loadUserTables_without_users_schema
    (sf : Snowflake) (w w1 : world B) (resp : tableLoadResp) :
  size (GetTableSchemaInUpload (sf_Uploader sf) usersTable) = 0%nat →
  loadTable sf identifiesTable
    (GetTableSchemaInUpload (sf_Uploader sf) identifiesTable) true
    (World (backend w)
       (trace w ++ [ELog LInfo "started loading for identifies and users tables"
                      (loadFields sf)]))
  = (Return (resp, None), w1) →
  (loadUserTables sf w).1 = Return {[ identifiesTable := None ]} ∧
  statements (trace (loadUserTables sf w).2) = statements (trace w1).
Proof.
  intros Hsize Hload. pose proof Hload as Hresp.
  apply loadTable_success_resp in Hresp as (db & -> & Hopen).
  unfold loadUserTables. unfold_m. simpl. rewrite Hload. simpl.
  unfold loadUserTables_body. rewrite decide_True by done.
  unfold_m. simpl. split; [done|]. by statements_of.
Qed.

(** X12. The result of [loadUserTables] has an entry for the identifies
    table, and besides it at most one for the users table; the users entry
    is there only when the identifies load succeeded, so a failure of the
    identifies load is reported under its table alone. *)
Theorem loadUserTables_result_entries
    (sf : Snowflake) (w : world B) (m : gmap string (option error)) :
  usersTable ≠ identifiesTable →
  (loadUserTables sf w).1 = Return m →
  is_Some (m !! identifiesTable) ∧
  (∀ tableName, is_Some (m !! tableName) →
                tableName = identifiesTable ∨ tableName = usersTable) ∧
  (is_Some (m !! usersTable) → m !! identifiesTable = Some None).
Proof.
  intros Hne. unfold loadUserTables. unfold_m. simpl.
  destruct (loadTable _ _ _ _ _) as [[[resp [err|]]|msg] w1]; simpl; [| |done].
  - intros [= <-]. split; [by rewrite lookup_singleton_eq|]. split.
    + intros t [x Ht]. apply lookup_singleton_Some in Ht as [<- _]. by left.
    + intros [x Hx]. apply lookup_singleton_Some in Hx as [Heq _]. by destruct Hne.
  - assert (∀ (x : option error),
              let m := <[usersTable := x]> ({[identifiesTable := None]}
                                             : gmap string (option error)) in
              is_Some (m !! identifiesTable) ∧
              (∀ tableName, is_Some (m !! tableName) →
                            tableName = identifiesTable ∨ tableName = usersTable) ∧
              (is_Some (m !! usersTable) → m !! identifiesTable = Some None)) as Hboth.
    { intros x m0. subst m0.
      rewrite lookup_insert_ne by done. rewrite lookup_singleton_eq.
      split; [done|]. split; [|done].
      intros t [y Ht]. destruct (decide (t = usersTable)) as [->|Ht']; [by right|].
      rewrite lookup_insert_ne in Ht by done.
      apply lookup_singleton_Some in Ht as [<- _]. by left. }
    unfold loadUserTables_body, execResp, queryRowCountsResp.
    destruct (decide (size _ = 0%nat)).
    + unfold_m. simpl. intros [= <-].
      split; [by rewrite lookup_singleton_eq|]. split.
      * intros t [x Ht]. apply lookup_singleton_Some in Ht as [<- _]. by left.
      * intros [x Hx]. apply lookup_singleton_Some in Hx as [Heq _]. by destruct Hne.
    + destruct (foldl _ _ _) as [[u f] i].
      destruct (resp_db resp) as [db|]; unfold_m; simpl; [|done].
      repeat answer; intros [= <-]; apply Hboth.
Qed.

(** X13. A users load that reports no error for the users table.  After
    the identifies load it has sent two statements on the connection that
    load handed over: the CREATE of the users staging table, built from
    the columns of the users table in the warehouse other than ID, and the
    MERGE into the users table, whose column list starts with ID.  It has
    counted the rows the merge reported as updated under dedup_rows with
    the users table's name, and it ends with the close of the
    connection. *)
Theorem loadUserTables_success_statements
    (sf : Snowflake) (w w1 : world B) (resp : tableLoadResp)
    (m : gmap string (option error)) :
  usersTable ≠ identifiesTable →
  loadTable sf identifiesTable
    (GetTableSchemaInUpload (sf_Uploader sf) identifiesTable) true
    (World (backend w)
       (trace w ++ [ELog LInfo "started loading for identifies and users tables"
                      (loadFields sf)]))
  = (Return (resp, None), w1) →
  (loadUserTables sf w).1 = Return m →
  m !! usersTable = Some None →
  let columns :=
    userColumnsOf (rangeKeys (GetTableSchemaInWarehouse (sf_Uploader sf) usersTable)) in
  let identifiesSchema := GetTableSchemaInUpload (sf_Uploader sf) identifiesTable in
  let stagingTableName := StagingTableName provider usersTable tableNameLimit in
  let columnNames := Go.quote "ID" :: map Go.quote columns in
  let staging :=
    usersStagingSQL (schemaIdentifier sf) stagingTableName
      (Go.Join (map firstValPropsQuery columns) ",") usersTable (stagingTable resp)
      (Go.Join (map Go.quote columns) ",")
      (Go.Join (map (λ colName, match identifiesSchema !! colName with
                                | Some _ => Go.quote colName
                                | None => "NULL as " +:+ Go.quote colName
                                end) columns) ",") in
  let merge :=
    usersMergeSQL usersTable stagingTableName (Go.Join columnNames ",") (Go.quote "ID")
      (Go.Join (map (λ colName, "original." +:+ colName +:+ " = staging." +:+ colName)
                    columnNames) ",")
      (Go.Join (map (λ colName, "staging." +:+ colName) columnNames) ",")
      (schemaIdentifier sf) in
  ∃ db counts,
    resp_db resp = Some db ∧
    m = <[usersTable := None]> {[ identifiesTable := None ]} ∧
    statements (trace (loadUserTables sf w).2) = statements (trace w1) ++ [staging; merge] ∧
    EExec db staging ∈ trace (loadUserTables sf w).2 ∧
    EQueryRow db merge ∈ trace (loadUserTables sf w).2 ∧
    (∃ b, (QueryRowCounts db merge b).1 = RowScan counts) ∧
    EStat "dedup_rows" (dedupTags sf UsersTable) counts.2 ∈ trace (loadUserTables sf w).2 ∧
    last (trace (loadUserTables sf w).2) = Some (EClose db).
Proof.
  intros Hne Hload. pose proof Hload as Hresp.
  apply loadTable_success_resp in Hresp as (db & -> & Hopen).
  unfold loadUserTables. unfold_m. simpl. rewrite Hload. simpl.
  unfold loadUserTables_body, execResp, queryRowCountsResp. simpl.
  destruct (decide (size _ = 0%nat)) as [Hzero|Hsome]; unfold_m; simpl.
  { intros [= <-] Hm. rewrite lookup_singleton_ne in Hm by done. discriminate Hm. }
  rewrite userColumn_fold. simpl. unfold_m. simpl.
  destruct (ExecContext _ _ _) as [[e|] b1] eqn:Hstaging; simpl.
  { intros [= <-] Hm. rewrite lookup_insert_eq in Hm. discriminate Hm. }
  destruct (QueryRowCounts _ _ _) as [[e|e|[inserted updated]] b2] eqn:Hmerge; simpl.
  { intros [= <-] Hm. rewrite lookup_insert_eq in Hm. discriminate Hm. }
  { intros [= <-] Hm. rewrite lookup_insert_eq in Hm. discriminate Hm. }
  intros [= <-] _. exists db, (inserted, updated).
  split; [done|]. split; [done|]. split; [by statements_of|].
  split; [|split; [|split; [|split]]].
  - find_in_trace.
  - find_in_trace.
  - exists b1. exact (f_equal fst Hmerge).
  - find_in_trace.
  - apply last_snoc.
Qed.

End MoreUserTables.

(** ** Further properties: the identity tables *)

Section MoreIdentity.
Context `{Externals} {B : Type} `{!Backend B}.

Ltac answer :=
  match goal with
  | |- context [snowflake_DSN ?c] => destruct (snowflake_DSN c) as [?|?] eqn:?
  | |- context [sql_Open ?d ?b] => destruct (sql_Open d b) as [[?|?] ?] eqn:?
  | |- context [ExecContext ?h ?q ?b] => destruct (ExecContext h q b) as [[?|] ?] eqn:?
  | |- context [GetSingleLoadFile ?u ?t] =>
      destruct (GetSingleLoadFile u t) as [?|?] eqn:?
  | |- context [ReplaceMultiRegex ?s ?r] =>
      destruct (ReplaceMultiRegex s r) as [?|?] eqn:?
  | |- context [checkAndIgnoreAlreadyExistError ?e] =>
      destruct (checkAndIgnoreAlreadyExistError e) eqn:?
  end; simpl.

Ltac member H :=
  repeat first
    [ apply elem_of_app in H as [H|H]
    | apply elem_of_cons in H as [H|H]
    | apply elem_of_nil in H; destruct H ].

Local Arguments checkAndIgnoreAlreadyExistError : simpl never.

(** X14. The merge rules load writes its bulk copy to the log only after
    [ReplaceMultiRegex]: a log line of it that announces the dedup carries
    the sanitised statement, and there is none when sanitising failed. *)
Theorem LoadIdentityMergeRulesTable_logs_sanitised
    (sf : Snowflake) (w : world B) (lv : level) (msg : string) (fields : kv) :
  ELog lv msg fields ∈ trace (LoadIdentityMergeRulesTable sf w).2 →
  ELog lv msg fields ∉ trace w →
  Go.has_prefix "SF: Dedup records" msg = true →
  ∃ loadFile sanitised,
    GetSingleLoadFile (sf_Uploader sf) identityMergeRulesTable = inr loadFile ∧
    ReplaceMultiRegex
      (identityCopySQL (schemaIdentifier sf +:+ "." +:+ Go.quote identityMergeRulesTable)
         "MERGE_PROPERTY_1_TYPE,MERGE_PROPERTY_1_VALUE,MERGE_PROPERTY_2_TYPE,MERGE_PROPERTY_2_VALUE"
         (GetObjectLocation (ObjectStorage sf) (Location loadFile))
         (authString sf))
      secretsRegex = inr sanitised ∧
    msg = "SF: Dedup records for table:" +:+ identityMergeRulesTable
            +:+ " using staging table: " +:+ sanitised +:+ Go.nl.
Proof.
  unfold LoadIdentityMergeRulesTable, connect. unfold_m. simpl.
  repeat answer; intros He Hnew Hprefix; member He; try done;
    injection He as -> -> ->; try (cbn in Hprefix; discriminate Hprefix);
    (eexists _, _; split; [reflexivity|]; split; [eassumption|reflexivity]).
Qed.

Ltac handles_of :=
  unfold closed, opened in *; simpl; rewrite ?omap_app; simpl;
  rewrite ?app_nil_r, <- ?app_assoc; simpl.

(** X15. The merge rules load runs its bulk copy whether or not the
    statement could be sanitised for the log: once the load file is known
    and the connection is there, what the load returns is the database's
    answer to the COPY; when sanitising failed, nothing is logged between
    the connection and the COPY. *)
Theorem LoadIdentityMergeRulesTable_copy_despite_sanitising
    (sf : Snowflake) (w w1 : world B) (loadFile : LoadFile) (db : handle) :
  GetSingleLoadFile (sf_Uploader sf) identityMergeRulesTable = inr loadFile →
  connect sf {| schemaName := Namespace sf |} (identityLoadStart identityMergeRulesTable w)
    = (Return (inr db), w1) →
  let copy := mergeRulesCopySQL sf loadFile in
  let res := LoadIdentityMergeRulesTable sf w in
  res.1 = Return (ExecContext db copy (backend w1)).1 ∧
  statements (trace res.2) = statements (trace w1) ++ [copy] ∧
  (∀ regexErr, ReplaceMultiRegex copy secretsRegex = inl regexErr →
     ∃ final, trace res.2 = trace w1 ++ [EExec db copy; final]).
Proof.
  intros Hfile Hconnect copy res. subst copy res.
  unfold LoadIdentityMergeRulesTable. unfold_m. simpl.
  rewrite Hfile. unfold identityLoadStart in Hconnect. simpl in Hconnect.
  rewrite Hconnect. simpl. unfold mergeRulesCopySQL.
  destruct (ReplaceMultiRegex _ _) as [regexErr|sanitised] eqn:Hregex; simpl;
    destruct (ExecContext _ _ _) as [[err|] b2]; simpl;
    (split; [done|]); (split; [by statements_of|]);
    intros e [= <-] || (intros e He; discriminate He);
    rewrite <- app_assoc; by eexists.
Qed.

(** X16. Neither identity load closes a connection, so one that returns
    without error has left the connection it opened open. *)
Theorem identity_loads_leave_connection_open (sf : Snowflake) (w : world B) :
  let rules := LoadIdentityMergeRulesTable sf w in
  let mappings := LoadIdentityMappingsTable sf w in
  closed (trace rules.2) = closed (trace w) ∧
  closed (trace mappings.2) = closed (trace w) ∧
  (rules.1 = Return None → ∃ db, opened (trace rules.2) = opened (trace w) ++ [db]) ∧
  (mappings.1 = Return None → ∃ db, opened (trace mappings.2) = opened (trace w) ++ [db]).
Proof.
  intros rules mappings. subst rules mappings. repeat split.
  - unfold LoadIdentityMergeRulesTable, connect. unfold_m. simpl.
    repeat answer; by handles_of.
  - unfold LoadIdentityMappingsTable, connect. unfold_m. simpl.
    repeat answer; by handles_of.
  - unfold LoadIdentityMergeRulesTable, connect. unfold_m. simpl.
    repeat answer; intros Hret; try discriminate Hret; eexists; by handles_of.
  - unfold LoadIdentityMappingsTable, connect. unfold_m. simpl.
    repeat answer; intros Hret; try discriminate Hret; eexists; by handles_of.
Qed.

(** X17. The identity mappings load and an error of the ALTER that adds
    the surrogate key: unless [checkAndIgnoreAlreadyExistError] accepts
    it, the load stops there and returns that error; neither the bulk copy
    nor the merge is sent. *)
Theorem LoadIdentityMappingsTable_stops_on_alter_error
    (sf : Snowflake) (w w1 : world B) (loadFile : LoadFile) (db : handle)
    (b2 b3 : B) (err : error) :
  let stagingTableName := StagingTableName provider identityMappingsTable tableNameLimit in
  let create :=
    mappingsCreateTemporaryTableSQL (schemaIdentifier sf) stagingTableName
      identityMappingsTable in
  let alter := addAutoincrementSQL (schemaIdentifier sf) stagingTableName in
  GetSingleLoadFile (sf_Uploader sf) identityMappingsTable = inr loadFile →
  connect sf {| schemaName := Namespace sf |} (identityLoadStart identityMappingsTable w)
    = (Return (inr db), w1) →
  ExecContext db create (backend w1) = (None, b2) →
  ExecContext db alter b2 = (Some err, b3) →
  checkAndIgnoreAlreadyExistError (Some err) = false →
  let res := LoadIdentityMappingsTable sf w in
  res.1 = Return (Some err) ∧
  backend res.2 = b3 ∧
  statements (trace res.2) = statements (trace w1) ++ [create; alter].
Proof.
  intros stagingTableName create alter Hfile Hconnect Hcreate Halter Hcheck res.
  subst stagingTableName create alter res.
  unfold LoadIdentityMappingsTable. unfold_m. simpl.
  rewrite Hfile. unfold identityLoadStart in Hconnect. simpl in Hconnect.
  rewrite Hconnect. simpl. rewrite Hcreate. simpl. rewrite Halter. simpl.
  rewrite Hcheck. simpl. split; [done|]. split; [done|]. by statements_of.
Qed.

End MoreIdentity.

(** ** Further properties: schema discovery *)

Section MoreSchemaDiscovery.
Context `{Externals} {B : Type} `{!Backend B}.

(** The row loop, as long as rows scan: the maps are those of [fileRow]
    turn by turn, the counters those of [missingCounters], and the loop
    goes on with the rest. *)
Lemma fetchSchema_rows_app (crs : list column_row) (rest : list (error + column_row)) :
  ∀ (s u : Schema) (w : world B),
  fetchSchema_rows (map inr crs ++ rest) s u w
  = fetchSchema_rows rest (foldl fileRow (s, u) crs).1 (foldl fileRow (s, u) crs).2
      (World (backend w) (trace w ++ missingCounters crs)).
Proof.
  induction crs as [|r crs IH]; intros s u w.
  - simpl. rewrite app_nil_r. by destruct w.
  - assert (missingCounters (r :: crs)
            = match calculateDataType (col_type r) (col_scale r) with
              | Some _ => []
              | None => [EStat RudderMissingDatatype [("datatype", col_type r)] 1]
              end ++ missingCounters crs) as ->.
    { unfold missingCounters. simpl.
      by destruct (calculateDataType (col_type r) (col_scale r)). }
    cbn [map app fetchSchema_rows foldl]. unfold fileRow at 2 4.
    destruct (calculateDataType (col_type r) (col_scale r)) as [dt|] eqn:Hdt.
    + by rewrite IH.
    + unfold_m. simpl. rewrite IH. simpl. by rewrite <- app_assoc.
Qed.

Lemma fetchSchema_rows_all (crs : list column_row) (s u : Schema) (w : world B) :
  fetchSchema_rows (map inr crs) s u w
  = (Return (inr (foldl fileRow (s, u) crs)),
     World (backend w) (trace w ++ missingCounters crs)).
Proof.
  rewrite <- (app_nil_r (map inr crs)), fetchSchema_rows_app. simpl.
  by destruct (foldl fileRow (s, u) crs).
Qed.

(** [fileRow] on the columns it is not about. *)
Lemma fileRow_other (acc : Schema * Schema) (r : column_row) (t c : string) :
  column_key r ≠ (t, c) →
  column_of (fileRow acc r).1 t c = column_of acc.1 t c ∧
  column_of (fileRow acc r).2 t c = column_of acc.2 t c.
Proof.
  intros Hkey. destruct acc as [s u]. unfold fileRow. simpl.
  destruct (calculateDataType _ _); simpl.
  - split; [|done]. rewrite column_of_set, column_of_ensure.
    rewrite decide_False; [done|]. intros [-> ->]. by apply Hkey.
  - split; [by rewrite column_of_ensure|]. rewrite column_of_set, column_of_ensure.
    rewrite decide_False; [done|]. intros [-> ->]. by apply Hkey.
Qed.

Lemma fileRows_other (crs : list column_row) (t c : string) :
  ∀ acc, (∀ r, r ∈ crs → column_key r ≠ (t, c)) →
  column_of (foldl fileRow acc crs).1 t c = column_of acc.1 t c ∧
  column_of (foldl fileRow acc crs).2 t c = column_of acc.2 t c.
Proof.
  induction crs as [|r crs IH]; intros acc Hall; [done|].
  cbn [foldl]. destruct (IH (fileRow acc r)) as [H1 H2].
  { intros r' Hr'. apply Hall. by apply list_elem_of_further. }
  destruct (fileRow_other acc r t c) as [H3 H4].
  { apply Hall. apply list_elem_of_here. }
  rewrite H1, H2, H3, H4. done.
Qed.

Lemma fileRows_recognized (crs : list column_row) (r : column_row) (datatype : string) :
  ∀ acc, NoDup (map column_key crs) → r ∈ crs →
  calculateDataType (col_type r) (col_scale r) = Some datatype →
  column_of (foldl fileRow acc crs).1 (col_table r) (col_name r) = Some datatype ∧
  column_of (foldl fileRow acc crs).2 (col_table r) (col_name r)
    = column_of acc.2 (col_table r) (col_name r).
Proof.
  induction crs as [|r0 crs IH]; intros acc Hnodup Hin Hdt.
  - by apply elem_of_nil in Hin.
  - apply NoDup_cons in Hnodup as [Hfresh Hnodup]. cbn [foldl].
    apply elem_of_cons in Hin as [->|Hin].
    + destruct (fileRows_other crs (col_table r0) (col_name r0) (fileRow acc r0))
        as [H1 H2].
      { intros r' Hr' Hkey. apply Hfresh. apply list_elem_of_fmap. by exists r'. }
      rewrite H1, H2. destruct acc as [s u]. unfold fileRow. rewrite Hdt. simpl.
      split; [|done]. rewrite column_of_set. by rewrite decide_True.
    + destruct (IH (fileRow acc r0) Hnodup Hin Hdt) as [H1 H2].
      rewrite H1, H2. split; [done|].
      apply fileRow_other. intros Hkey. apply Hfresh.
      apply list_elem_of_fmap. exists r. by split.
Qed.

(** The tables of the two maps after the rows. *)
Lemma fileRow_tables (acc : Schema * Schema) (r : column_row) (t : string) :
  (is_Some ((fileRow acc r).1 !! t) ↔ is_Some (acc.1 !! t) ∨ col_table r = t) ∧
  (is_Some ((fileRow acc r).2 !! t) ↔
     is_Some (acc.2 !! t) ∨
     (col_table r = t ∧ calculateDataType (col_type r) (col_scale r) = None)).
Proof.
  destruct acc as [s u]. unfold fileRow. simpl.
  destruct (decide (col_table r = t)) as [<-|Hne];
    destruct (calculateDataType _ _) as [dt|] eqn:Hdt; simpl;
    rewrite ?lookup_insert_eq, ?(lookup_insert_ne _ _ _ _ Hne).
  - split; [split; eauto|]. split; [by left|]. by intros [?|[_ [=]]].
  - split; [|split; eauto].
    destruct (s !! col_table r) eqn:Hs; [rewrite Hs|rewrite lookup_insert_eq];
      split; eauto.
  - split.
    + destruct (s !! col_table r); rewrite ?(lookup_insert_ne _ _ _ _ Hne);
        split; [by left|by intros [?|?]|by left|by intros [?|?]].
    + split; [by left|]. by intros [?|[? _]].
  - split.
    + destruct (s !! col_table r); rewrite ?(lookup_insert_ne _ _ _ _ Hne);
        split; [by left|by intros [?|?]|by left|by intros [?|?]].
    + destruct (u !! col_table r); rewrite ?(lookup_insert_ne _ _ _ _ Hne);
        split; [by left|by intros [?|[? _]]|by left|by intros [?|[? _]]].
Qed.

Lemma fileRows_tables (crs : list column_row) (t : string) :
  ∀ acc,
  (is_Some ((foldl fileRow acc crs).1 !! t) ↔
     is_Some (acc.1 !! t) ∨ t ∈ map col_table crs) ∧
  (is_Some ((foldl fileRow acc crs).2 !! t) ↔
     is_Some (acc.2 !! t) ∨
     ∃ r, r ∈ crs ∧ col_table r = t ∧
          calculateDataType (col_type r) (col_scale r) = None).
Proof.
  induction crs as [|r crs IH]; intros acc.
  - simpl. split; split.
    + by left.
    + intros [?|Hin]; [done|]. by apply elem_of_nil in Hin.
    + by left.
    + intros [?|(r & Hin & _)]; [done|]. by apply elem_of_nil in Hin.
  - cbn [foldl]. destruct (IH (fileRow acc r)) as [H1 H2].
    destruct (fileRow_tables acc r t) as [H3 H4].
    rewrite H1, H2, H3, H4. cbn [map]. split; split.
    + intros [[?|<-]|Hin]; [by left| |].
      * right. apply list_elem_of_here.
      * right. by apply list_elem_of_further.
    + intros [?|Hin]; [by left; left|].
      apply elem_of_cons in Hin as [->|Hin]; [by left; right|by right].
    + intros [[?|[? ?]]|(r' & Hin & ? & ?)]; [by left| |].
      * right. exists r. split; [apply list_elem_of_here|done].
      * right. exists r'. split; [by apply list_elem_of_further|done].
    + intros [?|(r' & Hin & ? & ?)]; [by left; left|].
      apply elem_of_cons in Hin as [->|Hin]; [by left; right|].
      right. by exists r'.
Qed.

Lemma fileRow_table_step (acc : Schema * Schema) (r : column_row) (t : string) :
  (col_table r ≠ t → (fileRow acc r).1 !! t = acc.1 !! t) ∧
  (col_table r = t → calculateDataType (col_type r) (col_scale r) = None →
   (fileRow acc r).1 !! t = Some (default ∅ (acc.1 !! t))).
Proof.
  destruct acc as [s u]. unfold fileRow. simpl. split.
  - intros Hne. destruct (calculateDataType _ _); simpl.
    + rewrite lookup_insert_ne by done.
      destruct (s !! col_table r); [done|]. by rewrite lookup_insert_ne.
    + destruct (s !! col_table r); [done|]. by rewrite lookup_insert_ne.
  - intros <- ->. simpl.
    destruct (s !! col_table r) eqn:Hs; [by rewrite Hs|].
    by rewrite lookup_insert_eq.
Qed.

Lemma fileRows_table_untouched (crs : list column_row) (t : string) :
  ∀ acc, t ∉ map col_table crs → (foldl fileRow acc crs).1 !! t = acc.1 !! t.
Proof.
  induction crs as [|r crs IH]; intros acc Hout; [done|].
  cbn [foldl]. cbn [map] in Hout. apply not_elem_of_cons in Hout as [Hne Hout].
  rewrite IH by done. apply fileRow_table_step. congruence.
Qed.

(** A table all of whose rows have an unknown type keeps the columns it
    had in the main map; it is entered empty when it was not there. *)
Lemma fileRows_unknown_only (crs : list column_row) (t : string) :
  ∀ acc,
  (∀ r, r ∈ crs → col_table r = t →
        calculateDataType (col_type r) (col_scale r) = None) →
  t ∈ map col_table crs →
  (foldl fileRow acc crs).1 !! t = Some (default ∅ (acc.1 !! t)).
Proof.
  induction crs as [|r crs IH]; intros acc Hall Hin.
  - by apply elem_of_nil in Hin.
  - cbn [foldl]. destruct (fileRow_table_step acc r t) as [Hother Hsame].
    destruct (decide (t ∈ map col_table crs)) as [Hin'|Hout].
    + rewrite IH; [|intros r' Hr'; apply Hall; by apply list_elem_of_further|done].
      destruct (decide (col_table r = t)) as [Heq|Hne].
      * by rewrite (Hsame Heq (Hall r (list_elem_of_here _ _) Heq)).
      * by rewrite (Hother Hne).
    + rewrite fileRows_table_untouched by done.
      cbn [map] in Hin. apply elem_of_cons in Hin as [Heq|?]; [|done].
      symmetry in Heq. apply (Hsame Heq). apply Hall; [apply list_elem_of_here|done].
Qed.

(** X18. Schema discovery on rows that all scan, keyed by table and
    column: a column whose raw type [calculateDataType] maps is filed in
    the main schema under the mapped type and is not in the unrecognized
    schema. *)
Theorem FetchSchema_recognized_column
    (sf : Snowflake) (w : world B) (b' : B) (rows : Rows) (crs : list column_row)
    (r : column_row) (datatype : string) :
  QueryContext (DB sf) fetchSchemaSQL [Namespace sf] (backend w) = (inr rows, b') →
  rows_scans rows = map inr crs →
  rows_Err rows = None →
  NoDup (map column_key crs) →
  r ∈ crs →
  calculateDataType (col_type r) (col_scale r) = Some datatype →
  ∃ schema unrecognizedSchema w',
    FetchSchema sf w = (Return (inr (schema, unrecognizedSchema)), w') ∧
    column_of schema (col_table r) (col_name r) = Some datatype ∧
    column_of unrecognizedSchema (col_table r) (col_name r) = None.
Proof.
  intros Hq Hscans Herr Hnodup Hin Hdt.
  unfold FetchSchema. unfold_m. simpl. rewrite Hq, Hscans. simpl.
  rewrite fetchSchema_rows_all, Herr.
  destruct (fileRows_recognized crs r datatype (∅, ∅) Hnodup Hin Hdt) as [H1 H2].
  destruct (foldl fileRow (∅, ∅) crs) as [s u]. eexists s, u, _.
  simpl in H1, H2. split; [reflexivity|]. split; [exact H1|].
  rewrite H2. unfold column_of. by rewrite lookup_empty.
Qed.

(** X19. The tables of the two schemas that discovery returns.  Every
    table that has a row is in the main schema, and no other; the
    unrecognized schema has the tables with a column of unknown type.  A
    table all of whose columns are of unknown type is in the main schema
    all the same, without columns. *)
Theorem FetchSchema_tables
    (sf : Snowflake) (w : world B) (b' : B) (rows : Rows) (crs : list column_row) :
  QueryContext (DB sf) fetchSchemaSQL [Namespace sf] (backend w) = (inr rows, b') →
  rows_scans rows = map inr crs →
  rows_Err rows = None →
  ∃ schema unrecognizedSchema w',
    FetchSchema sf w = (Return (inr (schema, unrecognizedSchema)), w') ∧
    (∀ t, is_Some (schema !! t) ↔ t ∈ map col_table crs) ∧
    (∀ t, is_Some (unrecognizedSchema !! t) ↔
          ∃ r, r ∈ crs ∧ col_table r = t ∧
               calculateDataType (col_type r) (col_scale r) = None) ∧
    (∀ t, t ∈ map col_table crs →
          (∀ r, r ∈ crs → col_table r = t →
                calculateDataType (col_type r) (col_scale r) = None) →
          schema !! t = Some ∅).
Proof.
  intros Hq Hscans Herr.
  unfold FetchSchema. unfold_m. simpl. rewrite Hq, Hscans. simpl.
  rewrite fetchSchema_rows_all, Herr.
  pose proof (λ t, fileRows_tables crs t (∅, ∅)) as Htables.
  pose proof (λ t, fileRows_unknown_only crs t (∅, ∅)) as Hunknown.
  destruct (foldl fileRow (∅, ∅) crs) as [s u]. eexists s, u, _.
  split; [reflexivity|]. simpl in *. split; [|split].
  - intros t. destruct (Htables t) as [-> _]. rewrite lookup_empty.
    split; [intros [[? [=]]|?]; done|by right].
  - intros t. destruct (Htables t) as [_ ->]. rewrite lookup_empty.
    split; [intros [[? [=]]|?]; done|by right].
  - intros t Hin Hall. rewrite (Hunknown t Hall Hin). by rewrite lookup_empty.
Qed.

(** X20. Schema discovery when the catalog query itself fails.  An error
    in whose chain [errors.Is] finds [sql.ErrNoRows] is no error: both
    schemas come back empty.  Any other error comes back wrapped under
    "fetching schema: ", and no schema with it. *)
Theorem FetchSchema_query_fails
    (sf : Snowflake) (w : world B) (b' : B) (err : error) :
  QueryContext (DB sf) fetchSchemaSQL [Namespace sf] (backend w) = (inl err, b') →
  (errors_Is err ErrNoRows = true →
   (FetchSchema sf w).1 = Return (inr (∅, ∅))) ∧
  (errors_Is err ErrNoRows = false →
   (FetchSchema sf w).1 = Return (inl (wrapError ("fetching schema: " +:+ Error err) err))) ∧
  statements (trace (FetchSchema sf w).2) = statements (trace w) ++ [fetchSchemaSQL].
Proof.
  intros Hq. unfold FetchSchema. unfold_m. simpl. rewrite Hq. simpl.
  destruct (errors_Is err ErrNoRows); simpl;
    (split; [done|]); (split; [done|]); by statements_of.
Qed.

(** X21. Schema discovery stops at the first row that does not scan: the
    error comes back wrapped under "scanning schema: " and no schema with
    it, the rows after it are not looked at, and the counters of the
    unknown types seen before it have been emitted.  An error that the row
    set reports at its end, after every row scanned, comes back under
    "fetching schema: ". *)
Theorem FetchSchema_row_failures
    (sf : Snowflake) (w : world B) (b' : B) (rows : Rows) (crs : list column_row) :
  QueryContext (DB sf) fetchSchemaSQL [Namespace sf] (backend w) = (inr rows, b') →
  (∀ err rest,
     rows_scans rows = map inr crs ++ inl err :: rest →
     FetchSchema sf w =
       (Return (inl (wrapError ("scanning schema: " +:+ Error err) err)),
        World b' ((trace w ++ [EQuery (DB sf) fetchSchemaSQL [Namespace sf]])
                    ++ missingCounters crs))) ∧
  (∀ err,
     rows_scans rows = map inr crs → rows_Err rows = Some err →
     FetchSchema sf w =
       (Return (inl (wrapError ("fetching schema: " +:+ Error err) err)),
        World b' ((trace w ++ [EQuery (DB sf) fetchSchemaSQL [Namespace sf]])
                    ++ missingCounters crs))).
Proof.
  intros Hq. split.
  - intros err rest Hscans.
    unfold FetchSchema. unfold_m. simpl. rewrite Hq, Hscans. simpl.
    by rewrite fetchSchema_rows_app.
  - intros err Hscans Herr.
    unfold FetchSchema. unfold_m. simpl. rewrite Hq, Hscans. simpl.
    by rewrite fetchSchema_rows_all, Herr.
Qed.

End MoreSchemaDiscovery.

(** ** Further properties: maintenance *)

Ltac unfold_reads :=
  unfold Debugf, queryRowInt, queryStrings, tableExists, columnExists in *.

Section MoreMaintenance.
Context `{Externals} `{Encoding} {B : Type} `{!Backend B} `{!Reads B}.

Ltac answer :=
  match goal with
  | |- context [snowflake_DSN ?c] => destruct (snowflake_DSN c) as [?|?] eqn:?
  | |- context [sql_Open ?d ?b] => destruct (sql_Open d b) as [[?|?] ?] eqn:?
  | |- context [ExecContext ?h ?q ?b] => destruct (ExecContext h q b) as [[?|] ?] eqn:?
  | |- context [QueryRowBool ?h ?q ?b] =>
      destruct (QueryRowBool h q b) as [[?|?|[|]] ?] eqn:?
  | |- context [QueryRowInt ?h ?q ?b] =>
      destruct (QueryRowInt h q b) as [[?|?|?] ?] eqn:?
  | |- context [QueryContext ?h ?q ?a ?b] =>
      destruct (QueryContext h q a b) as [[?|?] ?] eqn:?
  end; simpl.

Ltac member H :=
  repeat first
    [ apply elem_of_app in H as [H|H]
    | apply elem_of_cons in H as [H|H]
    | apply elem_of_nil in H; destruct H ].

Local Arguments checkAndIgnoreAlreadyExistError : simpl never.

Lemma only_on_handle_refl (h : handle) (w : world B) : only_on_handle h w w.
Proof. exists []. by rewrite app_nil_r. Qed.

Lemma only_on_handle_trans (h : handle) (w1 w2 w3 : world B) :
  only_on_handle h w1 w2 → only_on_handle h w2 w3 → only_on_handle h w1 w3.
Proof.
  intros (e1 & H1 & F1) (e2 & H2 & F2). exists (e1 ++ e2).
  rewrite H2, H1, app_assoc. split; [done|]. by apply Forall_app.
Qed.

Lemma only_on_handle_step (h : handle) (w : world B) (b : B) (evs : list event) :
  Forall (on_handle h) evs →
  only_on_handle h w (World b (trace w ++ evs)).
Proof. intros Hall. by exists evs. Qed.

Ltac on_handle_now :=
  rewrite <- ?app_assoc; apply only_on_handle_step; repeat constructor.

(** X22. With delete-by-job switched off [DeleteBy] is a dry run: for
    every table it logs the DELETE it would run, sends nothing to the
    database and returns nil. *)
Theorem DeleteBy_disabled_sends_nothing
    (sf : Snowflake) (config : config) (tableNames : list string)
    (params : DeleteByParams) (w : world B) :
  enableDeleteByJobs config = false →
  let res := DeleteBy sf config tableNames params w in
  res.1 = Return None ∧
  backend res.2 = backend w ∧
  statements (trace res.2) = statements (trace w) ∧
  (∀ tb, tb ∈ tableNames →
     ELog LDebug ("SF: Executing the sql statement "
                    +:+ deleteBySQL (Namespace sf) tb params) [] ∈ trace res.2).
Proof.
  intros Hoff. revert w. induction tableNames as [|tb rest IH]; intros w.
  - simpl. repeat split; try done. intros tb Hin. by apply elem_of_nil in Hin.
  - cbn [DeleteBy]. unfold_m. unfold_reads. unfold_m. simpl. rewrite Hoff.
    set (w1 := World _ _).
    destruct (IH w1) as (Hret & Hb & Hst & Hlog). cbv zeta.
    split; [exact Hret|]. split; [by rewrite Hb|]. split.
    + rewrite Hst. subst w1. by statements_of.
    + intros tb' Hin. apply elem_of_cons in Hin as [->|Hin]; [|by apply Hlog].
      assert (∀ ev, ev ∈ trace w1 →
                    ev ∈ trace (DeleteBy sf config rest params w1).2) as Hkeep.
      { clear. generalize w1. clear w1.
        induction rest as [|tb0 rest IH]; intros w1 ev Hev; [done|].
        cbn [DeleteBy]. unfold_m. unfold_reads. unfold_m. simpl.
        destruct (enableDeleteByJobs config).
        - destruct (ExecContext _ _ _) as [[err|] b1]; simpl.
          + repeat (apply elem_of_app; left). done.
          + apply IH. simpl. repeat (apply elem_of_app; left). done.
        - apply IH. simpl. repeat (apply elem_of_app; left). done. }
      apply Hkeep. subst w1. simpl. apply elem_of_app. right.
      apply list_elem_of_here.
Qed.

(** X23. With delete-by-job switched on [DeleteBy] sends one DELETE per
    table, in the order of the list, and stops at the first one the
    database refuses; it returns that error, or nil when every table was
    done. *)
Theorem DeleteBy_stops_at_first_error
    (sf : Snowflake) (config : config) (tableNames : list string)
    (params : DeleteByParams) (w : world B) :
  enableDeleteByJobs config = true →
  let res := DeleteBy sf config tableNames params w in
  ∃ n, (n ≤ length tableNames)%nat ∧
    statements (trace res.2) =
      statements (trace w)
        ++ map (λ tb, deleteBySQL (Namespace sf) tb params) (take n tableNames) ∧
    match res.1 with
    | Return None => n = length tableNames
    | Return (Some err) =>
        ∃ tb b, tableNames !! (n - 1)%nat = Some tb ∧ (0 < n)%nat ∧
                (ExecContext (DB sf) (deleteBySQL (Namespace sf) tb params) b).1
                = Some err
    | Panic _ => False
    end.
Proof.
  intros Hon. revert w. induction tableNames as [|tb rest IH]; intros w.
  - exists 0%nat. simpl. split; [done|]. split; [by rewrite app_nil_r|done].
  - cbn [DeleteBy]. unfold_m. unfold_reads. unfold_m. simpl. rewrite Hon.
    destruct (ExecContext _ _ _) as [[err|] b1] eqn:Hexec; simpl.
    + exists 1%nat. simpl. split; [lia|]. split; [by statements_of|].
      exists tb, (backend w). simpl in Hexec. rewrite Hexec.
      split; [done|]. split; [lia|done].
    + set (w1 := World _ _).
      destruct (IH w1) as (n & Hn & Hst & Hres). cbv zeta in *.
      exists (S n). split; [simpl; lia|]. split.
      * rewrite Hst. subst w1. by statements_of.
      * destruct (DeleteBy sf config rest params w1).1 as [[err|]|msg]; [|by subst|done].
        destruct Hres as (tb' & b & Hlook & Hpos & Hanswer).
        exists tb', b. split; [|split; [lia|done]].
        destruct n; [lia|]. simpl in *. by rewrite Nat.sub_0_r in Hlook.
Qed.

Lemma DeleteBy_on_handle (sf : Snowflake) (config : config) (tableNames : list string)
    (params : DeleteByParams) :
  ∀ w : world B, only_on_handle (DB sf) w (DeleteBy sf config tableNames params w).2.
Proof.
  induction tableNames as [|tb rest IH]; intros w; [apply only_on_handle_refl|].
  cbn [DeleteBy]. unfold_m. unfold_reads. unfold_m. simpl.
  destruct (enableDeleteByJobs config).
  - destruct (ExecContext _ _ _) as [[err|] b1]; simpl.
    + on_handle_now.
    + eapply only_on_handle_trans; [|apply IH]. on_handle_now.
  - eapply only_on_handle_trans; [|apply IH]. destruct w. on_handle_now.
Qed.

Lemma fetchSchema_rows_on_handle (h : handle) (scans : list (error + column_row)) :
  ∀ (s u : Schema) (w : world B),
  only_on_handle h w (fetchSchema_rows scans s u w).2.
Proof.
  induction scans as [|[err|row] rest IH]; intros s u w;
    [apply only_on_handle_refl|apply only_on_handle_refl|].
  cbn [fetchSchema_rows]. destruct (calculateDataType _ _); [apply IH|].
  unfold_m. simpl. eapply only_on_handle_trans; [|apply IH]. on_handle_now.
Qed.

(** X24. The schema and maintenance calls run on the driver's own
    connection: they open no connection and close none, and every
    statement they send goes to [sf.DB]. *)
Theorem schema_calls_use_the_drivers_connection (sf : Snowflake) (w : world B) :
  only_on_handle (DB sf) w (CreateSchema sf w).2 ∧
  only_on_handle (DB sf) w (FetchSchema sf w).2 ∧
  (∀ tableName columnMap,
     only_on_handle (DB sf) w (CreateTable sf tableName columnMap w).2) ∧
  (∀ tableName columnsInfo,
     only_on_handle (DB sf) w (AddColumns sf tableName columnsInfo w).2) ∧
  (∀ tableName, only_on_handle (DB sf) w (DropTable sf tableName w).2) ∧
  (∀ tableName, only_on_handle (DB sf) w (GetTotalCountInTable sf tableName w).2) ∧
  (∀ location tableName,
     only_on_handle (DB sf) w (LoadTestTable sf location tableName w).2) ∧
  (∀ config tableNames params,
     only_on_handle (DB sf) w (DeleteBy sf config tableNames params w).2).
Proof.
  repeat split.
  - unfold CreateSchema, schemaExists, createSchema. unfold_m. simpl.
    destruct (QueryRowBool _ _ _) as [[e|e|[|]] b1]; simpl;
      try destruct (decide (e = ErrNoRows)); simpl;
      try destruct (ExecContext _ _ _) as [err b2]; on_handle_now.
  - unfold FetchSchema. unfold_m. simpl.
    destruct (QueryContext _ _ _ _) as [[e|rows] b1]; simpl.
    + destruct (errors_Is e ErrNoRows); on_handle_now.
    + set (w1 := World _ _).
      pose proof (fetchSchema_rows_on_handle (DB sf) (rows_scans rows) ∅ ∅ w1) as Hrows.
      assert (only_on_handle (DB sf) w w1) as Hfirst by (subst w1; on_handle_now).
      destruct (fetchSchema_rows _ _ _ _) as [[[e|res]|msg] w2]; simpl in *;
        try destruct (rows_Err rows); by eapply only_on_handle_trans.
  - intros tableName columnMap. unfold CreateTable, createTable. unfold_m. simpl.
    destruct (ExecContext _ _ _) as [err b1]. on_handle_now.
  - intros tableName columnsInfo. unfold AddColumns. unfold_m. simpl.
    destruct (ExecContext _ _ _) as [[err|] b1]; simpl;
      destruct columnsInfo as [|c [|c' l]];
      try destruct (checkAndIgnoreAlreadyExistError _); simpl; on_handle_now.
  - intros tableName. unfold DropTable. unfold_m. simpl.
    destruct (ExecContext _ _ _) as [err b1]. on_handle_now.
  - intros tableName. unfold GetTotalCountInTable. unfold_reads. unfold_m. simpl.
    destruct (QueryRowInt _ _ _) as [[e|e|n] b1]; on_handle_now.
  - intros location tableName. unfold LoadTestTable. unfold_m. simpl.
    destruct (ExecContext _ _ _) as [err b1]. on_handle_now.
  - intros config tableNames params. apply DeleteBy_on_handle.
Qed.

(** The loop of [IsEmpty]: it returns, it only queries the connection it
    was given, and it says "not empty" only on a positive count. *)
Lemma isEmpty_tables_run (sf : Snowflake) (tables : list string) :
  ∀ w : world B,
  only_on_handle (DB sf) w (isEmpty_tables sf tables w).2 ∧
  ∃ empty err,
    (isEmpty_tables sf tables w).1 = Return (empty, err) ∧
    (err ≠ None → empty = true) ∧
    (empty = false →
     ∃ tableName b n,
       tableName ∈ tables ∧
       (QueryRowInt (DB sf) (countSQL (schemaIdentifier sf) tableName) b).1 = RowScan n ∧
       (0 < n)%Z).
Proof.
  induction tables as [|t rest IH]; intros w.
  - split; [apply only_on_handle_refl|]. exists true, None. by repeat split.
  - cbn [isEmpty_tables]. unfold_reads. unfold_m. simpl.
    destruct (QueryRowBool _ _ _) as [[e|e|[|]] b1] eqn:Hexists; simpl.
    + split; [on_handle_now|]. exists true, (Some e). by repeat split.
    + split; [on_handle_now|]. exists true, (Some e). by repeat split.
    + destruct (QueryRowInt _ _ b1) as [[e|e|n] b2] eqn:Hcount; simpl.
      * split; [on_handle_now|]. exists true, (Some e). by repeat split.
      * split; [on_handle_now|]. exists true, (Some e). by repeat split.
      * destruct (0 <? n)%Z eqn:Hpos.
        -- split; [on_handle_now|]. exists false, None.
           split; [done|]. split; [done|]. intros _.
           exists t, b1, n. split; [apply list_elem_of_here|].
           split; [by rewrite Hcount|]. by apply Z.ltb_lt.
        -- set (w1 := World _ _). destruct (IH w1) as (Hon & empty & err & Hret & He & Hf).
           split.
           ++ eapply only_on_handle_trans; [|exact Hon]. subst w1. on_handle_now.
           ++ exists empty, err. split; [done|]. split; [done|].
              intros Hfalse. destruct (Hf Hfalse) as (t' & b & n' & Hin & Hq & Hn).
              exists t', b, n'. split; [by apply list_elem_of_further|done].
    + set (w1 := World _ _). destruct (IH w1) as (Hon & empty & err & Hret & He & Hf).
      split.
      * eapply only_on_handle_trans; [|exact Hon]. subst w1. on_handle_now.
      * exists empty, err. split; [done|]. split; [done|].
        intros Hfalse. destruct (Hf Hfalse) as (t' & b & n' & Hin & Hq & Hn).
        exists t', b, n'. split; [by apply list_elem_of_further|done].
Qed.

Local Arguments isEmpty_tables : simpl never.

(** X25. [IsEmpty] works on a connection of its own and closes it on
    every path: once [connect] has given it a handle, it returns a result,
    all it sends goes to that handle, and its run ends with the close of
    that handle. *)
Theorem IsEmpty_closes_its_connection
    (sf : Snowflake) (warehouse : Warehouse) (w w1 : world B) (db : handle) :
  connect (withWarehouse sf warehouse) {| schemaName := "" |} w = (Return (inr db), w1) →
  let res := IsEmpty sf warehouse w in
  (∃ empty err, res.1 = Return (empty, err)) ∧
  (∃ evs, trace res.2 = trace w1 ++ evs ++ [EClose db] ∧ Forall (on_handle db) evs) ∧
  last (trace res.2) = Some (EClose db).
Proof.
  intros Hconnect res. subst res. unfold IsEmpty. unfold_m. simpl.
  rewrite Hconnect. simpl.
  destruct (isEmpty_tables_run (withDB (withWarehouse sf warehouse) db) identityTables w1)
    as ((evs & Htrace & Hall) & empty & err & Hret & _).
  destruct (isEmpty_tables _ _ _) as [r w2]. simpl in *. subst r.
  split; [by eexists _, _|]. split; [|apply last_snoc].
  exists evs. rewrite Htrace. by rewrite <- app_assoc.
Qed.

(** X26. What [IsEmpty] answers.  It never panics.  "Not empty" comes
    only without an error, and only after the COUNT of one of the five
    identity tables, in the namespace of the warehouse it was given, came
    back positive; with an error it always comes with "empty". *)
Theorem IsEmpty_answers (sf : Snowflake) (warehouse : Warehouse) (w : world B) :
  match (IsEmpty sf warehouse w).1 with
  | Return (false, err) =>
      err = None ∧
      ∃ db tableName b n,
        tableName ∈ identityTables ∧
        (QueryRowInt db (countSQL (Go.quote (Warehouse_Namespace warehouse)) tableName) b).1
          = RowScan n ∧
        (0 < n)%Z
  | Return (true, _) => True
  | Panic _ => False
  end.
Proof.
  unfold IsEmpty. unfold_m. simpl.
  destruct (connect _ _ _) as [[[cerr|db]|msg] w1] eqn:Hconnect; simpl; [done| |].
  - destruct (isEmpty_tables_run (withDB (withWarehouse sf warehouse) db)
                identityTables w1) as (_ & empty & err & Hret & Herr & Hfalse).
    destruct (isEmpty_tables _ _ _) as [r w2]. simpl in *. subst r.
    destruct empty; [done|]. split.
    + destruct err; [|done]. by discriminate Herr.
    + destruct (Hfalse eq_refl) as (t & b & n & Hin & Hq & Hn). by exists db, t, b, n.
  - pose proof (connect_run (withWarehouse sf warehouse) {| schemaName := "" |} w) as Hrun.
    by rewrite Hconnect in Hrun.
Qed.

End MoreMaintenance.

(** ** Further properties: identity rules *)

Section MoreIdentityRules.
Context `{Externals} `{Encoding} {B : Type} `{!Backend B} `{!Reads B}.

Lemma csvRowOf_cases (anonymousID userID : option string) :
  match csvRowOf anonymousID userID with
  | None => anonymousID = None ∧ userID = None
  | Some row =>
      (∃ value, anonymousID = Some value ∧
                row = ["anonymous_id"; value; "user_id"; default "" userID]) ∨
      (∃ value, anonymousID = None ∧ userID = Some value ∧
                row = ["user_id"; value; "anonymous_id"; ""])
  end.
Proof.
  destruct anonymousID as [a|], userID as [u|]; cbn; eauto.
Qed.

(** X27. The rows that [DownloadIdentityRules] writes for one batch.
    What it hands to the gzip writer is added after what was there, one
    CSV record per scanned row, except that a row with both ids NULL is
    skipped.  A record has the anonymous id first when there is one, else
    the user id first and an empty anonymous id last: the value in second
    place is never that of a NULL column.  An error of the loop is the
    error of a scan. *)
Theorem writeRows_first_property_not_null
    (scans : list (error + option string * option string)) (gz : list string) :
  ∃ rows,
    (writeRows scans gz).1 = gz ++ map csv_record rows ∧
    Forall (λ row, ∃ value other,
              (row = ["anonymous_id"; value; "user_id"; default "" other] ∧
               inr (Some value, other) ∈ scans) ∨
              (row = ["user_id"; value; "anonymous_id"; ""] ∧
               inr (None, Some value) ∈ scans)) rows ∧
    (length rows ≤ length (filter (λ s, s ≠ inr (None, None)) scans))%nat ∧
    (∀ err, (writeRows scans gz).2 = Some err → inl err ∈ scans).
Proof.
  revert gz. induction scans as [|[err|[a u]] rest IH]; intros gz.
  - exists []. simpl. rewrite app_nil_r.
    split; [done|]. split; [constructor|]. split; [lia|done].
  - exists []. simpl. rewrite app_nil_r.
    split; [done|]. split; [constructor|]. split; [lia|].
    intros e [= <-]. apply list_elem_of_here.
  - cbn [writeRows]. pose proof (csvRowOf_cases a u) as Hrow.
    destruct (csvRowOf a u) as [row|].
    + destruct (IH (gz ++ [csv_record row])) as (rows & Hgz & Hall & Hlen & Herr).
      exists (row :: rows). split; [|split; [|split]].
      * rewrite Hgz. simpl. by rewrite <- app_assoc.
      * constructor.
        -- destruct Hrow as [(v & -> & ->)|(v & -> & -> & ->)].
           ++ exists v, u. left. split; [done|]. apply list_elem_of_here.
           ++ exists v, None. right. split; [done|]. apply list_elem_of_here.
        -- eapply Forall_impl; [exact Hall|]. simpl.
           intros r (v & o & [[-> Hin]|[-> Hin]]); exists v, o; [left|right];
             (split; [done|]); by apply list_elem_of_further.
      * rewrite filter_cons_True; [simpl; lia|].
        destruct Hrow as [(v & -> & _)|(v & _ & -> & _)]; congruence.
      * intros e He. apply list_elem_of_further. by apply Herr.
    + destruct Hrow as [-> ->].
      destruct (IH gz) as (rows & Hgz & Hall & Hlen & Herr).
      exists rows. split; [done|]. split; [|split].
      * eapply Forall_impl; [exact Hall|]. simpl.
        intros r (v & o & [[-> Hin]|[-> Hin]]); exists v, o; [left|right];
          (split; [done|]); by apply list_elem_of_further.
      * rewrite filter_cons_False; [done|]. by intros Hne.
      * intros e He. apply list_elem_of_further. by apply Herr.
Qed.

Ltac on_handle_now :=
  rewrite <- ?app_assoc; apply only_on_handle_step; repeat constructor.

Lemma writeRows_appends (scans : list (error + option string * option string)) :
  ∀ gz, ∃ more, (writeRows scans gz).1 = gz ++ more.
Proof.
  induction scans as [|[err|[a u]] rest IH]; intros gz.
  - exists []. simpl. by rewrite app_nil_r.
  - exists []. simpl. by rewrite app_nil_r.
  - cbn [writeRows]. destruct (csvRowOf a u) as [row|]; [|apply IH].
    destruct (IH (gz ++ [csv_record row])) as [more ->].
    eexists. by rewrite <- app_assoc.
Qed.

Lemma int64_small (z : Z) : (- 2 ^ 63 ≤ z < 2 ^ 63)%Z → int64 z = z.
Proof. intros Hz. unfold int64. rewrite Z.mod_small; lia. Qed.

Lemma pagesOf_break (totalRows : Z) (k : nat) :
  (totalRows ≤ Z.of_nat (S k) * batchSize)%Z ↔ (pagesOf totalRows ≤ S k)%nat.
Proof.
  unfold pagesOf, batchSize.
  pose proof (Z.div_mod (totalRows + 10000 - 1) 10000 ltac:(lia)) as Hdiv.
  pose proof (Z.mod_pos_bound (totalRows + 10000 - 1) 10000 ltac:(lia)) as Hmod.
  lia.
Qed.

Lemma pagesOf_positive (totalRows : Z) : (1 ≤ pagesOf totalRows)%nat.
Proof. unfold pagesOf. lia. Qed.

Lemma pagesOf_fuel (totalRows : Z) :
  (pagesOf totalRows ≤ S (Z.to_nat (totalRows / batchSize)))%nat.
Proof.
  unfold pagesOf, batchSize.
  pose proof (Z.div_mod (totalRows + 10000 - 1) 10000 ltac:(lia)) as Hdiv.
  pose proof (Z.mod_pos_bound (totalRows + 10000 - 1) 10000 ltac:(lia)) as Hmod.
  pose proof (Z.div_mod totalRows 10000 ltac:(lia)) as Hdiv'.
  pose proof (Z.mod_pos_bound totalRows 10000 ltac:(lia)) as Hmod'.
  lia.
Qed.

Lemma pagesOf_bound (totalRows : Z) (k : nat) :
  (totalRows ≤ maxTotalRows)%Z → (k < pagesOf totalRows)%nat →
  (0 ≤ Z.of_nat k * batchSize + batchSize < 2 ^ 63)%Z.
Proof.
  unfold pagesOf, maxTotalRows, batchSize.
  pose proof (Z.div_mod (totalRows + 10000 - 1) 10000 ltac:(lia)) as Hdiv.
  pose proof (Z.mod_pos_bound (totalRows + 10000 - 1) 10000 ltac:(lia)) as Hmod.
  lia.
Qed.

(** The batch loop from the [k]-th batch on, with turns enough for the
    batches that are left. *)
Lemma downloadBatches_from (sf : Snowflake) (tableName toSelectFields : string)
    (totalRows : Z) :
  (totalRows ≤ maxTotalRows)%Z →
  ∀ (fuel k : nat) (gz : list string) (w : world B),
  (k < pagesOf totalRows)%nat → (pagesOf totalRows - k ≤ fuel)%nat →
  ∃ n more err,
    (1 ≤ n)%nat ∧ (k + n ≤ pagesOf totalRows)%nat ∧
    (downloadBatches fuel sf tableName toSelectFields totalRows
       (Z.of_nat k * batchSize) gz w).1 = Return (Some (gz ++ more, err)) ∧
    statements (trace (downloadBatches fuel sf tableName toSelectFields totalRows
                         (Z.of_nat k * batchSize) gz w).2)
      = statements (trace w)
          ++ map (λ i, downloadSQL toSelectFields (schemaIdentifier sf) tableName
                         (Z.of_nat i * batchSize)) (seq k n) ∧
    (err = None → (k + n)%nat = pagesOf totalRows) ∧
    only_on_handle (DB sf) w
      (downloadBatches fuel sf tableName toSelectFields totalRows
         (Z.of_nat k * batchSize) gz w).2.
Proof.
  intros Hmax. induction fuel as [|fuel IH]; intros k gz w Hk Hfuel; [lia|].
  cbn [downloadBatches]. unfold_reads. unfold_m. simpl.
  destruct (QueryStrings _ _ _) as [[e|rows] b1]; simpl.
  { exists 1%nat, [], (Some e). rewrite app_nil_r.
    split; [lia|]. split; [lia|]. split; [done|]. split; [by statements_of|].
    split; [done|]. on_handle_now. }
  destruct (writeRows_appends (strings_scans rows) gz) as [more1 Hmore].
  destruct (writeRows (strings_scans rows) gz) as [gz1 werr]. simpl in Hmore. subst gz1.
  destruct werr as [e|]; simpl.
  { exists 1%nat, more1, (Some e).
    split; [lia|]. split; [lia|]. split; [done|]. split; [by statements_of|].
    split; [done|]. on_handle_now. }
  destruct (strings_Err rows) as [e|]; simpl.
  { exists 1%nat, more1, (Some e).
    split; [lia|]. split; [lia|]. split; [done|]. split; [by statements_of|].
    split; [done|]. on_handle_now. }
  rewrite int64_small by (pose proof (pagesOf_bound totalRows k Hmax Hk); lia).
  replace (Z.of_nat k * batchSize + batchSize)%Z with (Z.of_nat (S k) * batchSize)%Z
    by lia.
  destruct (totalRows <=? Z.of_nat (S k) * batchSize)%Z eqn:Hbreak; simpl.
  { apply Z.leb_le, pagesOf_break in Hbreak.
    exists 1%nat, more1, None.
    split; [lia|]. split; [lia|]. split; [done|]. split; [by statements_of|].
    split; [lia|]. on_handle_now. }
  apply Z.leb_gt in Hbreak.
  assert (S k < pagesOf totalRows)%nat as Hk'.
  { destruct (decide (pagesOf totalRows ≤ S k)%nat) as [Hle|?]; [|lia].
    apply pagesOf_break in Hle. lia. }
  set (w1 := World _ _).
  destruct (IH (S k) (gz ++ more1) w1 Hk' ltac:(lia))
    as (n & more & err & Hn & Hkn & Hret & Hst & Hnone & Hon).
  exists (S n), (more1 ++ more), err.
  split; [lia|]. split; [lia|]. split; [by rewrite Hret, app_assoc|]. split; [|split].
  - rewrite Hst. subst w1. by statements_of.
  - intros Herr. specialize (Hnone Herr). lia.
  - eapply only_on_handle_trans; [|exact Hon]. subst w1. on_handle_now.
Qed.

(** X28. The batch loop of [DownloadIdentityRules] for a table of
    [totalRows] rows, when [totalRows] is far enough from the largest
    [int64] for the offsets not to wrap around.  The loop ends within the
    turns that [totalRows] rows need.  It asks for the batches in order,
    10000 rows each, at offsets 0, 10000, 20000 and so on; it asks for the
    first one also when the table has no rows; it stops at the first batch
    that fails, and when none fails it has asked for every batch up to
    [totalRows]. *)
Theorem downloadBatches_pages
    (sf : Snowflake) (tableName toSelectFields : string) (totalRows : Z)
    (gz : list string) (w : world B) :
  (totalRows ≤ maxTotalRows)%Z →
  let res :=
    downloadBatches (S (Z.to_nat (totalRows / batchSize))) sf tableName toSelectFields
      totalRows 0 gz w in
  ∃ n more err,
    (1 ≤ n ≤ length (batchOffsets totalRows))%nat ∧
    res.1 = Return (Some (gz ++ more, err)) ∧
    statements (trace res.2)
      = statements (trace w)
          ++ map (downloadSQL toSelectFields (schemaIdentifier sf) tableName)
                 (take n (batchOffsets totalRows)) ∧
    (err = None → n = length (batchOffsets totalRows)).
Proof.
  intros Hmax res. subst res.
  destruct (downloadBatches_from sf tableName toSelectFields totalRows Hmax
              (S (Z.to_nat (totalRows / batchSize))) 0 gz w)
    as (n & more & err & Hn & Hkn & Hret & Hst & Hnone & _).
  { pose proof (pagesOf_positive totalRows). lia. }
  { pose proof (pagesOf_fuel totalRows). lia. }
  change (Z.of_nat 0 * batchSize)%Z with 0%Z in *.
  exists n, more, err. unfold batchOffsets. rewrite length_map, length_seq.
  split; [lia|]. split; [done|]. split; [|intros Herr; specialize (Hnone Herr); lia].
  rewrite Hst. f_equal. rewrite <- fmap_take, take_seq.
  rewrite Nat.min_l by lia. by rewrite <- list_fmap_compose.
Qed.

Section Invariant.
Variable I : B → Prop.
Hypothesis I_QueryRowBool : ∀ h q b, I b → I (QueryRowBool h q b).2.
Hypothesis I_QueryStrings : ∀ h q b, I b → I (QueryStrings h q b).2.
Hypothesis I_QueryRowInt :
  ∀ h q b, I b →
    I (QueryRowInt h q b).2 ∧
    ∀ n, (QueryRowInt h q b).1 = RowScan n → (n ≤ maxTotalRows)%Z.

Lemma downloadBatches_keeps (sf : Snowflake) (tableName toSelectFields : string)
    (totalRows : Z) :
  ∀ (fuel : nat) (offset : Z) (gz : list string) (w : world B),
  I (backend w) →
  I (backend (downloadBatches fuel sf tableName toSelectFields totalRows offset gz w).2).
Proof.
  induction fuel as [|fuel IH]; intros offset gz w Hw; [done|].
  cbn [downloadBatches]. unfold_reads. unfold_m. simpl.
  pose proof (I_QueryStrings (DB sf)
                (downloadSQL toSelectFields (schemaIdentifier sf) tableName offset)
                (backend w) Hw) as Hb.
  destruct (QueryStrings _ _ _) as [[e|rows] b1]; simpl in *; [done|].
  destruct (writeRows _ _) as [gz1 [e|]]; simpl; [done|].
  destruct (strings_Err rows); simpl; [done|].
  destruct (_ <=? _)%Z; simpl; [done|]. by apply IH.
Qed.

Local Arguments downloadBatches : simpl never.

Lemma getFromTable_returns (sf : Snowflake) (tableName : string) (gz : list string)
    (w : world B) :
  I (backend w) →
  ∃ more err,
    (getFromTable sf tableName gz w).1 = Return (Some (gz ++ more, err)) ∧
    I (backend (getFromTable sf tableName gz w).2) ∧
    only_on_handle (DB sf) w (getFromTable sf tableName gz w).2.
Proof.
  intros Hw. unfold getFromTable. unfold_reads. unfold_m. simpl.
  pose proof (I_QueryRowBool (DB sf) (tableExistsSQL (Namespace sf) tableName)
                (backend w) Hw) as Hb1.
  destruct (QueryRowBool _ _ (backend w)) as [[e|e|[|]] b1]; simpl in *;
    try (exists [], (Some e); rewrite app_nil_r; split; [done|]; split; [done|];
         on_handle_now);
    try (exists [], None; rewrite app_nil_r; split; [done|]; split; [done|];
         on_handle_now).
  match goal with
  | |- context [QueryRowInt ?h ?q b1] =>
      destruct (I_QueryRowInt h q b1 Hb1) as [Hb2 Hcount];
      destruct (QueryRowInt h q b1) as [[e|e|totalRows] b2]
  end; simpl in *;
    try (exists [], (Some e); rewrite app_nil_r; split; [done|]; split; [done|];
         on_handle_now).
  specialize (Hcount totalRows eq_refl).
  pose proof (I_QueryRowBool (DB sf)
                (columnExistsSQL (Namespace sf) tableName "ANONYMOUS_ID") b2 Hb2) as Hb3.
  destruct (QueryRowBool _ _ b2) as [[e|e|hasAnonymousID] b3]; simpl in *;
    try (exists [], (Some e); rewrite app_nil_r; split; [done|]; split; [done|];
         on_handle_now).
  pose proof (I_QueryRowBool (DB sf)
                (columnExistsSQL (Namespace sf) tableName "USER_ID") b3 Hb3) as Hb4.
  destruct (QueryRowBool _ _ b3) as [[e|e|hasUserID] b4]; simpl in *;
    try (exists [], (Some e); rewrite app_nil_r; split; [done|]; split; [done|];
         on_handle_now).
  set (w4 := World b4 _).
  assert (only_on_handle (DB sf) w w4) as Hon by (subst w4; on_handle_now).
  assert (∀ toSelectFields,
    ∃ more err,
      (downloadBatches (S (Z.to_nat (totalRows / batchSize))) sf tableName
         toSelectFields totalRows 0 gz w4).1 = Return (Some (gz ++ more, err)) ∧
      I (backend (downloadBatches (S (Z.to_nat (totalRows / batchSize))) sf tableName
                    toSelectFields totalRows 0 gz w4).2) ∧
      only_on_handle (DB sf) w
        (downloadBatches (S (Z.to_nat (totalRows / batchSize))) sf tableName
           toSelectFields totalRows 0 gz w4).2) as Hbatches.
  { intros fields.
    destruct (downloadBatches_from sf tableName fields totalRows Hcount
                (S (Z.to_nat (totalRows / batchSize))) 0 gz w4)
      as (n & more & err & _ & _ & Hret & _ & _ & Hon').
    { pose proof (pagesOf_positive totalRows). lia. }
    { pose proof (pagesOf_fuel totalRows). lia. }
    change (Z.of_nat 0 * batchSize)%Z with 0%Z in *.
    exists more, err. split; [done|]. split.
    - apply downloadBatches_keeps. by subst w4.
    - by eapply only_on_handle_trans. }
  destruct hasAnonymousID, hasUserID; simpl; try apply Hbatches.
  exists [], None. rewrite app_nil_r. split; [done|]. split; [done|].
  eapply only_on_handle_trans; [exact Hon|].
  apply (only_on_handle_step (DB sf) w4). repeat constructor.
Qed.

Lemma downloadTables_returns (sf : Snowflake) (tables : list string) :
  ∀ (gz : list string) (w : world B),
  I (backend w) →
  ∃ more err,
    (downloadTables sf tables gz w).1 = Return (Some (gz ++ more, err)) ∧
    I (backend (downloadTables sf tables gz w).2) ∧
    only_on_handle (DB sf) w (downloadTables sf tables gz w).2.
Proof.
  induction tables as [|t rest IH]; intros gz w Hw.
  - exists [], None. simpl. rewrite app_nil_r. split; [done|]. split; [done|].
    apply only_on_handle_refl.
  - cbn [downloadTables]. unfold mbind, M_bind.
    destruct (getFromTable_returns sf t gz w Hw) as (more & err & Hret & Hb & Hon).
    destruct (getFromTable sf t gz w) as [r w1]. simpl in *. subst r.
    destruct err as [e|].
    + exists more, (Some e). by repeat split.
    + destruct (IH (gz ++ more) w1 Hb) as (more' & err' & Hret' & Hb' & Hon').
      exists (more ++ more'), err'. rewrite app_assoc.
      split; [done|]. split; [done|]. by eapply only_on_handle_trans.
Qed.

End Invariant.

(** X29. [DownloadIdentityRules] against a database that never reports a
    row count within 10000 of the largest [int64] ([I] is what holds of
    the database all along): the batch loops end, so the download
    returns; what the gzip writer held is still there, with the records
    of the download after it; and every query went to [sf.DB]. *)
Theorem DownloadIdentityRules_returns
    (sf : Snowflake) (I : B → Prop) (gz : list string) (w : world B) :
  (∀ h q b, I b → I (QueryRowBool h q b).2) →
  (∀ h q b, I b → I (QueryStrings h q b).2) →
  (∀ h q b, I b →
     I (QueryRowInt h q b).2 ∧
     ∀ n, (QueryRowInt h q b).1 = RowScan n → (n ≤ maxTotalRows)%Z) →
  I (backend w) →
  let res := DownloadIdentityRules sf gz w in
  ∃ more err,
    res.1 = Return (Some (gz ++ more, err)) ∧
    I (backend res.2) ∧
    only_on_handle (DB sf) w res.2.
Proof.
  intros HB HS HI Hw res. subst res. unfold DownloadIdentityRules.
  by apply (downloadTables_returns I HB HS HI).
Qed.

End MoreIdentityRules.

(** ** The further properties on examples *)

Ltac computed Hw := vm_compute in Hw; vm_compute; exact Hw.

Section Examples.
Local Existing Instance Demo.externals.
Local Existing Instance plain_csv.

(** X1 on a scripted database that refuses the existence query, and on one that answers it with no rows. *)
Lemma CreateSchema_existence_query_fails_witness :
  let denied := errorString "permission denied" in
  let sf := Demo.sf true in
  let refused := CreateSchema sf (World [ARowBool (RowErr denied)] []) in
  let missing :=
    CreateSchema sf (World [ARowBool (RowScanErr ErrNoRows); AExec None] []) in
  (refused.1 = Return (Some denied) ∧
   statements (trace refused.2) = [] ++ [schemaExistsSQL (Namespace sf)]) ∧
  (missing.1 = Return None ∧
   statements (trace missing.2) =
     [] ++ [schemaExistsSQL (Namespace sf); createSchemaSQL (schemaIdentifier sf)]).
Proof.
  intros denied sf refused missing. split.
  - destruct (CreateSchema_existence_query_fails sf
                 (World [ARowBool (RowErr denied)] []) (RowErr denied) [] denied)
      as [Hrefused _]; [reflexivity|reflexivity|].
    apply Hrefused. discriminate.
  - destruct (CreateSchema_existence_query_fails sf
                 (World [ARowBool (RowScanErr ErrNoRows); AExec None] [])
                 (RowScanErr ErrNoRows) [AExec None] ErrNoRows)
      as [_ Hmissing]; [reflexivity|reflexivity|].
    apply Hmissing. reflexivity.
Defined.

(** X3 for a destination on Rudder storage, one with a storage integration, and one on another cloud without one. *)
Lemma authString_clause_witness :
  let integrated := Cases.sf "AWS" {[ "storageIntegration" := "rudder_s3" ]} in
  let rudder :=
    Cases.sf "AWS" (<[ "useRudderStorage" := "true" ]>
                      {[ "storageIntegration" := "rudder_s3" ]}) in
  let azure := Cases.sf "AZURE" ∅ in
  authString rudder =
    "CREDENTIALS = (AWS_KEY_ID='AKIAEXAMPLE' AWS_SECRET_KEY='s3cr3t' AWS_TOKEN='t0k3n')" ∧
  authString integrated = "STORAGE_INTEGRATION = rudder_s3" ∧
  authString azure = "STORAGE_INTEGRATION = ".
Proof.
  intros integrated rudder azure. split; [|split].
  - destruct (authString_clause rudder) as (Hw & _ & _).
    specialize (Hw ltac:(vm_compute; reflexivity)). computed Hw.
  - destruct (authString_clause integrated) as (_ & Hw & _).
    specialize (Hw ltac:(vm_compute; reflexivity)
                   ltac:(right; vm_compute; intros Heq; discriminate Heq)).
    computed Hw.
  - destruct (authString_clause azure) as (_ & _ & Hw).
    specialize (Hw ltac:(vm_compute; reflexivity)
                   ltac:(vm_compute; intros Heq; discriminate Heq)
                   ltac:(vm_compute; reflexivity)).
    computed Hw.
Defined.

(** X6 on a scripted load of TRACKS whose bulk copy is refused. *)
Lemma loadTable_failure_wraps_cause_witness :
  let refused := errorString "stage not found" in
  let script := [AOpen (inr 7%nat); AExec None; AExec None; AExec (Some refused)] in
  let res :=
    loadTable (Demo.sf true) "TRACKS" (Demo.schemaOf "TRACKS") false (World script []) in
  let err := wrapError "copy into table: stage not found" refused in
  res.1 = Return ({| resp_db := None; stagingTable := "" |}, Some err) ∧
  (∃ prefix cause,
     prefix ∈ loadTable_stages ∧
     err = wrapError (prefix +:+ Error cause) cause ∧
     errors_Is err cause = true) ∧
  (∀ tags n, EStat "dedup_rows" tags n ∈ trace res.2 → EStat "dedup_rows" tags n ∈ []).
Proof.
  intros refused script res err.
  assert (res.1 = Return ({| resp_db := None; stagingTable := "" |}, Some err)) as Hres
    by (vm_compute; reflexivity).
  split; [exact Hres|].
  destruct (loadTable_failure_wraps_cause (Demo.sf true) "TRACKS" (Demo.schemaOf "TRACKS")
              false (World script []) _ err Hres) as (_ & Hcause & Hstat).
  split; [exact Hcause|exact Hstat].
Defined.

(** X7 on a scripted load of TRACKS that goes through. *)
Lemma loadTable_success_statements_witness :
  let sf := Demo.sf true in
  let schema := Demo.schemaOf "TRACKS" in
  let script := [AOpen (inr 7%nat); AExec None; AExec None; AExec None;
                 ARowCounts (RowScan (3, 2)%Z)] in
  let res := loadTable sf "TRACKS" schema false (World script []) in
  let resp := {| resp_db := Some 7%nat; stagingTable := "RUDDER_STAGING_TRACKS" |} in
  res.1 = Return (resp, None) ∧
  ∃ db csvObjectLocation merge counts,
    resp = {| resp_db := Some db;
              stagingTable := StagingTableName provider "TRACKS" tableNameLimit |} ∧
    GetSampleLoadFileLocation (sf_Uploader sf) "TRACKS" = inr csvObjectLocation ∧
    dedupSQL sf "TRACKS" (strKeysOf schema)
      (ShouldOnDedupUseNewRecord (sf_Uploader sf)) = Return merge ∧
    statements (trace res.2) =
      [] ++ [alterSessionSQL;
             createTemporaryTableSQL (schemaIdentifier sf)
               (StagingTableName provider "TRACKS" tableNameLimit) "TRACKS";
             loadTableCopySQL sf "TRACKS" schema csvObjectLocation;
             merge] ∧
    (∃ b : list answer, (QueryRowCounts db merge b).1 = RowScan counts) ∧
    EStat "dedup_rows" (dedupTags sf "TRACKS") counts.2 ∈ trace res.2 ∧
    (false = false → last (trace res.2) = Some (EClose db)) ∧
    (false = true → EClose db ∈ trace res.2 → EClose db ∈ []).
Proof.
  intros sf schema script res resp.
  assert (res.1 = Return (resp, None)) as Hres by (vm_compute; reflexivity).
  split; [exact Hres|].
  exact (loadTable_success_statements sf "TRACKS" schema false (World script []) resp Hres).
Defined.

(** X8 on a scripted load of TRACKS whose bulk copy is refused. *)
Lemma LoadTable_closes_its_connection_witness :
  let script := [AOpen (inr 7%nat); AExec None; AExec None;
                 AExec (Some (errorString "stage not found"))] in
  let res := LoadTable (Demo.sf true) "TRACKS" (World script []) in
  EOpen 7%nat ∈ trace res.2 ∧
  (last (trace res.2) = Some (EClose 7%nat) ∨
   ∃ cause, res.1 = Return (Some (Errorf_w "connect: "
                                    (Errorf_v "SF: snowflake alter session error : "
                                       cause)))).
Proof.
  intros script res.
  assert (EOpen 7%nat ∈ trace res.2) as Hopen
    by (apply (bool_decide_unpack _); vm_compute; exact I).
  split; [exact Hopen|].
  apply (LoadTable_closes_its_connection (Demo.sf true) "TRACKS" (World script []) 7%nat
           Hopen).
  apply not_elem_of_nil.
Defined.

(** X10 on a scripted users load whose staging table is refused. *)
Lemma loadUserTables_closes_after_identifies_load_witness :
  let sf := Cases.sf "AWS" ∅ in
  let script := [AOpen (inr 7%nat); AExec None; AExec None; AExec None;
                 ARowCounts (RowScan (3, 2)%Z);
                 AExec (Some (errorString "SQL compilation error"))] in
  let w := World script [] in
  let load :=
    loadTable sf identifiesTable
      (GetTableSchemaInUpload (sf_Uploader sf) identifiesTable) true
      (World (backend w)
         (trace w ++ [ELog LInfo "started loading for identifies and users tables"
                        (loadFields sf)])) in
  let resp := {| resp_db := Some 7%nat; stagingTable := "RUDDER_STAGING_IDENTIFIES" |} in
  load = (Return (resp, None), load.2) ∧
  ∃ db m,
    resp_db resp = Some db ∧
    EOpen db ∈ trace load.2 ∧
    (loadUserTables sf w).1 = Return m ∧
    last (trace (loadUserTables sf w).2) = Some (EClose db).
Proof.
  intros sf script w load resp.
  assert (load = (Return (resp, None), load.2)) as Hload by (vm_compute; reflexivity).
  split; [exact Hload|].
  exact (loadUserTables_closes_after_identifies_load sf w load.2 resp Hload).
Defined.

(** X11 on the upload without users. *)
Lemma loadUserTables_without_users_schema_witness :
  let sf := Demo.sf true in
  let script := [AOpen (inr 7%nat); AExec None; AExec None; AExec None;
                 ARowCounts (RowScan (3, 2)%Z)] in
  let w := World script [] in
  let load :=
    loadTable sf identifiesTable
      (GetTableSchemaInUpload (sf_Uploader sf) identifiesTable) true
      (World (backend w)
         (trace w ++ [ELog LInfo "started loading for identifies and users tables"
                        (loadFields sf)])) in
  let resp := {| resp_db := Some 7%nat; stagingTable := "RUDDER_STAGING_IDENTIFIES" |} in
  size (GetTableSchemaInUpload (sf_Uploader sf) usersTable) = 0%nat ∧
  (loadUserTables sf w).1 = Return {[ identifiesTable := None ]} ∧
  statements (trace (loadUserTables sf w).2) = statements (trace load.2).
Proof.
  intros sf script w load resp.
  assert (size (GetTableSchemaInUpload (sf_Uploader sf) usersTable) = 0%nat) as Hsize
    by (vm_compute; reflexivity).
  assert (load = (Return (resp, None), load.2)) as Hload by (vm_compute; reflexivity).
  split; [exact Hsize|].
  exact (loadUserTables_without_users_schema sf w load.2 resp Hsize Hload).
Defined.

(** X12 on a scripted users load whose staging table is refused. *)
Lemma loadUserTables_result_entries_witness :
  let sf := Cases.sf "AWS" ∅ in
  let script := [AOpen (inr 7%nat); AExec None; AExec None; AExec None;
                 ARowCounts (RowScan (3, 2)%Z);
                 AExec (Some (errorString "SQL compilation error"))] in
  let failed :=
    Errorf_w "creating staging table for users: " (errorString "SQL compilation error") in
  let m : gmap string (option error) :=
    <["USERS" := Some failed]> {[ "IDENTIFIES" := None ]} in
  (loadUserTables sf (World script [])).1 = Return m ∧
  is_Some (m !! identifiesTable) ∧
  (∀ tableName, is_Some (m !! tableName) →
                tableName = identifiesTable ∨ tableName = usersTable) ∧
  (is_Some (m !! usersTable) → m !! identifiesTable = Some None).
Proof.
  intros sf script failed m.
  assert ((loadUserTables sf (World script [])).1 = Return m) as Hres
    by (vm_compute; reflexivity).
  split; [exact Hres|].
  apply (loadUserTables_result_entries sf (World script []) m); [|exact Hres].
  intros Heq. discriminate Heq.
Defined.

(** X13 on a scripted users load that goes through; PLAN is a column of the users table that identifies has not. *)
Lemma loadUserTables_success_statements_witness :
  let sf := Cases.sf "AWS" ∅ in
  let script := [AOpen (inr 7%nat); AExec None; AExec None; AExec None;
                 ARowCounts (RowScan (3, 2)%Z); AExec None;
                 ARowCounts (RowScan (1, 4)%Z)] in
  let w := World script [] in
  let load :=
    loadTable sf identifiesTable
      (GetTableSchemaInUpload (sf_Uploader sf) identifiesTable) true
      (World (backend w)
         (trace w ++ [ELog LInfo "started loading for identifies and users tables"
                        (loadFields sf)])) in
  let resp := {| resp_db := Some 7%nat; stagingTable := "RUDDER_STAGING_IDENTIFIES" |} in
  let m : gmap string (option error) := <["USERS" := None]> {[ "IDENTIFIES" := None ]} in
  let columns :=
    userColumnsOf (rangeKeys (GetTableSchemaInWarehouse (sf_Uploader sf) usersTable)) in
  let identifiesSchema := GetTableSchemaInUpload (sf_Uploader sf) identifiesTable in
  let stagingTableName := StagingTableName provider usersTable tableNameLimit in
  let columnNames := Go.quote "ID" :: map Go.quote columns in
  let staging :=
    usersStagingSQL (schemaIdentifier sf) stagingTableName
      (Go.Join (map firstValPropsQuery columns) ",") usersTable (stagingTable resp)
      (Go.Join (map Go.quote columns) ",")
      (Go.Join (map (λ colName, match identifiesSchema !! colName with
                                | Some _ => Go.quote colName
                                | None => "NULL as " +:+ Go.quote colName
                                end) columns) ",") in
  let merge :=
    usersMergeSQL usersTable stagingTableName (Go.Join columnNames ",") (Go.quote "ID")
      (Go.Join (map (λ colName, "original." +:+ colName +:+ " = staging." +:+ colName)
                    columnNames) ",")
      (Go.Join (map (λ colName, "staging." +:+ colName) columnNames) ",")
      (schemaIdentifier sf) in
  Go.Join (map (λ colName, match identifiesSchema !! colName with
                           | Some _ => Go.quote colName
                           | None => "NULL as " +:+ Go.quote colName
                           end) columns) ","
    = Go.quote "EMAIL" +:+ ",NULL as " +:+ Go.quote "PLAN" ∧
  ∃ db (counts : Z * Z),
    resp_db resp = Some db ∧
    m = <[usersTable := None]> {[ identifiesTable := None ]} ∧
    statements (trace (loadUserTables sf w).2) = statements (trace load.2) ++ [staging; merge] ∧
    EExec db staging ∈ trace (loadUserTables sf w).2 ∧
    EQueryRow db merge ∈ trace (loadUserTables sf w).2 ∧
    (∃ b : list answer, (QueryRowCounts db merge b).1 = RowScan counts) ∧
    EStat "dedup_rows" (dedupTags sf UsersTable) counts.2 ∈ trace (loadUserTables sf w).2 ∧
    last (trace (loadUserTables sf w).2) = Some (EClose db).
Proof.
  intros sf script w load resp m columns identifiesSchema stagingTableName columnNames
    staging merge.
  split; [vm_compute; reflexivity|].
  apply (loadUserTables_success_statements sf w load.2 resp m).
  - intros Heq. discriminate Heq.
  - vm_compute. reflexivity.
  - vm_compute. reflexivity.
  - vm_compute. reflexivity.
Defined.

(** X14 on a scripted merge rules load with temporary credentials: the statement has the secret, the log line has not. *)
Lemma LoadIdentityMergeRulesTable_logs_sanitised_witness :
  let sf := Demo.sf true in
  let script := [AOpen (inr 7%nat); AExec None; AExec None] in
  let loadFile := {| Location := "s3://bucket/RUDDER_IDENTITY_MERGE_RULES/load.csv.gz" |} in
  let copy := mergeRulesCopySQL sf loadFile in
  let sanitised :=
    match ReplaceMultiRegex copy secretsRegex with
    | inr s => s
    | inl _ => ""
    end in
  let msg := "SF: Dedup records for table:" +:+ identityMergeRulesTable
               +:+ " using staging table: " +:+ sanitised +:+ Go.nl in
  let res := LoadIdentityMergeRulesTable sf (World script []) in
  ELog LInfo msg [] ∈ trace res.2 ∧
  Go.Contains copy "AWS_SECRET_KEY='s3cr3t'" = true ∧
  Go.Contains msg "s3cr3t" = false ∧
  ∃ loadFile' sanitised',
    GetSingleLoadFile (sf_Uploader sf) identityMergeRulesTable = inr loadFile' ∧
    ReplaceMultiRegex
      (identityCopySQL (schemaIdentifier sf +:+ "." +:+ Go.quote identityMergeRulesTable)
         "MERGE_PROPERTY_1_TYPE,MERGE_PROPERTY_1_VALUE,MERGE_PROPERTY_2_TYPE,MERGE_PROPERTY_2_VALUE"
         (GetObjectLocation (ObjectStorage sf) (Location loadFile'))
         (authString sf))
      secretsRegex = inr sanitised' ∧
    msg = "SF: Dedup records for table:" +:+ identityMergeRulesTable
            +:+ " using staging table: " +:+ sanitised' +:+ Go.nl.
Proof.
  intros sf script loadFile copy sanitised msg res.
  assert (ELog LInfo msg [] ∈ trace res.2) as Hlog
    by (apply (bool_decide_unpack _); vm_compute; exact I).
  split; [exact Hlog|].
  split; [vm_compute; reflexivity|]. split; [vm_compute; reflexivity|].
  apply (LoadIdentityMergeRulesTable_logs_sanitised sf (World script []) LInfo msg []
           Hlog).
  - apply not_elem_of_nil.
  - vm_compute. reflexivity.
Defined.

(** X15 in the environment whose [ReplaceMultiRegex] fails. *)
Lemma LoadIdentityMergeRulesTable_copy_despite_sanitising_witness :
  let sf := Demo.sf true in
  let script := [AOpen (inr 7%nat); AExec None; AExec None] in
  let w : world (list answer) := World script [] in
  let loadFile := {| Location := "s3://bucket/RUDDER_IDENTITY_MERGE_RULES/load.csv.gz" |} in
  let connected :=
    connect (H := Cases.no_regex) sf {| schemaName := Namespace sf |}
      (identityLoadStart (identityMergeRulesTable (Externals := Cases.no_regex)) w) in
  let copy := mergeRulesCopySQL (H := Cases.no_regex) sf loadFile in
  let res := LoadIdentityMergeRulesTable (H := Cases.no_regex) sf w in
  ReplaceMultiRegex (Externals := Cases.no_regex) copy secretsRegex
    = inl (errorString "error parsing regexp") ∧
  res.1 = Return (ExecContext 7%nat copy (backend connected.2)).1 ∧
  statements (trace res.2) = statements (trace connected.2) ++ [copy] ∧
  ∃ final, trace res.2 = trace connected.2 ++ [EExec 7%nat copy; final].
Proof.
  intros sf script w loadFile connected copy res.
  assert (connected = (Return (inr 7%nat), connected.2)) as Hconnect
    by (vm_compute; reflexivity).
  destruct (LoadIdentityMergeRulesTable_copy_despite_sanitising (H := Cases.no_regex)
              sf w connected.2 loadFile 7%nat eq_refl Hconnect)
    as (Hret & Hst & Hquiet).
  split; [reflexivity|]. split; [exact Hret|]. split; [exact Hst|].
  apply (Hquiet (errorString "error parsing regexp")). reflexivity.
Defined.

(** X16 on a scripted database that accepts every statement. *)
Lemma identity_loads_leave_connection_open_witness :
  let sf := Demo.sf true in
  let script := [AOpen (inr 7%nat); AExec None; AExec None; AExec None; AExec None;
                 AExec None] in
  let w : world (list answer) := World script [] in
  let rules := LoadIdentityMergeRulesTable sf w in
  let mappings := LoadIdentityMappingsTable sf w in
  rules.1 = Return None ∧
  mappings.1 = Return None ∧
  closed (trace rules.2) = closed (trace w) ∧
  closed (trace mappings.2) = closed (trace w) ∧
  (∃ db, opened (trace rules.2) = opened (trace w) ++ [db]) ∧
  (∃ db, opened (trace mappings.2) = opened (trace w) ++ [db]).
Proof.
  intros sf script w rules mappings.
  assert (rules.1 = Return None) as Hrules by (vm_compute; reflexivity).
  assert (mappings.1 = Return None) as Hmappings by (vm_compute; reflexivity).
  destruct (identity_loads_leave_connection_open sf w) as (H1 & H2 & H3 & H4).
  split; [exact Hrules|]. split; [exact Hmappings|].
  split; [exact H1|]. split; [exact H2|]. split; [exact (H3 Hrules)|exact (H4 Hmappings)].
Defined.

(** X17 on a scripted database that refuses the ALTER for lack of privileges. *)
Lemma LoadIdentityMappingsTable_stops_on_alter_error_witness :
  let sf := Demo.sf true in
  let denied := errorString "insufficient privileges" in
  let rest := [AExec None; AExec None] in
  let script := [AOpen (inr 7%nat); AExec None; AExec None; AExec (Some denied)] ++ rest in
  let w : world (list answer) := World script [] in
  let connected :=
    connect sf {| schemaName := Namespace sf |}
      (identityLoadStart identityMappingsTable w) in
  let stagingTableName := StagingTableName provider identityMappingsTable tableNameLimit in
  let create :=
    mappingsCreateTemporaryTableSQL (schemaIdentifier sf) stagingTableName
      identityMappingsTable in
  let alter := addAutoincrementSQL (schemaIdentifier sf) stagingTableName in
  let res := LoadIdentityMappingsTable sf w in
  checkAndIgnoreAlreadyExistError (Some denied) = false ∧
  res.1 = Return (Some denied) ∧
  backend res.2 = rest ∧
  statements (trace res.2) = statements (trace connected.2) ++ [create; alter].
Proof.
  intros sf denied rest script w connected stagingTableName create alter res.
  assert (connected = (Return (inr 7%nat), connected.2)) as Hconnect
    by (vm_compute; reflexivity).
  split; [reflexivity|].
  apply (LoadIdentityMappingsTable_stops_on_alter_error sf w connected.2
           {| Location := "s3://bucket/RUDDER_IDENTITY_MAPPINGS/load.csv.gz" |} 7%nat
           (AExec (Some denied) :: rest) rest denied).
  - reflexivity.
  - exact Hconnect.
  - vm_compute. reflexivity.
  - reflexivity.
  - reflexivity.
Defined.

(** X18 on the example catalog: AGE of USERS is a NUMBER of scale 0. *)
Lemma FetchSchema_recognized_column_witness :
  let rows := {| rows_scans := map inr Cases.catalog; rows_Err := None |} in
  ∃ schema unrecognizedSchema w',
    FetchSchema (Demo.sf true) (World [ARows (inr rows)] [])
      = (Return (inr (schema, unrecognizedSchema)), w') ∧
    column_of schema "USERS" "AGE" = Some "int" ∧
    column_of unrecognizedSchema "USERS" "AGE" = None.
Proof.
  intros rows.
  apply (FetchSchema_recognized_column (Demo.sf true) (World [ARows (inr rows)] []) []
           rows Cases.catalog Cases.age_column "int").
  - reflexivity.
  - reflexivity.
  - reflexivity.
  - apply (bool_decide_unpack _). vm_compute. exact I.
  - apply list_elem_of_further, list_elem_of_further, list_elem_of_here.
  - reflexivity.
Defined.

(** X19 on the example catalog. *)
Lemma FetchSchema_tables_witness :
  let rows := {| rows_scans := map inr Cases.catalog; rows_Err := None |} in
  ∃ schema unrecognizedSchema w',
    FetchSchema (Demo.sf true) (World [ARows (inr rows)] [])
      = (Return (inr (schema, unrecognizedSchema)), w') ∧
    (∀ t, is_Some (schema !! t) ↔ t ∈ map col_table Cases.catalog) ∧
    (∀ t, is_Some (unrecognizedSchema !! t) ↔
          ∃ r, r ∈ Cases.catalog ∧ col_table r = t ∧
               calculateDataType (col_type r) (col_scale r) = None) ∧
    (∀ t, t ∈ map col_table Cases.catalog →
          (∀ r, r ∈ Cases.catalog → col_table r = t →
                calculateDataType (col_type r) (col_scale r) = None) →
          schema !! t = Some ∅).
Proof.
  intros rows.
  apply (FetchSchema_tables (Demo.sf true) (World [ARows (inr rows)] []) []
           rows Cases.catalog); reflexivity.
Defined.

(** X20 for a wrapped [sql.ErrNoRows] and for a connection error. *)
Lemma FetchSchema_query_fails_witness :
  let sf := Demo.sf true in
  let empty := wrapError "snowflake: sql: no rows in result set" ErrNoRows in
  let down := errorString "connection reset" in
  let quiet := FetchSchema sf (World [ARows (inl empty)] []) in
  let failed := FetchSchema sf (World [ARows (inl down)] []) in
  quiet.1 = Return (inr (∅, ∅)) ∧
  failed.1 = Return (inl (wrapError ("fetching schema: " +:+ Error down) down)) ∧
  statements (trace failed.2) = [] ++ [fetchSchemaSQL].
Proof.
  intros sf empty down quiet failed.
  destruct (FetchSchema_query_fails sf (World [ARows (inl empty)] []) [] empty)
    as (Hquiet & _ & _); [reflexivity|].
  destruct (FetchSchema_query_fails sf (World [ARows (inl down)] []) [] down)
    as (_ & Hfailed & Hst); [reflexivity|].
  split; [apply Hquiet; reflexivity|]. split; [apply Hfailed; reflexivity|exact Hst].
Defined.

(** X21 on two rows that scan, the second of unknown type, before a row that does not. *)
Lemma FetchSchema_row_failures_witness :
  let sf := Demo.sf true in
  let broken := errorString "converting NULL to string is unsupported" in
  let seen := [Cases.id_column; Cases.location_column] in
  let cut := {| rows_scans := map inr seen ++ inl broken :: [inr Cases.age_column];
                rows_Err := None |} in
  let lost := {| rows_scans := map inr seen; rows_Err := Some broken |} in
  FetchSchema sf (World [ARows (inr cut)] []) =
    (Return (inl (wrapError ("scanning schema: " +:+ Error broken) broken)),
     World [] (([] ++ [EQuery (DB sf) fetchSchemaSQL [Namespace sf]])
                 ++ missingCounters seen)) ∧
  FetchSchema sf (World [ARows (inr lost)] []) =
    (Return (inl (wrapError ("fetching schema: " +:+ Error broken) broken)),
     World [] (([] ++ [EQuery (DB sf) fetchSchemaSQL [Namespace sf]])
                 ++ missingCounters seen)) ∧
  missingCounters seen =
    [EStat "warehouse_rudder_missing_datatype" [("datatype", "GEOGRAPHY")] 1].
Proof.
  intros sf broken seen cut lost.
  destruct (FetchSchema_row_failures sf (World [ARows (inr cut)] []) [] cut seen)
    as (Hcut & _); [reflexivity|].
  destruct (FetchSchema_row_failures sf (World [ARows (inr lost)] []) [] lost seen)
    as (_ & Hlost); [reflexivity|].
  split; [apply (Hcut broken [inr Cases.age_column]); reflexivity|].
  split; [apply (Hlost broken); reflexivity|]. reflexivity.
Defined.

(** X22 for two tables. *)
Lemma DeleteBy_disabled_sends_nothing_witness :
  let sf := Demo.sf true in
  let config := {| slowQueryThreshold := 300; enableDeleteByJobs := false |} in
  let w : world (list answer) := World [AExec None; AExec None] [] in
  let res := DeleteBy sf config ["TRACKS"; "PAGES"] Cases.params w in
  res.1 = Return None ∧
  backend res.2 = backend w ∧
  statements (trace res.2) = statements (trace w) ∧
  (∀ tb, tb ∈ ["TRACKS"; "PAGES"] →
     ELog LDebug ("SF: Executing the sql statement "
                    +:+ deleteBySQL (Namespace sf) tb Cases.params) [] ∈ trace res.2).
Proof.
  intros sf config w res.
  apply (DeleteBy_disabled_sends_nothing sf config ["TRACKS"; "PAGES"] Cases.params w).
  reflexivity.
Defined.

(** X23 for three tables, the second of which is locked. *)
Lemma DeleteBy_stops_at_first_error_witness :
  let sf := Demo.sf true in
  let config := {| slowQueryThreshold := 300; enableDeleteByJobs := true |} in
  let locked := errorString "table is locked" in
  let w : world (list answer) := World [AExec None; AExec (Some locked); AExec None] [] in
  let tableNames := ["TRACKS"; "PAGES"; "SCREENS"] in
  let res := DeleteBy sf config tableNames Cases.params w in
  res.1 = Return (Some locked) ∧
  statements (trace res.2) =
    [deleteBySQL "ANALYTICS" "TRACKS" Cases.params;
     deleteBySQL "ANALYTICS" "PAGES" Cases.params] ∧
  ∃ n, (n ≤ length tableNames)%nat ∧
    statements (trace res.2) =
      statements (trace w)
        ++ map (λ tb, deleteBySQL (Namespace sf) tb Cases.params) (take n tableNames) ∧
    match res.1 with
    | Return None => n = length tableNames
    | Return (Some err) =>
        ∃ tb (b : list answer), tableNames !! (n - 1)%nat = Some tb ∧ (0 < n)%nat ∧
                (ExecContext (DB sf) (deleteBySQL (Namespace sf) tb Cases.params) b).1
                = Some err
    | Panic _ => False
    end.
Proof.
  intros sf config locked w tableNames res.
  split; [vm_compute; reflexivity|]. split; [vm_compute; reflexivity|].
  apply (DeleteBy_stops_at_first_error sf config tableNames Cases.params w).
  reflexivity.
Defined.

(** X25 on a scripted warehouse in which TRACKS is missing, PAGES has no rows and SCREENS has five. *)
Lemma IsEmpty_closes_its_connection_witness :
  let sf := Demo.sf true in
  let warehouse := Cases.wh ∅ in
  let s := {| answers := [AOpen (inr 7%nat); AExec None; ARowBool (RowScan false);
                          ARowBool (RowScan true); ARowBool (RowScan true)];
              counts := [RowScan 0%Z; RowScan 5%Z];
              pages := [] |} in
  let w := World s [] in
  let connected := connect (withWarehouse sf warehouse) {| schemaName := "" |} w in
  let res := IsEmpty sf warehouse w in
  res.1 = Return (false, None) ∧
  (∃ empty err, res.1 = Return (empty, err)) ∧
  (∃ evs, trace res.2 = trace connected.2 ++ evs ++ [EClose 7%nat] ∧
          Forall (on_handle 7%nat) evs) ∧
  last (trace res.2) = Some (EClose 7%nat).
Proof.
  intros sf warehouse s w connected res.
  assert (connected = (Return (inr 7%nat), connected.2)) as Hconnect
    by (vm_compute; reflexivity).
  split; [vm_compute; reflexivity|].
  exact (IsEmpty_closes_its_connection sf warehouse w connected.2 7%nat Hconnect).
Defined.

(** X28 for a table of 25000 rows: three batches. *)
Lemma downloadBatches_pages_witness :
  let sf := Demo.sf true in
  let s := {| answers := []; counts := [];
              pages := [Cases.page Cases.ids; Cases.page []; Cases.page []] |} in
  let w := World s [] in
  let fields := Go.quote "ANONYMOUS_ID" +:+ ", " +:+ Go.quote "USER_ID" in
  let res :=
    downloadBatches (S (Z.to_nat (25000 / batchSize))) sf "TRACKS" fields 25000 0 [] w in
  batchOffsets 25000 = [0; 10000; 20000]%Z ∧
  ∃ n more err,
    (1 ≤ n ≤ length (batchOffsets 25000))%nat ∧
    res.1 = Return (Some ([] ++ more, err)) ∧
    statements (trace res.2)
      = statements (trace w)
          ++ map (downloadSQL fields (schemaIdentifier sf) "TRACKS")
                 (take n (batchOffsets 25000)) ∧
    (err = None → n = length (batchOffsets 25000)).
Proof.
  intros sf s w fields res. split; [vm_compute; reflexivity|].
  apply (downloadBatches_pages sf "TRACKS" fields 25000 [] w).
  vm_compute. intros Hgt. discriminate Hgt.
Defined.

Lemma scripts_keep_small_counts :
  (∀ h q b, Cases.small_counts b → Cases.small_counts (QueryRowBool h q b).2) ∧
  (∀ h q b, Cases.small_counts b → Cases.small_counts (QueryStrings h q b).2) ∧
  (∀ h q b, Cases.small_counts b →
     Cases.small_counts (QueryRowInt h q b).2 ∧
     ∀ n, (QueryRowInt h q b).1 = RowScan n → (n ≤ maxTotalRows)%Z).
Proof.
  unfold Cases.small_counts. split; [|split].
  - intros h q [a c p] Hc. simpl. unfold on_answers. simpl.
    by destruct a as [|[] ?].
  - intros h q [a c p] Hc. simpl. by destruct p.
  - intros h q [a c p] Hc. simpl in *. destruct c as [|r c]; simpl.
    + split; [done|]. intros n Hn. discriminate Hn.
    + apply Forall_cons in Hc as [Hr Hc]. split; [done|]. intros n ->. by apply Hr.
Qed.

(** X29 on a scripted warehouse that has TRACKS alone, with 25000 rows. *)
Lemma DownloadIdentityRules_returns_witness :
  let sf := Demo.sf true in
  let s := {| answers := [ARowBool (RowScan true); ARowBool (RowScan true);
                          ARowBool (RowScan true); ARowBool (RowScan false);
                          ARowBool (RowScan false); ARowBool (RowScan false);
                          ARowBool (RowScan false)];
              counts := [RowScan 25000%Z];
              pages := [Cases.page Cases.ids; Cases.page []; Cases.page []] |} in
  let w := World s [] in
  let res := DownloadIdentityRules sf [] w in
  res.1 = Return (Some (["anonymous_id,anon-1,user_id,user-1" +:+ Go.nl;
                         "user_id,user-2,anonymous_id," +:+ Go.nl;
                         "anonymous_id,anon-3,user_id," +:+ Go.nl], None)) ∧
  ∃ more err,
    res.1 = Return (Some ([] ++ more, err)) ∧
    Cases.small_counts (backend res.2) ∧
    only_on_handle (DB sf) w res.2.
Proof.
  intros sf s w res. split; [vm_compute; reflexivity|].
  destruct scripts_keep_small_counts as (HB & HS & HI).
  apply (DownloadIdentityRules_returns sf Cases.small_counts [] w HB HS HI).
  unfold Cases.small_counts. simpl. repeat constructor.
  intros n Hn. injection Hn as <-. vm_compute. intros Hgt. discriminate Hgt.
Defined.

(** The rows of ids of the example, as CSV without quoting: the row with
    two NULLs is left out, and the user id comes first where there is no
    anonymous id. *)
Example writeRows_ids :
  writeRows Cases.ids [] =
    (["anonymous_id,anon-1,user_id,user-1" +:+ Go.nl;
      "user_id,user-2,anonymous_id," +:+ Go.nl;
      "anonymous_id,anon-3,user_id," +:+ Go.nl], None).
Proof. vm_compute. reflexivity. Qed.

(** The ALTER of [AddColumns] for two columns and for none. *)
Example addColumnsSQL_two_columns :
  addColumnsSQL (Go.quote "ANALYTICS") "TRACKS"
    [{| Name := "PLAN"; Type_ := "string" |}; {| Name := "AGE"; Type_ := "int" |}]
  = Go.nl +:+ Go.ln 2 "ALTER TABLE"
      +:+ Go.ln 2 ("  " +:+ Go.quote "ANALYTICS" +:+ "." +:+ Go.quote "TRACKS")
      +:+ Go.tabs 2 +:+ "ADD COLUMN " +:+ Go.quote "PLAN" +:+ " varchar, "
      +:+ Go.quote "AGE" +:+ " number;" ∧
  addColumnsSQL (Go.quote "ANALYTICS") "TRACKS" []
  = Go.nl +:+ Go.ln 2 "ALTER TABLE"
      +:+ Go.ln 2 ("  " +:+ Go.quote "ANALYTICS" +:+ "." +:+ Go.quote "TRACKS")
      +:+ Go.tabs 2 +:+ "ADD COLUMN;".
Proof. split; vm_compute; reflexivity. Qed.

(** [IsEmpty] when none of the five tables is there, and when the
    existence query fails. *)
Example IsEmpty_cases :
  let sf := Demo.sf true in
  let absent := ARowBool (RowScan false) in
  let denied := errorString "permission denied" in
  let none := {| answers := [AOpen (inr 7%nat); AExec None; absent; absent; absent;
                             absent; absent];
                 counts := []; pages := [] |} in
  let failing := {| answers := [AOpen (inr 7%nat); AExec None; ARowBool (RowErr denied)];
                    counts := []; pages := [] |} in
  (IsEmpty sf (Cases.wh ∅) (World none [])).1 = Return (true, None) ∧
  length (statements (trace (IsEmpty sf (Cases.wh ∅) (World none [])).2)) = 6%nat ∧
  (IsEmpty sf (Cases.wh ∅) (World failing [])).1 = Return (true, Some denied) ∧
  last (trace (IsEmpty sf (Cases.wh ∅) (World failing [])).2) = Some (EClose 7%nat).
Proof. repeat split; vm_compute; reflexivity. Qed.

End Examples.
